(** * Product intelligence tools: seasonality, trend and classification

    A shallow embedding of [tools.py]: the three tool classes
    [SeasonalityAnalysisTool], [TrendAnalysisTool] and
    [ProductClassificationTool], each with one entry point [_run].

    Numbers.  The Python code computes with numpy [float64] scalars.  They
    are embedded as exact rationals extended with the IEEE special values
    ([Np.float]): arithmetic on finite values is that of the real
    numbers (no rounding, no overflow, one unsigned zero, sums that do not
    depend on their order), while division by zero, the infinities and NaN
    behave as numpy scalars do (a warning at most, never an exception,
    every ordered comparison with NaN false).  A number the code computes
    differs from the one here by its rounding error, and a comparison of
    two computed numbers can fall on the other side when they are within
    that error of each other.  Statements below that depend on this say
    so.

    Files.  A frame holds rows whose sales cell is a number, read into a
    column of 64-bit integers or of floats as [pd.read_csv] does, and
    whose date cell is a date or a text that [pd.to_datetime] rejects.
    Blank cells, text in the sales column and whole numbers that no
    64-bit integer type holds (pandas keeps such a column as text) are
    outside the embedding.  Statements that need one of these limits say
    so.

    Exceptions.  Code that can raise lives in the [result] monad; the
    blanket [except Exception as e] of each [_run] is the function
    [catch_as]. *)

From Stdlib Require Import QArith Qabs Qminmax Qround ZArith List String Ascii Lia Lqa Bool.
From Stdlib Require Import DecimalString Sorting.Permutation Sorting.Sorted.
Import ListNotations.

Open Scope Q_scope.

(* ================================================================= *)
(** ** Numpy scalars *)

Module Np.

Inductive float : Type :=
| Fin (q : Q)
| PInf
| NInf
| NaN.

Definition Qltb (x y : Q) : bool := negb (Qle_bool y x).

(** Equality of values (rationals are compared up to [Qeq]). *)
Definition feq (a b : float) : Prop :=
  match a, b with
  | Fin x, Fin y => x == y
  | PInf, PInf | NInf, NInf | NaN, NaN => True
  | _, _ => False
  end.

Definition is_nan (a : float) : bool :=
  match a with NaN => true | _ => false end.


(** [a < b]; false as soon as one side is NaN. *)
Definition flt (a b : float) : bool :=
  match a, b with
  | NaN, _ | _, NaN => false
  | Fin x, Fin y => Qltb x y
  | NInf, NInf => false
  | NInf, _ => true
  | _, PInf => match a with PInf => false | _ => true end
  | _, _ => false
  end.

(** [a > b] *)
Definition fgt (a b : float) : bool := flt b a.

Definition fneg (a : float) : float :=
  match a with
  | Fin x => Fin (- x)
  | PInf => NInf
  | NInf => PInf
  | NaN => NaN
  end.

Definition fadd (a b : float) : float :=
  match a, b with
  | NaN, _ | _, NaN => NaN
  | Fin x, Fin y => Fin (x + y)
  | PInf, NInf | NInf, PInf => NaN
  | PInf, _ | _, PInf => PInf
  | NInf, _ | _, NInf => NInf
  end.

Definition fsub (a b : float) : float := fadd a (fneg b).

Definition fabs (a : float) : float :=
  match a with
  | Fin x => Fin (Qabs x)
  | PInf | NInf => PInf
  | NaN => NaN
  end.

(** [a / b] on numpy scalars: a zero divisor gives an infinity or NaN. *)
Definition fdiv (a b : float) : float :=
  match a, b with
  | NaN, _ | _, NaN => NaN
  | Fin x, Fin y =>
      if Qeq_bool y 0 then
        if Qltb 0 x then PInf else if Qltb x 0 then NInf else NaN
      else Fin (x / y)
  | Fin _, _ => Fin 0
  | _, Fin y => if Qltb y 0 then fneg a else a
  | _, _ => NaN
  end.

Definition fmul (a b : float) : float :=
  match a, b with
  | NaN, _ | _, NaN => NaN
  | Fin x, Fin y => Fin (x * y)
  | Fin x, i | i, Fin x =>
      if Qeq_bool x 0 then NaN else if Qltb x 0 then fneg i else i
  | PInf, PInf | NInf, NInf => PInf
  | _, _ => NInf
  end.

(** Python's builtin [min(a, b)]: [b] when [b < a], else [a]. *)
Definition pymin (a b : float) : float := if flt b a then b else a.

(** Python's builtin [max(a, b)]: [b] when [b > a], else [a]. *)
Definition pymax (a b : float) : float := if fgt b a then b else a.

(** [lo <= a <= hi] on finite values; false for NaN and infinities. *)
Definition between (lo hi : Q) (a : float) : Prop :=
  match a with
  | Fin x => lo <= x /\ x <= hi
  | _ => False
  end.

End Np.

Import Np.

(* ================================================================= *)
(** ** Exceptions *)

(** A raised Python exception: its class name and [str(e)]. *)
Record Exception : Type := mkExc { exc_type : string; exc_str : string }.

Inductive result (A : Type) : Type :=
| Ok (a : A)
| Raise (e : Exception).

Arguments Ok {A} a.
Arguments Raise {A} e.

Definition bind {A B : Type} (m : result A) (k : A -> result B) : result B :=
  match m with
  | Ok a => k a
  | Raise e => Raise e
  end.

Notation "x <- m ;; k" := (bind m (fun x => k))
  (at level 61, m at next level, right associativity).

Notation "'do_' m ;; k" := (bind m (fun _ => k))
  (at level 61, m at next level, right associativity).

(** [try: return body  except Exception as e: return prefix + str(e)] *)
Definition catch_as (prefix : string) (body : result string) : string :=
  match body with
  | Ok s => s
  | Raise e => (prefix ++ exc_str e)%string
  end.

(* ================================================================= *)
(** ** Pandas: frames, series, group-by and selection *)

Module Pd.

(** A parsed [Date] cell. *)
Record Timestamp : Type := mkTs { year : nat; month : nat; day : nat }.

Definition ts_ltb (a b : Timestamp) : bool :=
  (year a <? year b)%nat
  || ((year a =? year b)%nat
      && ((month a <? month b)%nat
          || ((month a =? month b)%nat && (day a <? day b)%nat))).

(** A cell of the sales column: a whole number as the file writes it, or
    a number written with a decimal point or an exponent.  Blank and text
    cells are not modelled, nor is a column of whole numbers that neither
    [int64] nor [uint64] holds, which pandas keeps as text. *)
Inductive Cell : Type :=
| Int (z : Z)
| Float (q : Q).

Definition value (c : Cell) : Q :=
  match c with
  | Int z => inject_Z z
  | Float q => q
  end.

(** The type [pd.read_csv] gives a column of numbers: [int64] when every
    cell is a whole number that fits, else [uint64] when every cell is a
    whole number from 0 to 2^64 - 1, else [float64], the type of a
    column with a decimal cell. *)
Inductive Dtype : Type := int64 | uint64 | float64.

Definition fits_int64 (c : Cell) : bool :=
  match c with
  | Int z => (- 2 ^ 63 <=? z)%Z && (z <? 2 ^ 63)%Z
  | Float _ => false
  end.

Definition fits_uint64 (c : Cell) : bool :=
  match c with
  | Int z => (0 <=? z)%Z && (z <? 2 ^ 64)%Z
  | Float _ => false
  end.

Definition column_type (cells : list Cell) : Dtype :=
  if forallb fits_int64 cells then int64
  else if forallb fits_uint64 cells then uint64
  else float64.

(** [a - b] on two numpy scalars of a column's type: integers wrap
    around (with a warning at most), floats do not. *)
Definition wrap_int64 (z : Z) : Z := ((z + 2 ^ 63) mod 2 ^ 64 - 2 ^ 63)%Z.

Definition wrap_uint64 (z : Z) : Z := (z mod 2 ^ 64)%Z.

Definition scalar_sub (t : Dtype) (a b : Q) : Q :=
  match t with
  | int64 => inject_Z (wrap_int64 (Qfloor a - Qfloor b))
  | uint64 => inject_Z (wrap_uint64 (Qfloor a - Qfloor b))
  | float64 => a - b
  end.

(** One line of the CSV file.  [product] and [sales] are the cells of the
    product and sales columns the tool selects; [date] is what
    [pd.to_datetime] makes of the [Date] cell where it stands among the
    rows of its product: the timestamp, or the exception raised for a
    text it rejects.  A blank [Date] cell is not modelled. *)
Record Row : Type := mkRow
  { product : string; date : result Timestamp; sales : Cell }.

(** A frame as [pd.read_csv] returns it: the names in the header and the
    rows.  The type of its sales column follows from the cells
    ([sales_type]); in a file with no rows pandas has nothing to type
    the columns by and makes them [object]. *)
Record DataFrame : Type := mkDf { columns : list string; rows : list Row }.

Definition sales_type (df : DataFrame) : Dtype :=
  column_type (map sales (rows df)).

Definition header_only (df : DataFrame) : bool :=
  match rows df with
  | [] => true
  | _ => false
  end.

(** [Series.nlargest] on the monthly means: it rejects a series of type
    [object], which is what the means of a file without rows are. *)
Definition object_series : Exception :=
  mkExc "TypeError" "Cannot use method 'nlargest' with dtype object".

Definition numeric_series (df : DataFrame) : result unit :=
  if header_only df then Raise object_series else Ok tt.

Definition has_column (df : DataFrame) (c : string) : bool :=
  existsb (String.eqb c) (columns df).

Definition KeyError (key : string) : Exception :=
  mkExc "KeyError" ("'" ++ key ++ "'").

(** [df[c]]: the column must exist. *)
Definition getitem (df : DataFrame) (c : string) : result unit :=
  if has_column df c then Ok tt else Raise (KeyError c).

(** [df.groupby(...)[c]]: the same, with the group-by wording. *)
Definition getitem_grouped (df : DataFrame) (c : string) : result unit :=
  if has_column df c then Ok tt
  else Raise (KeyError ("Column not found: " ++ c)).

(** [data[data[product_col] == product_name]] *)
Definition select_product (df : DataFrame) (product_name : string)
  : list Row :=
  filter (fun r => String.eqb (product r) product_name) (rows df).

(** A product's rows once the [Date] column is parsed. *)
Definition Obs : Type := (Timestamp * Q)%type.

Fixpoint to_datetime (l : list Row) : result (list Obs) :=
  match l with
  | [] => Ok []
  | r :: l' =>
      match date r with
      | Raise e => Raise e
      | Ok t => l'' <- to_datetime l' ;; Ok ((t, value (sales r)) :: l'')
      end
  end.

(** Stable insertion sort; [lt x y] says that [x] goes strictly before
    [y].  An element never overtakes one it does not strictly precede. *)
Section Sort.
Context {A : Type} (lt : A -> A -> bool).

Fixpoint insert (x : A) (l : list A) : list A :=
  match l with
  | [] => [x]
  | y :: l' => if lt y x then y :: insert x l' else x :: l
  end.

Definition sort (l : list A) : list A := fold_right insert [] l.
End Sort.

(** The order on rows numbered by position: by date, and among rows
    of one date by [rank] of the position. *)
Definition date_rank_ltb (rank : nat -> nat) (a b : nat * Obs) : bool :=
  ts_ltb (fst (snd a)) (fst (snd b))
  || (negb (ts_ltb (fst (snd b)) (fst (snd a)))
      && (rank (fst a) <? rank (fst b))%nat).

(** [product_data.sort_values('Date')]: ascending dates.  pandas sorts
    with numpy's quicksort, which is not stable: where rows share a date
    their order is numpy's choice, a function of the column of dates.
    [tie_rank dates i] is the rank that choice gives the row at position
    [i]; rows of one date come out by ascending rank, and in file order
    where their ranks are equal too. *)
Definition sort_values_Date (tie_rank : list Timestamp -> nat -> nat)
  (l : list Obs) : list Obs :=
  map snd (sort (date_rank_ltb (tie_rank (map fst l)))
                (combine (seq 0 (List.length l)) l)).

(** A series indexed by month number, as [groupby('Month')] returns it. *)
Definition Series : Type := list (nat * Q).

Definition index (s : Series) : list nat := map fst s.
Definition values (s : Series) : list Q := map snd s.

Fixpoint group_insert (k : nat) (v : Q) (g : list (nat * list Q))
  : list (nat * list Q) :=
  match g with
  | [] => [(k, [v])]
  | (k', vs) :: g' =>
      if (k <? k')%nat then (k, [v]) :: g
      else if (k =? k')%nat then (k', vs ++ [v]) :: g'
      else (k', vs) :: group_insert k v g'
  end.

(** Groups in ascending key order, each with its values in row order. *)
Definition groups (l : list (nat * Q)) : list (nat * list Q) :=
  fold_left (fun g kv => group_insert (fst kv) (snd kv) g) l [].

Definition Qsum (l : list Q) : Q := fold_right Qplus 0 l.

Definition Qlen (l : list Q) : Q := inject_Z (Z.of_nat (List.length l)).

(** Mean of a non-empty list of numbers. *)
Definition Qmean (l : list Q) : Q := Qsum l / Qlen l.

(** [product_data.groupby('Month')[sales_col].mean()] *)
Definition groupby_Month_mean (l : list Obs) : Series :=
  map (fun g => (fst g, Qmean (snd g)))
      (groups (map (fun o => (month (fst o), snd o)) l)).

(** [Series.mean()]: NaN on an empty series. *)
Definition mean (s : Series) : float :=
  match s with
  | [] => NaN
  | _ => Fin (Qmean (values s))
  end.

(** [Series.max()] and [Series.min()]: NaN on an empty series. *)
Definition max (s : Series) : float :=
  match values s with
  | [] => NaN
  | v :: vs => Fin (fold_left Qmax vs v)
  end.

Definition min (s : Series) : float :=
  match values s with
  | [] => NaN
  | v :: vs => Fin (fold_left Qmin vs v)
  end.

(** Sum of squared deviations from [m]. *)
Definition sum_sq_dev (m : Q) (l : list Q) : Q :=
  Qsum (map (fun v => (v - m) * (v - m)) l).

(** [Series.std()]: the sample standard deviation (one degree of freedom
    removed), NaN with fewer than two values.  [sqrt] is numpy's. *)
Definition std (sqrt : Q -> Q) (s : Series) : float :=
  match s with
  | [] | [_] => NaN
  | _ =>
      let vs := values s in
      Fin (sqrt (sum_sq_dev (Qmean vs) vs / (Qlen vs - 1)))
  end.

(** [Series.nlargest(n)] and [Series.nsmallest(n)] with the default
    [keep='first']: among equal values the earlier entry comes first. *)
Definition nlargest (n : nat) (s : Series) : Series :=
  firstn n (sort (fun a b => Qltb (snd b) (snd a)) s).

Definition nsmallest (n : nat) (s : Series) : Series :=
  firstn n (sort (fun a b => Qltb (snd a) (snd b)) s).

(** [.iloc[0]] and [.iloc[-1]] *)
Definition IndexError : Exception :=
  mkExc "IndexError" "single positional indexer is out-of-bounds".

Definition iloc_first (l : list Q) : result Q :=
  match l with
  | [] => Raise IndexError
  | v :: _ => Ok v
  end.

Definition iloc_last (l : list Q) : result Q :=
  match l with
  | [] => Raise IndexError
  | v :: l' => Ok (last l' v)
  end.

(** [.tail(n)] *)
Definition tail {A : Type} (n : nat) (l : list A) : list A :=
  skipn (List.length l - n) l.

End Pd.

(* ================================================================= *)
(** ** Scikit-learn: ordinary least squares on one predictor *)

Module Sk.

Import Pd.

Record LinearRegression : Type := mkLR { coef_ : Q; intercept_ : Q }.

(** [np.array(range(n)).reshape(-1, 1)] *)
Definition arange (n : nat) : list Q :=
  map (fun i => inject_Z (Z.of_nat i)) (seq 0 n).

Definition no_samples : Exception :=
  mkExc "ValueError"
    "Found array with 0 sample(s) (shape=(0, 1)) while a minimum of 1 is required by LinearRegression.".

(** Sum of products of deviations. *)
Definition sum_dev_prod (mx my : Q) (X y : list Q) : Q :=
  Qsum (map (fun p => (fst p - mx) * (snd p - my)) (combine X y)).

(** [LinearRegression().fit(X, y)]: centre both sides and solve the
    least-squares problem; when the centred predictor is all zero the
    minimum-norm solution has coefficient 0.  An empty sample is
    rejected by input validation.  The solution is the exact one, which
    scikit-learn's float64 solver approaches up to rounding. *)
Definition fit (X y : list Q) : result LinearRegression :=
  match y with
  | [] => Raise no_samples
  | _ =>
      let mx := Qmean X in
      let my := Qmean y in
      let sxx := sum_sq_dev mx X in
      let coef := if Qeq_bool sxx 0 then 0 else sum_dev_prod mx my X y / sxx in
      Ok (mkLR coef (my - coef * mx))
  end.

Definition predict (m : LinearRegression) (X : list Q) : list Q :=
  map (fun x => intercept_ m + coef_ m * x) X.

(** [r2_score(y_true, y_pred)]: undefined (NaN, with a warning) below two
    samples; 1 for a perfect fit; 0 when the data has no variance but
    the fit is not perfect; else [1 - SS_res / SS_tot]. *)
Definition r2_score (y_true y_pred : list Q) : float :=
  if (List.length y_pred <? 2)%nat then NaN
  else
    let num :=
      Qsum (map (fun p => (fst p - snd p) * (fst p - snd p))
                (combine y_true y_pred)) in
    let den := sum_sq_dev (Qmean y_true) y_true in
    if Qeq_bool num 0 then Fin 1
    else if Qeq_bool den 0 then Fin 0
    else Fin (1 - num / den).

(** [model.score(X, y)] *)
Definition score (m : LinearRegression) (X y : list Q) : float :=
  r2_score y (predict m X).

End Sk.

(* ================================================================= *)
(** ** Python text: number formatting and string methods *)

Module Py.

Open Scope string_scope.

Definition nl : string := String "010" "".

(** [str(n)] for a non-negative integer. *)
Definition str_Z (n : Z) : string := NilZero.string_of_uint (N.to_uint (Z.to_N n)).

Definition str_nat (n : nat) : string := NilZero.string_of_uint (Nat.to_uint n).

(** Nearest integer of a non-negative rational, ties to even. *)
Definition round_half_even (q : Q) : Z :=
  let n := Qnum q in
  let d := Zpos (Qden q) in
  let k := (n / d)%Z in
  let r := (n mod d)%Z in
  if (2 * r <? d)%Z then k
  else if (d <? 2 * r)%Z then (k + 1)%Z
  else if Z.even k then k else (k + 1)%Z.

Fixpoint zeros (n : nat) : string :=
  match n with
  | O => ""
  | S n' => "0" ++ zeros n'
  end.

Definition zfill (w : nat) (s : string) : string :=
  zeros (w - String.length s) ++ s.

(** [format(q, '.<d>f')] for a finite value. *)
Definition format_fixed (d : nat) (q : Q) : string :=
  let p := (10 ^ Z.of_nat d)%Z in
  let scaled := round_half_even (Qabs q * inject_Z p) in
  (if Qltb q 0 then "-" else "")
  ++ str_Z (scaled / p)
  ++ (if (d =? 0)%nat then "" else "." ++ zfill d (str_Z (scaled mod p))).

(** [format(x, '.<d>f')], and [format(x, '+.<d>f')] when [plus] is set. *)
Definition format_f (plus : bool) (d : nat) (x : float) : string :=
  match x with
  | Fin q => (if plus && negb (Qltb q 0) then "+" else "") ++ format_fixed d q
  | PInf => if plus then "+inf" else "inf"
  | NInf => "-inf"
  | NaN => if plus then "+nan" else "nan"
  end.

(** [format(x, '.<d>%')] *)
Definition format_pct (d : nat) (x : float) : string :=
  format_f false d (fmul x (Fin 100)) ++ "%".

(** [', '.join([str(m) for m in ms])] *)
Definition join_months (ms : list nat) : string :=
  String.concat ", " (map str_nat ms).

(** [str(ms)] for a list of integers. *)
Definition repr_months (ms : list nat) : string :=
  "[" ++ join_months ms ++ "]".

Definition is_upper (c : ascii) : bool :=
  let n := nat_of_ascii c in ((65 <=? n) && (n <=? 90))%nat.

Definition is_lower (c : ascii) : bool :=
  let n := nat_of_ascii c in ((97 <=? n) && (n <=? 122))%nat.

Definition to_lower (c : ascii) : ascii :=
  if is_upper c then ascii_of_nat (nat_of_ascii c + 32) else c.

Definition to_upper (c : ascii) : ascii :=
  if is_lower c then ascii_of_nat (nat_of_ascii c - 32) else c.

(** [s.lower()]; only the letters A-Z have a lower case in the texts at
    hand. *)
Fixpoint lower (s : string) : string :=
  match s with
  | EmptyString => EmptyString
  | String c s' => String (to_lower c) (lower s')
  end.

(** [s.title()]: a letter is upper-cased after a non-letter and
    lower-cased after a letter. *)
Fixpoint title_from (after_letter : bool) (s : string) : string :=
  match s with
  | EmptyString => EmptyString
  | String c s' =>
      let letter := is_upper c || is_lower c in
      String (if after_letter then to_lower c else to_upper c)
             (title_from letter s')
  end.

Definition title (s : string) : string := title_from false s.

End Py.

(* ================================================================= *)
(** ** The tools *)

(** What a tool reaches outside itself: the file system behind
    [pd.read_csv], numpy's square root, and the order numpy's quicksort
    gives to equal keys (see [Pd.sort_values_Date]). *)
Record Env : Type := mkEnv
  { read_csv : string -> result Pd.DataFrame;
    sqrt : Q -> Q;
    tie_rank : list Pd.Timestamp -> nat -> nat }.

Definition hrule : string :=
  "━━━━━━━━━━━━━━━━━━━━━━━━━━━━━━━━━━━━━━━━━━━━━━━━━━━".

(** [product_col] and [sales_col]: the alternative column names. *)
Definition product_col (data : Pd.DataFrame) : string :=
  if Pd.has_column data "Product_Name" then "Product_Name" else "Product".

Definition sales_col (data : Pd.DataFrame) : string :=
  if Pd.has_column data "Weekly_Sales" then "Weekly_Sales" else "Units_Sold".

Module SeasonalityAnalysisTool.

Import Pd Py.
Open Scope string_scope.

(** The values [_run] computes before it formats them. *)
Record Locals : Type := mkLocals
  { seasonality_score : float;
    seasonal_strength : float;
    is_seasonal : bool;
    peak_months : list nat;
    low_months : list nat }.

(** Calculate monthly averages and the seasonality metrics. *)
Definition metrics (env : Env) (product_data : list Obs) : Locals :=
  let monthly_avg := groupby_Month_mean product_data in
  let seasonal_strength := fdiv (std (sqrt env) monthly_avg) (mean monthly_avg) in
  let max_month := max monthly_avg in
  let min_month := min monthly_avg in
  let seasonality_score := fdiv (fsub max_month min_month) (mean monthly_avg) in
  let peak_months := index (nlargest 3 monthly_avg) in
  let low_months := index (nsmallest 3 monthly_avg) in
  let is_seasonal := fgt seasonality_score (Fin 0.3) in
  mkLocals seasonality_score seasonal_strength is_seasonal peak_months low_months.

(** The body of the [try] block up to the f-string. *)
Definition analysis (env : Env) (data_path product_name : string)
  : result Locals :=
  data <- read_csv env data_path ;;
  do_ getitem data (product_col data) ;;
  let product_data := select_product data product_name in
  do_ getitem data "Date" ;;
  product_data <- to_datetime product_data ;;
  do_ getitem_grouped data (sales_col data) ;;
  do_ numeric_series data ;;
  Ok (metrics env product_data).

Definition report (product_name : string) (r : Locals) : string :=
  nl ++ "SEASONALITY ANALYSIS FOR " ++ product_name ++ ":" ++ nl
  ++ hrule ++ nl
  ++ "📊 Seasonality Score: " ++ format_f false 3 (seasonality_score r) ++ nl
  ++ "🌊 Seasonal Strength: " ++ format_f false 3 (seasonal_strength r) ++ nl
  ++ "🎯 Is Seasonal: " ++ (if is_seasonal r then "YES" else "NO") ++ nl
  ++ nl
  ++ "📈 PEAK MONTHS: " ++ join_months (peak_months r) ++ nl
  ++ "📉 LOW MONTHS: " ++ join_months (low_months r) ++ nl
  ++ nl
  ++ "💡 INSIGHTS:" ++ nl
  ++ (if is_seasonal r then "This product shows STRONG seasonal patterns!"
      else "This product has STABLE year-round demand.") ++ nl
  ++ "Peak performance in months: " ++ repr_months (peak_months r) ++ nl
  ++ "Consider inventory planning around these seasonal trends." ++ nl.

Definition _run (env : Env) (data_path product_name : string) : string :=
  catch_as "Error in seasonality analysis: "
    (r <- analysis env data_path product_name ;; Ok (report product_name r)).

End SeasonalityAnalysisTool.

Module TrendAnalysisTool.

Import Pd Sk Py.
Open Scope string_scope.

(** The values [_run] computes before it formats them. *)
Record Locals : Type := mkLocals
  { slope : float;
    r_squared : float;
    first_value : Q;
    last_value : Q;
    total_change_pct : float;
    recent_slope : float;
    recent_r_squared : float;
    strength : string;
    direction : string }.

(** Calculate percentage change.  [first_value] and [last_value] are
    numpy scalars of the type [t] of the sales column, and so is their
    difference; the quotient is a float. *)
Definition change_pct (t : Dtype) (first_value last_value : Q) : float :=
  if fgt (Fin first_value) (Fin 0)
  then fmul (fdiv (Fin (scalar_sub t last_value first_value))
                  (Fin first_value))
            (Fin 100)
  else Fin 0.

(** Recent trend (last 12 weeks). *)
Definition recent_trend (product_data : list Obs) (slope r_squared : float)
  : result (float * float) :=
  if (12 <=? List.length product_data)%nat then
    let recent_data := tail 12 product_data in
    let X_recent := arange (List.length recent_data) in
    let y_recent := map snd recent_data in
    recent_model <- fit X_recent y_recent ;;
    Ok (Fin (coef_ recent_model), score recent_model X_recent y_recent)
  else Ok (slope, r_squared).

(** Determine trend strength. *)
Definition strength_of (r_squared : float) : string :=
  if fgt r_squared (Fin 0.7) then "STRONG"
  else if fgt r_squared (Fin 0.4) then "MODERATE"
  else "WEAK".

(** Determine direction. *)
Definition direction_of (slope : float) : string :=
  if fgt slope (Fin 0.5) then "📈 RISING"
  else if flt slope (Fin (-0.5)) then "📉 DECLINING"
  else "➡️ STABLE".

(** Regression, percentage change, recent window and labels for a
    product's rows in date order, from a sales column of type [t]. *)
Definition metrics (t : Dtype) (product_data : list Obs) : result Locals :=
  let X := arange (List.length product_data) in
  let y := map snd product_data in
  model <- fit X y ;;
  let slope := Fin (coef_ model) in
  let r_squared := score model X y in
  first_value <- iloc_first y ;;
  last_value <- iloc_last y ;;
  let total_change_pct := change_pct t first_value last_value in
  recent <- recent_trend product_data slope r_squared ;;
  Ok (mkLocals slope r_squared first_value last_value total_change_pct
        (fst recent) (snd recent) (strength_of r_squared) (direction_of slope)).

(** The body of the [try] block up to the f-string. *)
Definition analysis (env : Env) (data_path product_name : string)
  : result Locals :=
  data <- read_csv env data_path ;;
  do_ getitem data (product_col data) ;;
  let product_data := select_product data product_name in
  do_ getitem data "Date" ;;
  product_data <- to_datetime product_data ;;
  let product_data := sort_values_Date (tie_rank env) product_data in
  do_ getitem data (sales_col data) ;;
  metrics (sales_type data) product_data.

Definition report (product_name : string) (r : Locals) : string :=
  nl ++ "TREND ANALYSIS FOR " ++ product_name ++ ":" ++ nl
  ++ hrule ++ nl
  ++ "📊 Overall Trend: " ++ direction r ++ nl
  ++ "📈 Slope: " ++ format_f false 3 (slope r) ++ " units/week" ++ nl
  ++ "🎯 R-Squared: " ++ format_f false 3 (r_squared r) ++ nl
  ++ "💪 Trend Strength: " ++ strength r ++ nl
  ++ nl
  ++ "📅 RECENT PERFORMANCE (Last 12 weeks):" ++ nl
  ++ "📈 Recent Slope: " ++ format_f false 3 (recent_slope r) ++ " units/week" ++ nl
  ++ "🎯 Recent R²: " ++ format_f false 3 (recent_r_squared r) ++ nl
  ++ nl
  ++ "📊 GROWTH METRICS:" ++ nl
  ++ "🔢 Total Change: " ++ format_f true 1 (total_change_pct r) ++ "%" ++ nl
  ++ "📈 From " ++ format_f false 0 (Fin (first_value r))
  ++ " to " ++ format_f false 0 (Fin (last_value r)) ++ " units" ++ nl
  ++ nl
  ++ "💡 STRATEGIC INSIGHT:" ++ nl
  ++ (if String.eqb (strength r) "STRONG"
      then "Strong " ++ lower (direction r) ++ " trend - high confidence predictions!"
      else title (strength r) ++ " trend - monitor closely for changes.") ++ nl.

Definition _run (env : Env) (data_path product_name : string) : string :=
  catch_as "Error in trend analysis: "
    (r <- analysis env data_path product_name ;; Ok (report product_name r)).

End TrendAnalysisTool.

Module ProductClassificationTool.

Import Pd Sk Py.
Open Scope string_scope.

(** The values [_run] computes before it formats them. *)
Record Locals : Type := mkLocals
  { slope : float;
    r_squared : float;
    seasonality_score : float;
    is_seasonal : bool;
    classification : string;
    confidence : float;
    insight : string }.

Definition RISING_STAR : string := "🔥 RISING STAR".
Definition FADING_OUT : string := "💤 FADING OUT".
Definition SEASONAL_HERO : string := "💘 SEASONAL HERO".
Definition EVERGREEN : string := "🌲 EVERGREEN".
Definition RANDOM_ERRATIC : string := "🎲 RANDOM/ERRATIC".
Definition DECLINING_SEASONAL : string := "📉 DECLINING SEASONAL".
Definition STABLE : string := "📊 STABLE".

(** Classification logic: [(classification, confidence, insight)]. *)
Definition classify (slope r_squared seasonality_score : float)
  (is_seasonal : bool) : string * float * string :=
  if fgt slope (Fin 0.5) && fgt r_squared (Fin 0.5) then
    (RISING_STAR,
     pymin (Fin 0.95) (fadd r_squared (fdiv slope (Fin 2))),
     "Strong upward trend! Consider increasing marketing investment and inventory.")
  else if flt slope (Fin (-0.5)) && fgt r_squared (Fin 0.5) then
    (FADING_OUT,
     pymin (Fin 0.95) (fadd r_squared (fdiv (fabs slope) (Fin 2))),
     "Declining trend detected. Consider product refresh or discontinuation.")
  else if is_seasonal && flt (fabs slope) (Fin 0.3) then
    (SEASONAL_HERO,
     pymin (Fin 0.9) seasonality_score,
     "Strong seasonal patterns! Plan inventory around peak months.")
  else if negb is_seasonal && flt (fabs slope) (Fin 0.3) then
    (EVERGREEN,
     fsub (Fin 0.8) seasonality_score,
     "Reliable, consistent performer. Great for steady revenue.")
  else if flt r_squared (Fin 0.3) && negb is_seasonal then
    (RANDOM_ERRATIC,
     Fin 0.6,
     "Unpredictable patterns. Investigate external factors affecting sales.")
  else if is_seasonal && flt slope (Fin (-0.2)) then
    (DECLINING_SEASONAL,
     pymin (Fin 0.85) (fadd seasonality_score (fdiv (fabs slope) (Fin 3))),
     "Seasonal product losing steam. May need repositioning.")
  else
    (STABLE,
     Fin 0.5,
     "Steady performance with no major trends.").

(** Trend, seasonality and classification for a product's rows in date
    order. *)
Definition metrics (product_data : list Obs) : result Locals :=
  let X := arange (List.length product_data) in
  let y := map snd product_data in
  model <- fit X y ;;
  let slope := Fin (coef_ model) in
  let r_squared := score model X y in
  let monthly_avg := groupby_Month_mean product_data in
  let max_month := max monthly_avg in
  let min_month := min monthly_avg in
  let seasonality_score := fdiv (fsub max_month min_month) (mean monthly_avg) in
  let is_seasonal := fgt seasonality_score (Fin 0.3) in
  let c := classify slope r_squared seasonality_score is_seasonal in
  Ok (mkLocals slope r_squared seasonality_score is_seasonal
        (fst (fst c)) (snd (fst c)) (snd c)).

(** The body of the [try] block up to the f-string. *)
Definition analysis (env : Env) (data_path product_name : string)
  : result Locals :=
  data <- read_csv env data_path ;;
  do_ getitem data (product_col data) ;;
  let product_data := select_product data product_name in
  do_ getitem data "Date" ;;
  product_data <- to_datetime product_data ;;
  let product_data := sort_values_Date (tie_rank env) product_data in
  do_ getitem data (sales_col data) ;;
  metrics product_data.

Definition report (product_name : string) (r : Locals) : string :=
  nl ++ "PRODUCT CLASSIFICATION FOR " ++ product_name ++ ":" ++ nl
  ++ hrule ++ nl
  ++ "🏷️ CLASSIFICATION: " ++ classification r ++ nl
  ++ "🎯 CONFIDENCE: " ++ format_pct 0 (confidence r) ++ nl
  ++ nl
  ++ "📊 KEY METRICS:" ++ nl
  ++ "📈 Trend Slope: " ++ format_f false 3 (slope r) ++ nl
  ++ "🎯 Trend R²: " ++ format_f false 3 (r_squared r) ++ nl
  ++ "🌊 Seasonality: " ++ (if is_seasonal r then "YES" else "NO")
  ++ " (" ++ format_f false 3 (seasonality_score r) ++ ")" ++ nl
  ++ nl
  ++ "💡 STRATEGIC RECOMMENDATION:" ++ nl
  ++ insight r ++ nl
  ++ nl
  ++ "🎯 ACTION ITEMS:" ++ nl
  ++ "• Monitor performance weekly" ++ nl
  ++ "• Adjust inventory based on classification" ++ nl
  ++ "• Consider marketing strategy alignment" ++ nl.

Definition _run (env : Env) (data_path product_name : string) : string :=
  catch_as "Error in product classification: "
    (r <- analysis env data_path product_name ;; Ok (report product_name r)).

End ProductClassificationTool.

(* ================================================================= *)
(** ** The specification's vocabulary *)

Module Spec.

Import Pd.
Module S := SeasonalityAnalysisTool.
Module T := TrendAnalysisTool.
Module C := ProductClassificationTool.

(** The seven strategic categories. *)
Inductive Category : Type :=
| RisingStar
| FadingOut
| SeasonalHero
| Evergreen
| RandomErratic
| DecliningSeasonal
| Stable.

Definition label (c : Category) : string :=
  match c with
  | RisingStar => C.RISING_STAR
  | FadingOut => C.FADING_OUT
  | SeasonalHero => C.SEASONAL_HERO
  | Evergreen => C.EVERGREEN
  | RandomErratic => C.RANDOM_ERRATIC
  | DecliningSeasonal => C.DECLINING_SEASONAL
  | Stable => C.STABLE
  end.

(** What the classifier looks at. *)
Record Inputs : Type := mkInputs
  { slope : float;
    r_squared : float;
    seasonality_score : float;
    is_seasonal : bool }.

(** A decision rule: its condition, its category and, where the rule list
    gives one, its confidence. *)
Record Rule : Type := mkRule
  { applies : Inputs -> bool;
    category : Category;
    conf : option (Inputs -> float) }.

(** The rule list, in decision order. *)
Definition rules : list Rule :=
  [ mkRule (fun i => fgt (slope i) (Fin 0.5) && fgt (r_squared i) (Fin 0.5))
      RisingStar
      (Some (fun i => pymin (Fin 0.95)
                        (fadd (r_squared i) (fdiv (slope i) (Fin 2)))));
    mkRule (fun i => flt (slope i) (Fin (-0.5)) && fgt (r_squared i) (Fin 0.5))
      FadingOut
      (Some (fun i => pymin (Fin 0.95)
                        (fadd (r_squared i) (fdiv (fabs (slope i)) (Fin 2)))));
    mkRule (fun i => is_seasonal i && flt (fabs (slope i)) (Fin 0.3))
      SeasonalHero
      (Some (fun i => pymin (Fin 0.9) (seasonality_score i)));
    mkRule (fun i => negb (is_seasonal i) && flt (fabs (slope i)) (Fin 0.3))
      Evergreen
      None;
    mkRule (fun i => flt (r_squared i) (Fin 0.3) && negb (is_seasonal i))
      RandomErratic
      (Some (fun _ => Fin 0.6));
    mkRule (fun i => is_seasonal i && flt (slope i) (Fin (-0.2)))
      DecliningSeasonal
      (Some (fun i => pymin (Fin 0.85)
                        (fadd (seasonality_score i)
                              (fdiv (fabs (slope i)) (Fin 3)))));
    mkRule (fun _ => true)
      Stable
      (Some (fun _ => Fin 0.5)) ].

(** First matching rule wins. *)
Definition first_match (i : Inputs) : option Rule :=
  find (fun r => applies r i) rules.

(** The values a grouping holds under key [k]; none when the key is
    absent. *)
Definition group_values (g : list (nat * list Q)) (k : nat) : list Q :=
  match find (fun p => (fst p =? k)%nat) g with
  | Some p => snd p
  | None => []
  end.

Definition keys_ascending (g : list (nat * list Q)) : Prop :=
  StronglySorted lt (map fst g).

(** The values of the rows keyed [k], in row order. *)
Definition keyed_values (l : list (nat * Q)) (k : nat) : list Q :=
  map snd (filter (fun kv => (fst kv =? k)%nat) l).

(** The values of the observations that fall in calendar month [m]. *)
Definition month_values (obs : list Obs) (m : nat) : list Q :=
  map snd (filter (fun o => (month (fst o) =? m)%nat) obs).

(** The distinct calendar months of a series, ascending. *)
Definition months_of (obs : list Obs) : list nat :=
  filter (fun m => existsb (fun o => (month (fst o) =? m)%nat) obs)
         (seq 0 (S (list_max (map (fun o => month (fst o)) obs)))).

(** Monthly aggregate: each month present with the mean of its values,
    all years pooled. *)
Definition monthly_means (obs : list Obs) : Series :=
  map (fun m => (m, Qmean (month_values obs m))) (months_of obs).


Definition is_maximum (M : Q) (l : list Q) : Prop :=
  In M l /\ forall x, In x l -> x <= M.

Definition is_minimum (m : Q) (l : list Q) : Prop :=
  In m l /\ forall x, In x l -> m <= x.




(** The file has the three columns the tools read. *)
Definition has_columns (data : DataFrame) : bool :=
  has_column data (product_col data)
  && has_column data "Date"
  && has_column data (sales_col data).

(** The product's series, when the file loads, has the columns the tools
    read and at least one row, and every date of the product parses. *)
Definition series_of (env : Env) (data_path product_name : string)
  : option (list Obs) :=
  match read_csv env data_path with
  | Ok data =>
      if has_columns data
      then
        if header_only data then None
        else
          match to_datetime (select_product data product_name) with
          | Ok obs => Some obs
          | Raise _ => None
          end
      else None
  | Raise _ => None
  end.


(** 2^62: sales cells below it in absolute value are read into a column
    of integers or floats on which subtraction cannot wrap around. *)
Definition two_62 : Q := inject_Z (2 ^ 62).

(** Every sales cell of the file is below [bound] in absolute value. *)
Definition sales_below (bound : Q) (env : Env) (data_path : string) : Prop :=
  forall data, read_csv env data_path = Ok data ->
  forall r, In r (rows data) -> Qabs (value (sales r)) < bound.

(** The type of the sales column of the file; a file that does not load
    has none, and nothing depends on the answer then. *)
Definition sales_type_of (env : Env) (data_path : string) : Dtype :=
  match read_csv env data_path with
  | Ok data => sales_type data
  | Raise _ => float64
  end.

(** Whole numbers small enough for float64 to hold every sum of them
    exactly, in whatever order they are added. *)
Definition whole_sales (obs : list Obs) : Prop :=
  forall o, In o obs ->
  exists z : Z,
    snd o == inject_Z z
    /\ (Z.abs z * Z.of_nat (List.length obs) <= 2 ^ 53)%Z.

Fixpoint starts_with (p s : string) : bool :=
  match p, s with
  | EmptyString, _ => true
  | String a p', String b s' => Ascii.eqb a b && starts_with p' s'
  | String _ _, EmptyString => false
  end.

End Spec.

(* ================================================================= *)
(** ** A sample file *)

Module Examples.

Import Pd.
Open Scope string_scope.

Definition row (name : string) (y m d : nat) (units : Z) : Row :=
  mkRow name (Ok (mkTs y m d)) (Int units).

Definition obs (y m d : nat) (units : Q) : Obs := (mkTs y m d, units).

(** [sales.csv]: six products.  Line rises by 10 a week (its rows are not
    in date order in the file), Ramp starts from zero, Idle never sells,
    Solo has one week of data, Summer has one week per month with a peak
    in July and August, Surge has fourteen weeks: two of clearance and
    twelve that rise by 1 a week. *)
Definition sales_csv : DataFrame :=
  mkDf ["Product"; "Date"; "Units_Sold"]
    [ row "Line" 2024 1 21 30; row "Line" 2024 1 7 10;
      row "Line" 2024 1 14 20; row "Line" 2024 2 4 50;
      row "Line" 2024 1 28 40;
      row "Ramp" 2024 1 7 0; row "Ramp" 2024 1 14 5;
      row "Ramp" 2024 1 21 10;
      row "Idle" 2024 1 7 0; row "Idle" 2024 2 4 0;
      row "Solo" 2024 3 3 7;
      row "Summer" 2023 1 1 10; row "Summer" 2023 2 5 10;
      row "Summer" 2023 3 5 10; row "Summer" 2023 4 2 10;
      row "Summer" 2023 5 7 10; row "Summer" 2023 6 4 10;
      row "Summer" 2023 7 2 30; row "Summer" 2023 8 6 30;
      row "Summer" 2023 9 3 10; row "Summer" 2023 10 1 10;
      row "Summer" 2023 11 5 10; row "Summer" 2023 12 3 10;
      row "Surge" 2024 1 7 40; row "Surge" 2024 1 14 30;
      row "Surge" 2024 1 21 1; row "Surge" 2024 1 28 2;
      row "Surge" 2024 2 4 3; row "Surge" 2024 2 11 4;
      row "Surge" 2024 2 18 5; row "Surge" 2024 2 25 6;
      row "Surge" 2024 3 3 7; row "Surge" 2024 3 10 8;
      row "Surge" 2024 3 17 9; row "Surge" 2024 3 24 10;
      row "Surge" 2024 3 31 11; row "Surge" 2024 4 7 12 ].

Definition line : list Obs :=
  [ obs 2024 1 21 30; obs 2024 1 7 10; obs 2024 1 14 20; obs 2024 2 4 50;
    obs 2024 1 28 40 ].






(** [ledger.csv]: a bulk product counted in single units, by the
    quintillion at first; pandas reads the column as [uint64]. *)
Definition ledger_csv : DataFrame :=
  mkDf ["Product"; "Date"; "Units_Sold"]
    [ row "Bulk" 2024 1 7 18000000000000000000;
      row "Bulk" 2024 1 14 1 ].

Definition bulk : list Obs :=
  [ obs 2024 1 7 18000000000000000000; obs 2024 1 14 1 ].

Definition files (path : string) : result DataFrame :=
  if String.eqb path "sales.csv" then Ok sales_csv
  else if String.eqb path "ledger.csv" then Ok ledger_csv
  else Raise (mkExc "FileNotFoundError"
                ("[Errno 2] No such file or directory: '" ++ path ++ "'")).

(** Square root to six decimals, rounded down; it stands for numpy's where
    an example needs a number. *)
Definition sqrt6 (q : Q) : Q :=
  Z.sqrt (Qnum q * 1000000000000 / Zpos (Qden q)) # 1000000.

(** A sort that leaves rows of one date in file order, and one that
    reverses them. *)
Definition file_order (dates : list Timestamp) (i : nat) : nat := i.

Definition reversed (dates : list Timestamp) (i : nat) : nat :=
  (List.length dates - i)%nat.

Definition env : Env := mkEnv files sqrt6 file_order.

(** Two deliveries on one day. *)
Definition same_day : list Obs := [ obs 2024 5 5 3; obs 2024 5 5 8 ].

(** A file without a sales column, and one with a date that does not
    parse. *)
Definition no_sales_column : Env :=
  mkEnv (fun _ => Ok (mkDf ["Product"; "Date"] [])) sqrt6 file_order.

Definition unparsed : Exception :=
  mkExc "DateParseError"
    "Unknown datetime string format, unable to parse: soon, at position 0".

Definition bad_date : Env :=
  mkEnv (fun _ => Ok (mkDf ["Product"; "Date"; "Units_Sold"]
                        [mkRow "Line" (Raise unparsed) (Int 1)]))
        sqrt6 file_order.

End Examples.

(* ================================================================= *)
(** ** The crew analyzer ([crew_analyzer.py]) *)

Module Crew.

Import Pd Py.
Open Scope string_scope.

(** [s * n] *)
Fixpoint str_mul (s : string) (n : nat) : string :=
  match n with
  | O => ""
  | S n' => s ++ str_mul s n'
  end.

(** A Python [dict] with string keys: entries in insertion order, a key
    set again keeps its place. *)
Definition Dict (V : Type) : Type := list (string * V).

Fixpoint dict_set {V : Type} (k : string) (v : V) (d : Dict V) : Dict V :=
  match d with
  | [] => [(k, v)]
  | (k', v') :: d' =>
      if String.eqb k' k then (k', v) :: d' else (k', v') :: dict_set k v d'
  end.

Fixpoint dict_get {V : Type} (k : string) (d : Dict V) : option V :=
  match d with
  | [] => None
  | (k', v') :: d' => if String.eqb k' k then Some v' else dict_get k d'
  end.

Definition keys {V : Type} (d : Dict V) : list string := map fst d.

(** [Series.unique().tolist()]: the distinct values in order of first
    appearance. *)
Definition unique (l : list string) : list string :=
  fold_left (fun acc x => if existsb (String.eqb x) acc then acc else (acc ++ [x])%list)
            l [].

(** What [self.results] holds for a product. *)
Record CrewInfo : Type := mkCrewInfo
  { agents_used : nat; tasks_completed : nat; process_type : string }.

Record Entry : Type := mkEntry
  { timestamp : string; analysis_result : string; crew_info : CrewInfo }.

(** A [CrewAIProductAnalyzer] object. *)
Record Analyzer : Type := mkAnalyzer
  { data_path : string; results : Dict Entry }.

(** What lies outside the analyzer: the library that builds the four
    tasks and the [Crew] from [data_path] and [product_name], the crew of
    agents behind [crew.kickoff()], standard output behind [print] (each
    answers or raises, and moves the world on), the clock, Python's
    [repr] of a string, and the class of an exception: an instance of
    [Exception], which [except Exception] catches, or of [BaseException]
    only ([KeyboardInterrupt], [SystemExit] and the like), which it lets
    through.  Exceptions arise in these calls only: one that Python
    raises between two statements of the analyzer (an interrupt, a lack
    of memory) is not modelled. *)
Record Outside (W : Type) : Type := mkOutside
  { assemble : W -> string -> string -> result unit * W;
    kickoff : W -> string -> string -> result string * W;
    write : W -> string -> result unit * W;
    now_isoformat : W -> string;
    repr_str : string -> string;
    is_Exception : Exception -> bool }.

Arguments mkOutside {W}.
Arguments assemble {W}.
Arguments kickoff {W}.
Arguments write {W}.
Arguments now_isoformat {W}.
Arguments repr_str {W}.
Arguments is_Exception {W}.

(** The state a call runs in: the world and what [print] has written so
    far, one entry per call that did not raise. *)
Record St (W : Type) : Type := mkSt { world : W; stdout : list string }.

Arguments mkSt {W}.
Arguments world {W}.
Arguments stdout {W}.

(** The memory a method runs in: the object [self], which an assignment
    to [self.results[...]] changes in place, and the state. *)
Record Mem (W : Type) : Type := mkMem { this : Analyzer; io : St W }.

Arguments mkMem {W}.
Arguments this {W}.
Arguments io {W}.

(** Computations over a state [S] that may raise; the state is as the
    raise left it. *)
Definition M (S A : Type) : Type := S -> result A * S.

Definition ret {S A : Type} (a : A) : M S A := fun st => (Ok a, st).

Definition sbind {S A B : Type} (m : M S A) (k : A -> M S B) : M S B :=
  fun st =>
    match m st with
    | (Ok a, st') => k a st'
    | (Raise e, st') => (Raise e, st')
    end.

Notation "x <-- m ;; k" := (sbind m (fun x => k))
  (at level 61, m at next level, right associativity).

Notation "m ;;; k" := (sbind m (fun _ => k))
  (at level 61, right associativity).

Definition lift {S A : Type} (r : result A) : M S A := fun st => (r, st).

Definition when {S : Type} (b : bool) (m : M S unit) : M S unit :=
  if b then m else ret tt.

(** [try: body  except Exception as e: handler(e)]: what the body raises
    is handled when it is an instance of [Exception], and goes on up
    otherwise; what the handler raises goes on up. *)
Definition try_except {W S A : Type} (o : Outside W) (body : M S A)
  (handler : Exception -> M S A) : M S A :=
  fun st =>
    match body st with
    | (Ok a, st') => (Ok a, st')
    | (Raise e, st') =>
        if is_Exception o e then handler e st' else (Raise e, st')
    end.

(** A step that touches the state only. *)
Definition in_state {W A : Type} (m : M (St W) A) : M (Mem W) A :=
  fun mem => let '(r, st) := m (io mem) in (r, mkMem (this mem) st).

(** [print(s)] *)
Definition print_ {W : Type} (o : Outside W) (s : string) : M (St W) unit :=
  fun st =>
    match write o (world st) s with
    | (Ok _, w) => (Ok tt, mkSt w (stdout st ++ [s])%list)
    | (Raise e, w) => (Raise e, mkSt w (stdout st))
    end.

Definition rule60 : string := str_mul "=" 60.

(** The methods of the analyzer, on the object in memory. *)
Module Self.

Definition print {W : Type} (o : Outside W) (s : string) : M (Mem W) unit :=
  in_state (print_ o s).

(** [self.data_path] *)
Definition get_data_path {W : Type} : M (Mem W) string :=
  fun mem => (Ok (data_path (this mem)), mem).

(** [self.results[product_name] = entry] *)
Definition set_result {W : Type} (product_name : string) (entry : Entry)
  : M (Mem W) unit :=
  fun mem =>
    (Ok tt,
     mkMem (mkAnalyzer (data_path (this mem))
              (dict_set product_name entry (results (this mem))))
           (io mem)).

(** [create_seasonality_task(...)] to [Crew(...)]: the tasks and the crew
    for [data_path] and [product_name]. *)
Definition crew_assemble {W : Type} (o : Outside W)
  (data_path product_name : string) : M (Mem W) unit :=
  in_state (fun st =>
              let '(r, w) := assemble o (world st) data_path product_name in
              (r, mkSt w (stdout st))).

(** [crew.kickoff()] for the crew built from [data_path] and
    [product_name]. *)
Definition crew_kickoff {W : Type} (o : Outside W)
  (data_path product_name : string) : M (Mem W) string :=
  in_state (fun st =>
              let '(r, w) := kickoff o (world st) data_path product_name in
              (r, mkSt w (stdout st))).

Definition datetime_now_isoformat {W : Type} (o : Outside W)
  : M (Mem W) string :=
  fun mem => (Ok (now_isoformat o (world (io mem))), mem).

(** [analyze_product].  The crew is assembled before the [try].  The
    entry records [len(crew.agents)] and [len(crew.tasks)], the lengths
    of the two lists of four the crew was built from. *)
Definition analyze_product {W : Type} (o : Outside W)
  (product_name : string) (verbose : bool) : M (Mem W) string :=
  when verbose
    (print o (nl ++ "🚀 INITIATING CREWAI ANALYSIS FOR: " ++ product_name) ;;;
     print o rule60 ;;;
     print o "🤖 Assembling AI Agent Team..." ;;;
     print o "   👤 Seasonality Analyst - Ready" ;;;
     print o "   👤 Trend Analyst - Ready" ;;;
     print o "   👤 Product Strategist - Ready" ;;;
     print o "   👤 Chief Analyst - Ready" ;;;
     print o rule60) ;;;
  data_path <-- get_data_path ;;
  crew_assemble o data_path product_name ;;;
  when verbose
    (print o "🎯 EXECUTING MULTI-AGENT ANALYSIS..." ;;;
     print o "   🌊 Phase 1: Seasonality Analysis..." ;;;
     print o "   📈 Phase 2: Trend Analysis..." ;;;
     print o "   🏷️ Phase 3: Strategic Classification..." ;;;
     print o "   🎯 Phase 4: Executive Synthesis..." ;;;
     print o rule60) ;;;
  try_except o
    (result <-- crew_kickoff o data_path product_name ;;
     now <-- datetime_now_isoformat o ;;
     set_result product_name
       (mkEntry now result (mkCrewInfo 4 4 "Sequential Multi-Agent")) ;;;
     when verbose
       (print o "✅ ANALYSIS COMPLETE!" ;;;
        print o rule60 ;;;
        print o ("📊 RESULTS FOR " ++ product_name ++ ":") ;;;
        print o rule60 ;;;
        print o result ;;;
        print o rule60) ;;;
     ret result)
    (fun e =>
       let error_msg :=
         "❌ CrewAI Analysis failed for " ++ product_name ++ ": " ++ exc_str e in
       when verbose (print o error_msg) ;;;
       ret error_msg).

(** The loop of [analyze_multiple_products], at position [i] of [n]. *)
Fixpoint analyze_each {W : Type} (o : Outside W) (verbose : bool)
  (i n : nat) (product_list : list string) (all_results : Dict string)
  : M (Mem W) (Dict string) :=
  match product_list with
  | [] => ret all_results
  | product :: rest =>
      when verbose
        (print o (nl ++ "📊 ANALYZING PRODUCT " ++ str_nat i ++ "/"
                  ++ str_nat n ++ ": " ++ product)) ;;;
      result <-- analyze_product o product verbose ;;
      let all_results := dict_set product result all_results in
      when verbose
        (print o ("✅ Completed " ++ product) ;;;
         when (i <? n)%nat
           (print o ("🔄 Moving to next product..." ++ nl))) ;;;
      analyze_each o verbose (S i) n rest all_results
  end.

Definition analyze_multiple_products {W : Type} (o : Outside W)
  (product_list : list string) (verbose : bool) : M (Mem W) (Dict string) :=
  when verbose
    (print o (nl ++ "🎯 MULTI-PRODUCT CREWAI ANALYSIS INITIATED") ;;;
     print o ("📦 Products to analyze: "
              ++ str_nat (List.length product_list)) ;;;
     print o "🤖 AI Agents: 4 (Seasonality, Trend, Strategy, Chief)" ;;;
     print o rule60) ;;;
  all_results <-- analyze_each o verbose 1 (List.length product_list)
                    product_list [] ;;
  when verbose
    (print o (nl ++ "🎉 ALL ANALYSES COMPLETE!") ;;;
     print o ("📊 " ++ str_nat (List.length all_results)
              ++ " products analyzed successfully") ;;;
     print o rule60) ;;;
  ret all_results.

End Self.

(** A call of a method on the object [self]: what it returns together
    with the object as the call leaves it, or what it raises. *)
Definition call {W A : Type} (m : M (Mem W) A) (self : Analyzer)
  : M (St W) (A * Analyzer) :=
  fun st =>
    let '(r, mem) := m (mkMem self st) in
    (match r with
     | Ok a => Ok (a, this mem)
     | Raise e => Raise e
     end, io mem).

Definition analyze_product {W : Type} (o : Outside W) (self : Analyzer)
  (product_name : string) (verbose : bool) : M (St W) (string * Analyzer) :=
  call (Self.analyze_product o product_name verbose) self.

Definition analyze_multiple_products {W : Type} (o : Outside W)
  (self : Analyzer) (product_list : list string) (verbose : bool)
  : M (St W) (Dict string * Analyzer) :=
  call (Self.analyze_multiple_products o product_list verbose) self.

(** [for i, product in enumerate(products, 1): print(...)] *)
Fixpoint print_products {W : Type} (o : Outside W) (i : nat)
  (products : list string) : M (St W) unit :=
  match products with
  | [] => ret tt
  | product :: rest =>
      print_ o ("   " ++ str_nat i ++ ". " ++ product) ;;;
      print_products o (S i) rest
  end.

(** [products[0]] *)
Definition first_product (products : list string) : result string :=
  match products with
  | [] => Raise (mkExc "IndexError" "list index out of range")
  | p :: _ => Ok p
  end.

(** [str(products)] for a list of strings. *)
Definition repr_list {W : Type} (o : Outside W) (l : list string) : string :=
  "[" ++ String.concat ", " (map (repr_str o) l) ++ "]".

(** The body of the [try] block of [setup_crewai_for_your_data]. *)
Definition setup_body {W : Type} (o : Outside W) (env : Env)
  (csv_file_path : string) : M (St W) (option Analyzer * list string) :=
  data <-- lift (read_csv env csv_file_path) ;;
  lift (getitem data (product_col data)) ;;;
  let products := unique (map product (rows data)) in
  print_ o "✅ Data loaded successfully!" ;;;
  print_ o ("📊 Found " ++ str_nat (List.length products) ++ " products:") ;;;
  print_products o 1 products ;;;
  let analyzer := mkAnalyzer csv_file_path [] in
  print_ o (nl ++ "🤖 CrewAI analyzer ready!") ;;;
  print_ o "📝 Usage examples:" ;;;
  print_ o "   # Analyze single product:" ;;;
  p0 <-- lift (first_product products) ;;
  print_ o ("   analyzer.analyze_product('" ++ p0 ++ "')") ;;;
  print_ o "   " ;;;
  print_ o "   # Analyze all products:" ;;;
  print_ o ("   analyzer.analyze_multiple_products(" ++ repr_list o products
            ++ ")") ;;;
  ret (Some analyzer, products).

(** Its handler. *)
Definition setup_handler {W : Type} (o : Outside W) (e : Exception)
  : M (St W) (option Analyzer * list string) :=
  print_ o ("❌ Error loading data: " ++ exc_str e) ;;;
  ret (None, []).

(** [setup_crewai_for_your_data]: [(analyzer, products)], or
    [(None, [])]. *)
Definition setup_crewai_for_your_data {W : Type} (o : Outside W) (env : Env)
  (csv_file_path : string) : M (St W) (option Analyzer * list string) :=
  print_ o "🚀 SETTING UP CREWAI FOR YOUR DATA" ;;;
  print_ o (str_mul "=" 50) ;;;
  try_except o (setup_body o env csv_file_path) (setup_handler o).

End Crew.

(* ================================================================= *)
(** ** How the analyzer's calls end *)

Module Outcome.

Import Crew.
Open Scope string_scope.

(** One step of [unique]. *)
Definition unique_step (acc : list string) (x : string) : list string :=
  if existsb (String.eqb x) acc then acc else (acc ++ [x])%list.

(** The entry [analyze_product] stores for a result, at the time [w]. *)
Definition crew_entry {W : Type} (o : Outside W) (w : W) (result : string)
  : Entry :=
  mkEntry (now_isoformat o w) result (mkCrewInfo 4 4 "Sequential Multi-Agent").

(** The string [analyze_product] returns when it has caught [e]. *)
Definition failure_message (product_name : string) (e : Exception) : string :=
  "❌ CrewAI Analysis failed for " ++ product_name ++ ": " ++ exc_str e.

(** Where an exception can come from: a [print], the assembly of the
    crew for a product, or a run of the crew that raises what is not an
    [Exception]. *)
Definition print_raises {W : Type} (o : Outside W) (e : Exception) : Prop :=
  exists w s w', write o w s = (Raise e, w').

Definition assembly_raises {W : Type} (o : Outside W)
  (data_path product_name : string) (e : Exception) : Prop :=
  exists w w', assemble o w data_path product_name = (Raise e, w').

Definition crew_escapes {W : Type} (o : Outside W)
  (data_path product_name : string) (e : Exception) : Prop :=
  exists w w',
    kickoff o w data_path product_name = (Raise e, w')
    /\ is_Exception o e = false.

(** [self'] is [self] with the answer [r] of the crew stored for the
    product. *)
Definition stored {W : Type} (o : Outside W) (self : Analyzer)
  (product_name r : string) (self' : Analyzer) : Prop :=
  exists w w',
    kickoff o w (data_path self) product_name = (Ok r, w')
    /\ self' = mkAnalyzer (data_path self)
                 (dict_set product_name (crew_entry o w' r) (results self)).

(** The ways a call of [analyze_product] on [self] ends. *)
Inductive product_outcome {W : Type} (o : Outside W) (self : Analyzer)
  (product_name : string) : result (string * Analyzer) -> Prop :=
| assembly_fails e :
    assembly_raises o (data_path self) product_name e ->
    product_outcome o self product_name (Raise e)
| print_fails e :
    print_raises o e ->
    product_outcome o self product_name (Raise e)
| crew_escape e :
    crew_escapes o (data_path self) product_name e ->
    product_outcome o self product_name (Raise e)
| crew_answers r self' :
    stored o self product_name r self' ->
    product_outcome o self product_name (Ok (r, self'))
| answer_unprinted r self' e :
    stored o self product_name r self' ->
    print_raises o e ->
    is_Exception o e = true ->
    product_outcome o self product_name
      (Ok (failure_message product_name e, self'))
| crew_fails e w w' :
    kickoff o w (data_path self) product_name = (Raise e, w') ->
    is_Exception o e = true ->
    product_outcome o self product_name
      (Ok (failure_message product_name e, self)).

(** The ways the loop of [analyze_multiple_products] over [product_list]
    ends, from [all_results] and the analyzer [self]. *)
Inductive loop_outcome {W : Type} (o : Outside W)
  : list string -> Dict string -> Analyzer ->
    result (Dict string * Analyzer) -> Prop :=
| loop_done all_results self :
    loop_outcome o [] all_results self (Ok (all_results, self))
| loop_print_fails product rest all_results self e :
    print_raises o e ->
    loop_outcome o (product :: rest) all_results self (Raise e)
| loop_product_fails product rest all_results self e :
    product_outcome o self product (Raise e) ->
    loop_outcome o (product :: rest) all_results self (Raise e)
| loop_step product rest all_results self r self1 res :
    product_outcome o self product (Ok (r, self1)) ->
    loop_outcome o rest (dict_set product r all_results) self1 res ->
    loop_outcome o (product :: rest) all_results self res.

(** What a call on [self] returned, with the object it left. *)
Definition returned {W A : Type} (r : result A) (mem : Mem W)
  : result (A * Analyzer) :=
  match r with
  | Ok a => Ok (a, this mem)
  | Raise e => Raise e
  end.

(** A block of [print] calls: it leaves the object alone, and what it
    raises a [print] raised. *)
Definition printing {W : Type} (o : Outside W) (m : M (Mem W) unit) : Prop :=
  forall mem,
    (exists mem', m mem = (Ok tt, mem') /\ this mem' = this mem)
    \/ (exists e mem',
          m mem = (Raise e, mem') /\ this mem' = this mem
          /\ print_raises o e).

(** No entry of [all_results] is anything but a failure message or the
    result stored in [self.results]. *)
Definition accounted (all_results : Dict string) (self : Analyzer) : Prop :=
  forall p r,
    dict_get p all_results = Some r ->
    (exists e, r = failure_message p e)
    \/ (exists en, dict_get p (results self) = Some en
                   /\ analysis_result en = r).

(** Every entry of [all_results] is a failure message. *)
Definition all_failed (all_results : Dict string) : Prop :=
  forall p r, dict_get p all_results = Some r ->
              exists e, r = failure_message p e.

(** What the loading steps of [setup_crewai_for_your_data] raise: the
    reading of the file, the selection of the product column, or
    [products[0]] on an empty list. *)
Definition load_raises (env : Env) (csv_file_path : string) (e : Exception)
  : Prop :=
  read_csv env csv_file_path = Raise e
  \/ exists data,
       read_csv env csv_file_path = Ok data
       /\ (Pd.getitem data (product_col data) = Raise e
           \/ (Pd.getitem data (product_col data) = Ok tt
               /\ first_product (unique (map Pd.product (Pd.rows data)))
                  = Raise e)).

(** The line the handler of [setup_crewai_for_your_data] prints. *)
Definition loading_error (e : Exception) : string :=
  "❌ Error loading data: " ++ exc_str e.

(** The file loads, has its product column and at least one row. *)
Definition loads (env : Env) (csv_file_path : string) (data : Pd.DataFrame)
  : Prop :=
  read_csv env csv_file_path = Ok data
  /\ Pd.has_column data (product_col data) = true
  /\ Pd.rows data <> [].

End Outcome.

(* ================================================================= *)
(** ** The sample data ([demo.py], [app.py]) *)

Module Demo.

Import Pd.
Open Scope string_scope.

Definition products : list string :=
  ["GlowCandle_X"; "ClassicMug_Y"; "RoseBox_Z"].

Definition month_lengths : list nat :=
  [31; 28; 31; 30; 31; 30; 31; 31; 30; 31; 30; 31]%nat.

(** Month and day of the day numbered [doy] from 0 in a year of 365
    days. *)
Fixpoint month_day (doy : nat) (lengths : list nat) (m : nat) : nat * nat :=
  match lengths with
  | [] => (m, S doy)
  | len :: rest =>
      if (doy <? len)%nat then (m, S doy)
      else month_day (doy - len) rest (S m)
  end.

(** The [k]-th date of [pd.date_range('2022-01-01', periods=104,
    freq='W')]: Sundays from 2 January 2022. *)
Definition sunday (k : nat) : Timestamp :=
  let d := (1 + 7 * k)%nat in
  let y := (2022 + d / 365)%nat in
  let md := month_day (d mod 365) month_lengths 1 in
  mkTs y (fst md) (snd md).

Definition dates : list Timestamp := map sunday (seq 0 104).

(** The random draws of [np.random.normal(0, sd)], numbered as they are
    made, and [np.sin]. *)
Record Numpy : Type := mkNumpy
  { normal : nat -> Q -> Q;
    sin : Q -> Q }.

(** [int(x)]: truncation towards zero. *)
Definition int (x : Q) : Z := Z.quot (Qnum x) (Zpos (Qden x)).

(** The pattern of each product at week [i], with the draw numbered
    [draw]. *)
Definition base_sales (np : Numpy) (product : string) (i draw : nat) : Q :=
  let qi := inject_Z (Z.of_nat i) in
  if String.eqb product "GlowCandle_X" then
    20 + (qi * 0.5) + normal np draw 5
  else if String.eqb product "ClassicMug_Y" then
    50 + sin np (qi / 8) * 10 + normal np draw 8
  else
    30 + sin np (qi / 26) * 20 + normal np draw 10.

(** ['Units_Sold': max(1, int(base_sales))] *)
Definition units_sold (np : Numpy) (product : string) (i draw : nat) : Z :=
  Z.max 1 (int (base_sales np product i draw)).

(** The rows of one product; its first draw is numbered [draw0]. *)
Definition product_rows (np : Numpy) (product : string) (draw0 : nat)
  : list Row :=
  map (fun id =>
         mkRow product (Ok (snd id))
               (Int (units_sold np product (fst id) (draw0 + fst id))))
      (combine (seq 0 (List.length dates)) dates).

Fixpoint all_rows (np : Numpy) (ps : list string) (draw0 : nat) : list Row :=
  match ps with
  | [] => []
  | p :: rest =>
      (product_rows np p draw0
       ++ all_rows np rest (draw0 + List.length dates))%list
  end.

(** The frame [create_sample_data] writes to its CSV file. *)
Definition create_sample_data (np : Numpy) : DataFrame :=
  mkDf ["Product"; "Date"; "Units_Sold"] (all_rows np products 0).

(** A silent world for examples: no noise, and a sine that is zero. *)
Definition still : Numpy := mkNumpy (fun _ _ => 0) (fun _ => 0).

Definition env_still : Env :=
  mkEnv (fun _ => Ok (create_sample_data still)) Examples.sqrt6
        Examples.file_order.

End Demo.

(* ================================================================= *)
(** ** A sample crew *)

Module Samples.

Import Crew.
Open Scope string_scope.

(** A standard output that takes everything. *)
Definition console (w : nat) (s : string) : result unit * nat := (Ok tt, w).

(** Every exception here is an [Exception]. *)
Definition all_exceptions (e : Exception) : bool := true.

(** A crew that fails on the product Idle and reports on every other one;
    the world counts its runs. *)
Definition crew : Outside nat :=
  mkOutside
    (fun w _ _ => (Ok tt, w))
    (fun w _ product_name =>
       if String.eqb product_name "Idle"
       then (Raise (mkExc "RuntimeError" "no sales to analyze"), S w)
       else (Ok ("Report on " ++ product_name), S w))
    console
    (fun w => "2025-07-01T09:00:0" ++ Py.str_nat w)
    (fun s => "'" ++ s ++ "'")
    all_exceptions.

(** A crew that cannot run at all. *)
Definition offline : Outside nat :=
  mkOutside
    (fun w _ _ => (Ok tt, w))
    (fun w _ _ => (Raise (mkExc "AuthenticationError" "no API key"), w))
    console
    (fun _ => "2025-07-01T09:00:00")
    (fun s => "'" ++ s ++ "'")
    all_exceptions.

(** A crew that cannot even be built. *)
Definition misconfigured : Outside nat :=
  mkOutside
    (fun w _ _ => (Raise (mkExc "ValidationError" "memory needs an embedder"), w))
    (fun w _ product_name => (Ok ("Report on " ++ product_name), S w))
    console
    (fun _ => "2025-07-01T09:00:00")
    (fun s => "'" ++ s ++ "'")
    all_exceptions.

(** The crew of [crew] behind a standard output that cannot encode the
    check mark of "ANALYSIS COMPLETE!" and of "Completed". *)
Definition ascii_console (w : nat) (s : string) : result unit * nat :=
  if Spec.starts_with "✅" s
  then (Raise (mkExc "UnicodeEncodeError"
                 "'ascii' codec can't encode character '✅'"), w)
  else (Ok tt, w).

Definition unprintable : Outside nat :=
  mkOutside (assemble crew) (kickoff crew) ascii_console
            (now_isoformat crew) (repr_str crew) all_exceptions.

(** The crew of [crew], interrupted from the keyboard during every
    run. *)
Definition interrupted : Outside nat :=
  mkOutside
    (fun w _ _ => (Ok tt, w))
    (fun w _ _ => (Raise (mkExc "KeyboardInterrupt" ""), w))
    console
    (fun _ => "2025-07-01T09:00:00")
    (fun s => "'" ++ s ++ "'")
    (fun e => negb (String.eqb (exc_type e) "KeyboardInterrupt")).

Definition analyzer : Analyzer := mkAnalyzer "sales.csv" [].

Definition start : St nat := mkSt 0%nat [].

End Samples.

(* ================================================================= *)
(** * Properties *)

(** ** Numbers *)

Lemma Qltb_true (x y : Q) : Qltb x y = true <-> x < y.
Proof.
  unfold Qltb. rewrite negb_true_iff.
  split; intro H.
  - apply Qnot_le_lt. intro L. apply Qle_bool_iff in L. congruence.
  - destruct (Qle_bool y x) eqn:E; [|reflexivity].
    apply Qle_bool_iff in E. exfalso. apply (Qlt_not_le _ _ H E).
Qed.

Lemma Qltb_false (x y : Q) : Qltb x y = false <-> y <= x.
Proof.
  unfold Qltb. rewrite negb_false_iff. apply Qle_bool_iff.
Qed.

Lemma Qeq_bool_false (x y : Q) : Qeq_bool x y = false <-> ~ x == y.
Proof.
  split; intro H.
  - apply Qeq_bool_neq. exact H.
  - destruct (Qeq_bool x y) eqn:E; [|reflexivity].
    apply Qeq_bool_eq in E. contradiction.
Qed.

Lemma Qdiv_half (x : Q) : x / 2 == x * (1 # 2).
Proof. field. Qed.

Lemma Qdiv_third (x : Q) : x / 3 == x * (1 # 3).
Proof. field. Qed.

Lemma feq_refl (a : float) : feq a a.
Proof. destruct a; simpl; auto. reflexivity. Qed.

Lemma feq_sym (a b : float) : feq a b -> feq b a.
Proof. destruct a, b; simpl; auto. intro H; symmetry; exact H. Qed.

Lemma feq_trans (a b c : float) : feq a b -> feq b c -> feq a c.
Proof.
  destruct a, b, c; simpl; auto; try contradiction.
  intros H1 H2. rewrite H1. exact H2.
Qed.

(** On finite numbers Python's [min] and [max] are the usual ones. *)
Lemma pymin_Fin (x y : Q) : feq (pymin (Fin x) (Fin y)) (Fin (Qmin x y)).
Proof.
  unfold pymin; simpl. destruct (Qltb y x) eqn:E; simpl.
  - apply Qltb_true in E. symmetry. apply Q.min_r. apply Qlt_le_weak, E.
  - apply Qltb_false in E. symmetry. apply Q.min_l. exact E.
Qed.

Lemma pymax_Fin (x y : Q) : feq (pymax (Fin x) (Fin y)) (Fin (Qmax x y)).
Proof.
  unfold pymax, fgt; simpl. destruct (Qltb x y) eqn:E; simpl.
  - apply Qltb_true in E. symmetry. apply Q.max_r. apply Qlt_le_weak, E.
  - apply Qltb_false in E. symmetry. apply Q.max_l. exact E.
Qed.

(** ** The classifier *)

Import Spec.

(** Distinct categories have distinct labels. *)
Lemma label_injective (a b : Category) : label a = label b -> a = b.
Proof. destruct a, b; simpl; intro H; try reflexivity; discriminate H. Qed.

Lemma label_unique (s : string) (c : Category) :
  s = label c -> exists! c', s = label c'.
Proof.
  intro H. exists c. split; [exact H|].
  intros c' H'. apply label_injective. congruence.
Qed.

(** Closes the case where the rule at hand fires: it is the first match and
    the code's branch agrees with it. *)
Ltac rule_fires :=
  eexists; split; [reflexivity|];
  split; [reflexivity|];
  cbn; intros f Hf; first [discriminate Hf | injection Hf as <-; reflexivity].

(** C1: for every input the classifier's category and confidence are those
    of the first rule, in the order 1 to 7 of the rule list, whose
    condition holds; rule 7 always applies, so there is such a rule. *)
Theorem classify_first_match
  (slope r_squared seasonality_score : float) (is_seasonal : bool) :
  let i := mkInputs slope r_squared seasonality_score is_seasonal in
  let out := C.classify slope r_squared seasonality_score is_seasonal in
  exists r,
    first_match i = Some r
    /\ fst (fst out) = label (category r)
    /\ forall f, conf r = Some f -> snd (fst out) = f i.
Proof.
  intros i out. subst i out.
  unfold first_match, rules, C.classify.
  cbn [find applies Spec.slope Spec.r_squared Spec.seasonality_score
       Spec.is_seasonal].
  destruct (fgt slope (Fin 0.5) && fgt r_squared (Fin 0.5)); [rule_fires|].
  destruct (flt slope (Fin (-0.5)) && fgt r_squared (Fin 0.5)); [rule_fires|].
  destruct (is_seasonal && flt (fabs slope) (Fin 0.3)); [rule_fires|].
  destruct (negb is_seasonal && flt (fabs slope) (Fin 0.3)); [rule_fires|].
  destruct (flt r_squared (Fin 0.3) && negb is_seasonal); [rule_fires|].
  destruct (is_seasonal && flt slope (Fin (-0.2))); rule_fires.
Qed.

(** The specification's worked example: slope 4.2 and R-squared 0.78 match
    rule 1 whatever the seasonality, with confidence 0.95. *)
Example classify_rising_star_example (score : float) (seasonal : bool) :
  let out := C.classify (Fin 4.2) (Fin 0.78) score seasonal in
  fst (fst out) = C.RISING_STAR /\ feq (snd (fst out)) (Fin 0.95).
Proof. split; reflexivity. Qed.

(** The EVERGREEN confidence is [0.8 - score] with no clamp.  On a pair
    whose flag contradicts its score (the tool never builds one, it derives
    the flag from the score) it can be negative. *)
Example evergreen_confidence_unclamped :
  let out := C.classify (Fin 0) (Fin 0.9) (Fin 1.2) false in
  fst (fst out) = C.EVERGREEN /\ feq (snd (fst out)) (Fin (-0.4)).
Proof. split; reflexivity. Qed.

Ltac qprops :=
  repeat match goal with
    | H : _ && _ = true |- _ => apply andb_true_iff in H; destruct H
    | H : negb _ = true |- _ => apply negb_true_iff in H
    | H : negb _ = false |- _ => apply negb_false_iff in H
    | H : Qltb _ _ = true |- _ => apply Qltb_true in H
    | H : Qltb _ _ = false |- _ => apply Qltb_false in H
    | H : true = false |- _ => discriminate H
    | H : false = true |- _ => discriminate H
    end.

(** Confidence of rules 1 and 2: [min(0.95, r + a/2)] with [r > 0.5] and
    [a > 0.5] is between 0 and 1. *)
Lemma trend_confidence_bounded (r : Q) (a : float) :
  0.5 < r -> r <= 1 -> fgt a (Fin 0.5) = true ->
  between 0 1 (pymin (Fin 0.95) (fadd (Fin r) (fdiv a (Fin 2)))).
Proof.
  intros Hr Hr1 Ha. destruct a as [q| | |]; try discriminate Ha.
  - unfold fgt in Ha; simpl in Ha. apply Qltb_true in Ha.
    unfold pymin; simpl.
    pose proof (Qdiv_half q) as Hq.
    destruct (Qltb (r + q / 2) 0.95) eqn:E; simpl; qprops; lra.
  - unfold pymin; simpl. lra.
Qed.

(** Confidence of rule 6: [min(0.85, s + a/3)] with [s > 0.3] and [a]
    an absolute value is between 0 and 1. *)
Lemma seasonal_confidence_bounded (s : Q) (x : float) :
  0.3 < s -> is_nan x = false ->
  between 0 1 (pymin (Fin 0.85) (fadd (Fin s) (fdiv (fabs x) (Fin 3)))).
Proof.
  intros Hs Hx. destruct x as [q| | |]; try discriminate Hx.
  - unfold pymin; simpl.
    pose proof (Qdiv_third (Qabs q)) as Hq.
    pose proof (Qabs_nonneg q) as Hn.
    destruct (Qltb (s + Qabs q / 3) 0.85) eqn:E; simpl; qprops; lra.
  - unfold pymin; simpl. lra.
  - unfold pymin; simpl. lra.
Qed.

(** Whatever the input, the classifier's label is one of the seven. *)
Lemma classify_labels
  (slope r_squared seasonality_score : float) (is_seasonal : bool) :
  exists c,
    fst (fst (C.classify slope r_squared seasonality_score is_seasonal))
    = label c.
Proof.
  unfold C.classify.
  destruct (fgt slope (Fin 0.5) && fgt r_squared (Fin 0.5));
    [exists RisingStar; reflexivity|].
  destruct (flt slope (Fin (-0.5)) && fgt r_squared (Fin 0.5));
    [exists FadingOut; reflexivity|].
  destruct (is_seasonal && flt (fabs slope) (Fin 0.3));
    [exists SeasonalHero; reflexivity|].
  destruct (negb is_seasonal && flt (fabs slope) (Fin 0.3));
    [exists Evergreen; reflexivity|].
  destruct (flt r_squared (Fin 0.3) && negb is_seasonal);
    [exists RandomErratic; reflexivity|].
  destruct (is_seasonal && flt slope (Fin (-0.2)));
    [exists DecliningSeasonal; reflexivity|].
  exists Stable; reflexivity.
Qed.

(** On a valid pair the confidence is between 0 and 1. *)
Lemma classify_confidence_bounded (slope : float) (r s : Q) :
  0 <= s -> 0 <= r -> r <= 1 ->
  between 0 1
    (snd (fst (C.classify slope (Fin r) (Fin s) (fgt (Fin s) (Fin 0.3))))).
Proof.
  intros Hs Hr0 Hr1.
  assert (E : fgt (Fin s) (Fin 0.3) = Qltb 0.3 s) by reflexivity.
  rewrite E. clear E. unfold C.classify.
  destruct (fgt slope (Fin 0.5) && fgt (Fin r) (Fin 0.5)) eqn:R1.
  { apply andb_true_iff in R1. destruct R1 as [Hsl Hr].
    unfold fgt in Hr; simpl in Hr; apply Qltb_true in Hr.
    apply trend_confidence_bounded; assumption. }
  destruct (flt slope (Fin (-0.5)) && fgt (Fin r) (Fin 0.5)) eqn:R2.
  { apply andb_true_iff in R2. destruct R2 as [Hsl Hr].
    unfold fgt in Hr; simpl in Hr; apply Qltb_true in Hr.
    apply trend_confidence_bounded; try assumption.
    destruct slope as [q| | |]; try discriminate Hsl; [|reflexivity].
    unfold fgt; simpl in *. apply Qltb_true in Hsl. apply Qltb_true.
    pose proof (Qle_Qabs (- q)) as Ha. rewrite Qabs_opp in Ha. lra. }
  destruct (Qltb 0.3 s && flt (fabs slope) (Fin 0.3)) eqn:R3.
  { apply andb_true_iff in R3. destruct R3 as [Hse Hsl].
    apply Qltb_true in Hse. unfold pymin; simpl.
    destruct (Qltb s 0.9) eqn:E; simpl; qprops; lra. }
  destruct (negb (Qltb 0.3 s) && flt (fabs slope) (Fin 0.3)) eqn:R4.
  { apply andb_true_iff in R4. destruct R4 as [Hse Hsl].
    apply negb_true_iff in Hse. apply Qltb_false in Hse.
    simpl. lra. }
  destruct (flt (Fin r) (Fin 0.3) && negb (Qltb 0.3 s)) eqn:R5.
  { simpl; lra. }
  destruct (Qltb 0.3 s && flt slope (Fin (-0.2))) eqn:R6.
  { apply andb_true_iff in R6. destruct R6 as [Hse Hsl].
    apply Qltb_true in Hse.
    apply seasonal_confidence_bounded; [exact Hse|].
    destruct slope; try reflexivity; discriminate Hsl. }
  simpl; lra.
Qed.

(** On a pair whose flag says score > 0.3, the EVERGREEN confidence
    [0.8 - score] is max(0, 0.8 - score). *)
Lemma classify_evergreen_confidence (slope r_squared : float) (s : Q) :
  fst (fst (C.classify slope r_squared (Fin s) (fgt (Fin s) (Fin 0.3))))
  = C.EVERGREEN ->
  feq (snd (fst (C.classify slope r_squared (Fin s) (fgt (Fin s) (Fin 0.3)))))
      (Fin (Qmax 0 (0.8 - s))).
Proof.
  assert (E : fgt (Fin s) (Fin 0.3) = Qltb 0.3 s) by reflexivity.
  rewrite E. clear E. unfold C.classify.
  destruct (fgt slope (Fin 0.5) && fgt r_squared (Fin 0.5));
    [intro H; discriminate H|].
  destruct (flt slope (Fin (-0.5)) && fgt r_squared (Fin 0.5));
    [intro H; discriminate H|].
  destruct (Qltb 0.3 s && flt (fabs slope) (Fin 0.3));
    [intro H; discriminate H|].
  destruct (negb (Qltb 0.3 s) && flt (fabs slope) (Fin 0.3)) eqn:R4.
  { intros _. apply andb_true_iff in R4. destruct R4 as [Hse _].
    apply negb_true_iff in Hse. apply Qltb_false in Hse.
    simpl. symmetry. rewrite Q.max_r; [ring|lra]. }
  destruct (flt r_squared (Fin 0.3) && negb (Qltb 0.3 s));
    [intro H; discriminate H|].
  destruct (Qltb 0.3 s && flt slope (Fin (-0.2))); intro H; discriminate H.
Qed.

(** C2: on a valid pair (seasonality score at least 0, R-squared between 0
    and 1, seasonal flag equal to score > 0.3; any slope) the classifier
    returns the label of exactly one of the seven categories, a confidence
    between 0 and 1, and in the EVERGREEN branch the confidence
    max(0, 0.8 - score). *)
Theorem classify_total_confidence_in_unit_interval
  (slope : float) (r s : Q) (is_seasonal : bool) :
  0 <= s -> 0 <= r -> r <= 1 ->
  is_seasonal = fgt (Fin s) (Fin 0.3) ->
  let out := C.classify slope (Fin r) (Fin s) is_seasonal in
  (exists! c, fst (fst out) = label c)
  /\ between 0 1 (snd (fst out))
  /\ (fst (fst out) = C.EVERGREEN ->
      feq (snd (fst out)) (Fin (Qmax 0 (0.8 - s)))).
Proof.
  intros Hs Hr0 Hr1 -> out. subst out.
  split.
  - destruct (classify_labels slope (Fin r) (Fin s) (fgt (Fin s) (Fin 0.3)))
      as [c Hc].
    apply (label_unique _ c), Hc.
  - split.
    + apply classify_confidence_bounded; assumption.
    + apply classify_evergreen_confidence.
Qed.

(** A valid pair that lands in the EVERGREEN branch. *)
Lemma classify_total_confidence_in_unit_interval_witness :
  let out := C.classify (Fin 0.1) (Fin 0.2) (Fin 0.25) false in
  (exists! c, fst (fst out) = label c)
  /\ between 0 1 (snd (fst out))
  /\ (fst (fst out) = C.EVERGREEN ->
      feq (snd (fst out)) (Fin (Qmax 0 (0.8 - 0.25)))).
Proof.
  apply (classify_total_confidence_in_unit_interval (Fin 0.1) 0.2 0.25 false).
  - unfold Qle; simpl; lia.
  - unfold Qle; simpl; lia.
  - unfold Qle; simpl; lia.
  - reflexivity.
Defined.

(** ** Sorting *)

Section SortFacts.

Context {A : Type} (lt : A -> A -> bool).

Lemma insert_perm (x : A) (l : list A) :
  Permutation (x :: l) (Pd.insert lt x l).
Proof.
  induction l as [|y l IH]; simpl; [reflexivity|].
  destruct (lt y x); [|reflexivity].
  rewrite perm_swap. apply perm_skip, IH.
Qed.

Lemma sort_perm (l : list A) : Permutation l (Pd.sort lt l).
Proof.
  induction l as [|x l IH]; simpl; [reflexivity|].
  rewrite <- insert_perm. apply perm_skip, IH.
Qed.


(** [R] is the order the sorted list obeys and [pre] relates an element to
    those behind it in the input: an element that strictly precedes another
    is [R]-before it, and of two that do not, the one that came first
    is. *)
Context (R pre : A -> A -> Prop).
Hypothesis lt_R : forall y x, lt y x = true -> R y x.
Hypothesis pre_R : forall x y, lt y x = false -> pre x y -> R x y.
Hypothesis R_trans : forall x y z, R x y -> R y z -> R x z.



End SortFacts.






Lemma map_snd_combine_seq {A : Type} (l : list A) (i : nat) :
  map snd (combine (seq i (List.length l)) l) = l.
Proof.
  revert i. induction l as [|a l IH]; intro i; simpl; [reflexivity|].
  rewrite IH. reflexivity.
Qed.


Lemma sort_values_Date_perm (rank : list Pd.Timestamp -> nat -> nat)
  (l : list Pd.Obs) :
  Permutation l (Pd.sort_values_Date rank l).
Proof.
  unfold Pd.sort_values_Date.
  rewrite <- (map_snd_combine_seq l 0) at 1.
  apply Permutation_map, sort_perm.
Qed.

Lemma sort_values_Date_length (rank : list Pd.Timestamp -> nat -> nat)
  (l : list Pd.Obs) :
  List.length (Pd.sort_values_Date rank l) = List.length l.
Proof. symmetry. apply Permutation_length, sort_values_Date_perm. Qed.





(** ** Group-by *)

Lemma groups_snoc (l : list (nat * Q)) (kv : nat * Q) :
  Pd.groups (l ++ [kv]) = Pd.group_insert (fst kv) (snd kv) (Pd.groups l).
Proof. unfold Pd.groups. rewrite fold_left_app. reflexivity. Qed.

Lemma group_values_absent (g : list (nat * list Q)) (k : nat) :
  Forall (fun k' => k < k')%nat (map fst g) -> group_values g k = [].
Proof.
  unfold group_values. induction g as [|[k0 vs] g IH]; intro H; simpl.
  - reflexivity.
  - inversion H as [|? ? Hk Hg]; subst; simpl in Hk.
    destruct (Nat.eqb_spec k0 k); [lia|]. apply IH, Hg.
Qed.

Lemma group_insert_keys (k : nat) (v : Q) (g : list (nat * list Q)) (k' : nat) :
  In k' (map fst (Pd.group_insert k v g)) <-> k' = k \/ In k' (map fst g).
Proof.
  induction g as [|[k0 vs] g IH]; simpl.
  - intuition.
  - destruct (Nat.ltb_spec k k0); [simpl; intuition|].
    destruct (Nat.eqb_spec k k0); simpl; [subst; intuition|].
    rewrite IH. intuition.
Qed.

Lemma group_insert_keys_ascending (k : nat) (v : Q) (g : list (nat * list Q)) :
  keys_ascending g -> keys_ascending (Pd.group_insert k v g).
Proof.
  unfold keys_ascending.
  induction g as [|[k0 vs] g IH]; intro H; simpl.
  - constructor; constructor.
  - inversion H as [|? ? Hs Hk]; subst.
    destruct (Nat.ltb_spec k k0).
    + simpl. constructor; [exact H|].
      constructor; [assumption|].
      eapply Forall_impl; [|exact Hk]. simpl; intros; lia.
    + destruct (Nat.eqb_spec k k0); simpl.
      * constructor; assumption.
      * constructor; [apply IH, Hs|].
        apply Forall_forall. intros k' Hin.
        apply group_insert_keys in Hin. destruct Hin as [->|Hin]; [lia|].
        rewrite Forall_forall in Hk. apply Hk, Hin.
Qed.

Lemma group_values_insert (k : nat) (v : Q) (g : list (nat * list Q)) (k' : nat) :
  keys_ascending g ->
  group_values (Pd.group_insert k v g) k' =
    if (k =? k')%nat then group_values g k ++ [v] else group_values g k'.
Proof.
  unfold keys_ascending.
  induction g as [|[k0 vs] g IH]; intro H.
  - unfold group_values; simpl. destruct (k =? k')%nat; reflexivity.
  - inversion H as [|? ? Hs Hk]; subst. simpl.
    destruct (Nat.ltb_spec k k0) as [L|L].
    + rewrite (group_values_absent ((k0, vs) :: g) k).
      * unfold group_values; simpl. destruct (k =? k')%nat; reflexivity.
      * simpl. constructor; [exact L|].
        eapply Forall_impl; [|exact Hk]. simpl; intros; lia.
    + destruct (Nat.eqb_spec k k0) as [E|E].
      * subst k0. unfold group_values; simpl.
        rewrite Nat.eqb_refl. destruct (k =? k')%nat; reflexivity.
      * specialize (IH Hs). unfold group_values in *; simpl.
        destruct (Nat.eqb_spec k0 k') as [E'|E'].
        -- subst k'. destruct (Nat.eqb_spec k k0); [contradiction|reflexivity].
        -- destruct (Nat.eqb_spec k0 k); [congruence|]. exact IH.
Qed.

Lemma groups_keys_ascending (l : list (nat * Q)) : keys_ascending (Pd.groups l).
Proof.
  induction l as [|kv l IH] using rev_ind.
  - constructor.
  - rewrite groups_snoc. apply group_insert_keys_ascending, IH.
Qed.

Lemma keyed_values_snoc (l : list (nat * Q)) (kv : nat * Q) (k : nat) :
  keyed_values (l ++ [kv]) k =
    if (fst kv =? k)%nat then keyed_values l k ++ [snd kv]
    else keyed_values l k.
Proof.
  unfold keyed_values. rewrite filter_app, map_app. simpl.
  destruct (fst kv =? k)%nat; simpl; [reflexivity|apply app_nil_r].
Qed.

(** A group holds exactly the values of the rows with its key, in row
    order. *)
Lemma groups_values (l : list (nat * Q)) (k : nat) :
  group_values (Pd.groups l) k = keyed_values l k.
Proof.
  revert k. induction l as [|kv l IH] using rev_ind; intro k.
  - reflexivity.
  - rewrite groups_snoc, keyed_values_snoc.
    rewrite group_values_insert by apply groups_keys_ascending.
    destruct (Nat.eqb_spec (fst kv) k) as [E|E].
    + subst k. rewrite IH. reflexivity.
    + apply IH.
Qed.

Lemma groups_keys (l : list (nat * Q)) (k : nat) :
  In k (map fst (Pd.groups l)) <-> In k (map fst l).
Proof.
  induction l as [|kv l IH] using rev_ind.
  - simpl. tauto.
  - rewrite groups_snoc, group_insert_keys, IH, map_app, in_app_iff.
    simpl. intuition.
Qed.

(** With ascending keys, an entry's values are those found under its
    key. *)
Lemma group_values_entry (g : list (nat * list Q)) (p : nat * list Q) :
  keys_ascending g -> In p g -> group_values g (fst p) = snd p.
Proof.
  unfold keys_ascending, group_values.
  induction g as [|[k0 vs] g IH]; intros H Hin; [contradiction|].
  inversion H as [|? ? Hs Hk]; subst. simpl.
  destruct Hin as [<-|Hin]; simpl.
  - rewrite Nat.eqb_refl. reflexivity.
  - destruct (Nat.eqb_spec k0 (fst p)) as [E|E].
    + rewrite Forall_forall in Hk.
      specialize (Hk (fst p) (in_map fst _ _ Hin)). lia.
    + apply IH; assumption.
Qed.

Lemma ascending_unique (l1 l2 : list nat) :
  StronglySorted lt l1 -> StronglySorted lt l2 ->
  (forall x, In x l1 <-> In x l2) -> l1 = l2.
Proof.
  revert l2. induction l1 as [|a l1 IH]; intros l2 H1 H2 Hin.
  - destruct l2 as [|b l2]; [reflexivity|].
    exfalso. apply (Hin b). left; reflexivity.
  - destruct l2 as [|b l2].
    + exfalso. apply (Hin a). left; reflexivity.
    + inversion H1 as [|? ? S1 F1]; inversion H2 as [|? ? S2 F2]; subst.
      rewrite Forall_forall in F1, F2.
      assert (a = b).
      { destruct (proj1 (Hin a) (or_introl eq_refl)) as [E|E]; [auto|].
        destruct (proj2 (Hin b) (or_introl eq_refl)) as [E'|E']; [auto|].
        specialize (F1 _ E'). specialize (F2 _ E). lia. }
      subst b. f_equal. apply IH; try assumption.
      intro x. split; intro Hx.
      * destruct (proj1 (Hin x) (or_intror Hx)) as [E|E]; [|exact E].
        subst x. specialize (F1 _ Hx). lia.
      * destruct (proj2 (Hin x) (or_intror Hx)) as [E|E]; [|exact E].
        subst x. specialize (F2 _ Hx). lia.
Qed.

Lemma seq_ascending (a n : nat) : StronglySorted lt (seq a n).
Proof.
  revert a. induction n as [|n IH]; intro a; simpl; constructor.
  - apply IH.
  - apply Forall_forall. intros x Hx. apply in_seq in Hx. lia.
Qed.

Lemma filter_StronglySorted {A : Type} (R : A -> A -> Prop) (f : A -> bool)
  (l : list A) :
  StronglySorted R l -> StronglySorted R (filter f l).
Proof.
  induction 1 as [|a l Hs IH Ha]; simpl; [constructor|].
  destruct (f a); [|exact IH].
  constructor; [exact IH|].
  rewrite Forall_forall in *. intros x Hx.
  apply filter_In in Hx. apply Ha, Hx.
Qed.

Lemma months_of_ascending (obs : list Pd.Obs) :
  StronglySorted lt (months_of obs).
Proof. apply filter_StronglySorted, seq_ascending. Qed.

(** [months_of] lists exactly the months that occur in the series. *)
Lemma months_of_spec (obs : list Pd.Obs) (m : nat) :
  In m (months_of obs) <-> exists o, In o obs /\ Pd.month (fst o) = m.
Proof.
  unfold months_of. rewrite filter_In, existsb_exists, in_seq.
  split.
  - intros [_ [o [Ho E]]]. exists o. split; [exact Ho|].
    apply Nat.eqb_eq, E.
  - intros [o [Ho E]]. split.
    + pose proof (list_max_le (map (fun o => Pd.month (fst o)) obs)
                    (list_max (map (fun o => Pd.month (fst o)) obs))) as [L _].
      specialize (L (Nat.le_refl _)). rewrite Forall_forall in L.
      specialize (L m). rewrite in_map_iff in L.
      assert (m <= list_max (map (fun o => Pd.month (fst o)) obs))%nat
        by (apply L; exists o; auto).
      lia.
    + exists o. split; [exact Ho|]. apply Nat.eqb_eq, E.
Qed.

Lemma keyed_values_months (obs : list Pd.Obs) (m : nat) :
  keyed_values (map (fun o => (Pd.month (fst o), snd o)) obs) m
  = month_values obs m.
Proof.
  unfold keyed_values, month_values.
  induction obs as [|o obs IH]; simpl; [reflexivity|].
  destruct (Pd.month (fst o) =? m)%nat; simpl; rewrite IH; reflexivity.
Qed.

(** The monthly averages the tools compute are the monthly aggregate of
    the data model: one entry per month present, in month order, holding
    the mean of that month's values. *)
Lemma groupby_Month_mean_spec (obs : list Pd.Obs) :
  Pd.groupby_Month_mean obs = monthly_means obs.
Proof.
  unfold Pd.groupby_Month_mean, monthly_means.
  set (l := map (fun o => (Pd.month (fst o), snd o)) obs).
  assert (K : map fst (Pd.groups l) = months_of obs).
  { apply ascending_unique.
    - apply groups_keys_ascending.
    - apply months_of_ascending.
    - intro m. rewrite groups_keys, months_of_spec. subst l.
      rewrite map_map, in_map_iff. simpl.
      split; intros [o [A B]]; exists o; split; assumption. }
  rewrite <- K, map_map. apply map_ext_in.
  intros p Hp. f_equal. f_equal.
  rewrite <- (group_values_entry (Pd.groups l) p (groups_keys_ascending l) Hp).
  rewrite groups_values. apply keyed_values_months.
Qed.

Lemma monthly_means_index (obs : list Pd.Obs) :
  Pd.index (monthly_means obs) = months_of obs.
Proof.
  unfold Pd.index, monthly_means. rewrite map_map. simpl. apply map_id.
Qed.


Lemma monthly_means_nonempty (obs : list Pd.Obs) :
  obs <> [] -> monthly_means obs <> [].
Proof.
  intros Hne E. destruct obs as [|o obs]; [contradiction|].
  assert (In (Pd.month (fst o)) (months_of (o :: obs))) as Hin
    by (apply months_of_spec; exists o; split; [left|]; reflexivity).
  rewrite <- monthly_means_index, E in Hin. exact Hin.
Qed.

(** ** From the file to the series *)

Ltac load_series H :=
  unfold series_of, has_columns in H;
  unfold S.analysis, T.analysis, C.analysis;
  destruct (read_csv _ _) as [data|]; [|discriminate H];
  destruct (Pd.has_column data (product_col data)) eqn:Hp;
    [|discriminate H];
  destruct (Pd.has_column data "Date") eqn:Hd; [|discriminate H];
  destruct (Pd.has_column data (sales_col data)) eqn:Hs; [|discriminate H];
  cbn [andb] in H;
  destruct (Pd.header_only data) eqn:Hh; [discriminate H|];
  cbn [bind]; unfold Pd.getitem, Pd.getitem_grouped, Pd.numeric_series;
  cbv zeta;
  rewrite Hp; cbn [bind]; rewrite Hd; cbn [bind];
  destruct (Pd.to_datetime (Pd.select_product data _)) as [obs'|];
    [|discriminate H];
  injection H as ->;
  cbn [bind]; rewrite Hs; cbn [bind]; rewrite ?Hh; cbn [bind].

Lemma seasonality_analysis_of_series
  (env : Env) (data_path product_name : string) (obs : list Pd.Obs) :
  series_of env data_path product_name = Some obs ->
  S.analysis env data_path product_name = Ok (S.metrics env obs).
Proof. intro H. load_series H. reflexivity. Qed.

Lemma trend_analysis_of_series
  (env : Env) (data_path product_name : string) (obs : list Pd.Obs) :
  series_of env data_path product_name = Some obs ->
  T.analysis env data_path product_name
  = T.metrics (sales_type_of env data_path)
      (Pd.sort_values_Date (tie_rank env) obs).
Proof. intro H. unfold sales_type_of. load_series H. reflexivity. Qed.

Lemma classification_analysis_of_series
  (env : Env) (data_path product_name : string) (obs : list Pd.Obs) :
  series_of env data_path product_name = Some obs ->
  C.analysis env data_path product_name
  = C.metrics (Pd.sort_values_Date (tie_rank env) obs).
Proof. intro H. load_series H. reflexivity. Qed.

(** ** Series reductions *)

Lemma Qmax_cases (x y : Q) :
  (Qmax x y = x /\ y <= x) \/ (Qmax x y = y /\ x <= y).
Proof.
  unfold Qmax, GenericMinMax.gmax.
  destruct (Qcompare x y) eqn:E.
  - apply Qeq_alt in E. left; split; [reflexivity|]. rewrite E. apply Qle_refl.
  - apply Qlt_alt in E. right; split; [reflexivity|]. apply Qlt_le_weak, E.
  - apply Qgt_alt in E. left; split; [reflexivity|]. apply Qlt_le_weak, E.
Qed.

Lemma Qmin_cases (x y : Q) :
  (Qmin x y = x /\ x <= y) \/ (Qmin x y = y /\ y <= x).
Proof.
  unfold Qmin, GenericMinMax.gmin.
  destruct (Qcompare x y) eqn:E.
  - apply Qeq_alt in E. left; split; [reflexivity|]. rewrite E. apply Qle_refl.
  - apply Qlt_alt in E. left; split; [reflexivity|]. apply Qlt_le_weak, E.
  - apply Qgt_alt in E. right; split; [reflexivity|]. apply Qlt_le_weak, E.
Qed.

Lemma fold_Qmax_maximum (vs : list Q) (v : Q) :
  is_maximum (fold_left Qmax vs v) (v :: vs).
Proof.
  unfold is_maximum. revert v.
  induction vs as [|w vs IH]; intro v; simpl.
  - split; [left; reflexivity|]. intros x [<-|[]]. apply Qle_refl.
  - destruct (IH (Qmax v w)) as [Hin Hle]. simpl in Hin.
    destruct (Qmax_cases v w) as [[E L]|[E L]]; rewrite E in *.
    + split; [destruct Hin; auto|].
      intros x [<-|[<-|Hx]].
      * apply Hle; left; reflexivity.
      * apply Qle_trans with v; [exact L|apply Hle; left; reflexivity].
      * apply Hle; right; exact Hx.
    + split; [destruct Hin; auto|].
      intros x [<-|[<-|Hx]].
      * apply Qle_trans with w; [exact L|apply Hle; left; reflexivity].
      * apply Hle; left; reflexivity.
      * apply Hle; right; exact Hx.
Qed.

Lemma fold_Qmin_minimum (vs : list Q) (v : Q) :
  is_minimum (fold_left Qmin vs v) (v :: vs).
Proof.
  unfold is_minimum. revert v.
  induction vs as [|w vs IH]; intro v; simpl.
  - split; [left; reflexivity|]. intros x [<-|[]]. apply Qle_refl.
  - destruct (IH (Qmin v w)) as [Hin Hle]. simpl in Hin.
    destruct (Qmin_cases v w) as [[E L]|[E L]]; rewrite E in *.
    + split; [destruct Hin; auto|].
      intros x [<-|[<-|Hx]].
      * apply Hle; left; reflexivity.
      * apply Qle_trans with v; [apply Hle; left; reflexivity|exact L].
      * apply Hle; right; exact Hx.
    + split; [destruct Hin; auto|].
      intros x [<-|[<-|Hx]].
      * apply Qle_trans with w; [apply Hle; left; reflexivity|exact L].
      * apply Hle; left; reflexivity.
      * apply Hle; right; exact Hx.
Qed.

Lemma Series_max_maximum (s : Pd.Series) :
  s <> [] -> exists M, Pd.max s = Fin M /\ is_maximum M (Pd.values s).
Proof.
  intro H. destruct s as [|a s]; [contradiction|].
  unfold Pd.max. simpl. eexists. split; [reflexivity|].
  apply fold_Qmax_maximum.
Qed.

Lemma Series_min_minimum (s : Pd.Series) :
  s <> [] -> exists m, Pd.min s = Fin m /\ is_minimum m (Pd.values s).
Proof.
  intro H. destruct s as [|a s]; [contradiction|].
  unfold Pd.min. simpl. eexists. split; [reflexivity|].
  apply fold_Qmin_minimum.
Qed.

Lemma Series_mean_Fin (s : Pd.Series) :
  s <> [] -> Pd.mean s = Fin (Pd.Qmean (Pd.values s)).
Proof. destruct s; [contradiction|reflexivity]. Qed.


(** ** Seasonality *)



(** ** Peak and low months *)



(** Runs a tool on the sample file and checks what it returned. *)
Ltac run_example :=
  eexists; split; [vm_compute; reflexivity|];
  vm_compute; repeat split.

(** The Summer product: a peak in July and August over a base of 10. *)
Example summer_seasonality :
  exists r,
    S.analysis Examples.env "sales.csv" "Summer" = Ok r
    /\ feq (S.seasonality_score r) (Fin 1.5)
    /\ S.is_seasonal r = true
    /\ S.peak_months r = [7; 8; 1]%nat
    /\ S.low_months r = [1; 2; 3]%nat.
Proof. run_example. Qed.



(** With a single month of data the lists hold that one month. *)
Example solo_peak_and_low :
  exists r,
    S.analysis Examples.env "sales.csv" "Solo" = Ok r
    /\ S.peak_months r = [3%nat] /\ S.low_months r = [3%nat].
Proof. run_example. Qed.

(** ** Zero mean *)





(** ** Trend *)

Lemma fit_nonempty (X y : list Q) :
  y <> [] -> exists model, Sk.fit X y = Ok model.
Proof.
  intro H. destruct y as [|v y]; [contradiction|].
  unfold Sk.fit. eexists. reflexivity.
Qed.

Lemma tail_length {A : Type} (n : nat) (l : list A) :
  (n <= List.length l)%nat -> List.length (Pd.tail n l) = n.
Proof. intro H. unfold Pd.tail. rewrite length_skipn. lia. Qed.


(** On a non-empty series the trend computation returns, and its results
    are these. *)
Lemma trend_metrics_nonempty (dt : Pd.Dtype) (l : list Pd.Obs) :
  l <> [] ->
  exists model recent o l',
    l = o :: l'
    /\ Sk.fit (Sk.arange (List.length l)) (map snd l) = Ok model
    /\ T.recent_trend l (Fin (Sk.coef_ model))
         (Sk.score model (Sk.arange (List.length l)) (map snd l))
       = Ok recent
    /\ T.metrics dt l
       = Ok (T.mkLocals
               (Fin (Sk.coef_ model))
               (Sk.score model (Sk.arange (List.length l)) (map snd l))
               (snd o) (last (map snd l') (snd o))
               (T.change_pct dt (snd o) (last (map snd l') (snd o)))
               (fst recent) (snd recent)
               (T.strength_of
                  (Sk.score model (Sk.arange (List.length l)) (map snd l)))
               (T.direction_of (Fin (Sk.coef_ model)))).
Proof.
  intro Hne. destruct l as [|o l']; [contradiction|].
  destruct (fit_nonempty (Sk.arange (List.length (o :: l')))
              (map snd (o :: l'))) as [model Hfit]; [discriminate|].
  assert (exists recent,
            T.recent_trend (o :: l') (Fin (Sk.coef_ model))
              (Sk.score model (Sk.arange (List.length (o :: l')))
                 (map snd (o :: l'))) = Ok recent) as [recent Hrec].
  { unfold T.recent_trend.
    destruct (Nat.leb_spec 12 (List.length (o :: l'))) as [L|L].
    - destruct (fit_nonempty
                  (Sk.arange (List.length (Pd.tail 12 (o :: l'))))
                  (map snd (Pd.tail 12 (o :: l')))) as [m Hm].
      + intro E. apply (f_equal (@List.length Q)) in E.
        rewrite length_map, tail_length in E by exact L. discriminate E.
      + rewrite Hm. eexists. reflexivity.
    - eexists. reflexivity. }
  exists model, recent, o, l'.
  split; [reflexivity|]. split; [exact Hfit|]. split; [exact Hrec|].
  unfold T.metrics. rewrite Hfit. cbn [bind].
  cbn [map Pd.iloc_first Pd.iloc_last bind].
  cbn [map] in Hrec. rewrite Hrec. reflexivity.
Qed.




Lemma last_map {A B : Type} (f : A -> B) (l : list A) (d : A) :
  last (map f l) (f d) = f (last l d).
Proof.
  induction l as [|a l IH]; [reflexivity|].
  destruct l as [|b l]; [reflexivity|]. exact IH.
Qed.

Lemma last_in_nonempty {A : Type} (l : list A) (d : A) :
  l <> [] -> In (last l d) l.
Proof.
  induction l as [|a l IH]; intro H; [contradiction|].
  destruct l as [|b l]; [left; reflexivity|].
  right. apply IH. discriminate.
Qed.

Lemma last_in_cons {A : Type} (l : list A) (d : A) : In (last l d) (d :: l).
Proof.
  destruct l as [|a l]; [left; reflexivity|].
  right. apply last_in_nonempty. discriminate.
Qed.

Lemma change_pct_positive (dt : Pd.Dtype) (first_value last_value : Q) :
  0 < first_value ->
  T.change_pct dt first_value last_value
  = Fin (Pd.scalar_sub dt last_value first_value / first_value * 100).
Proof.
  intro H. unfold T.change_pct, fgt. simpl.
  assert (L : Qltb 0 first_value = true) by (apply Qltb_true; exact H).
  assert (Z : Qeq_bool first_value 0 = false)
    by (apply Qeq_bool_false; lra).
  rewrite L, Z. reflexivity.
Qed.


(** ** Column types and wrap-around *)

Lemma forallb_false_witness {A : Type} (f : A -> bool) (l : list A) :
  forallb f l = false -> exists x, In x l /\ f x = false.
Proof.
  induction l as [|a l IH]; simpl; [discriminate|].
  destruct (f a) eqn:E; simpl.
  - intro H. destruct (IH H) as [x [Hx Hf]]. exists x. auto.
  - intros _. exists a. auto.
Qed.

(** An [int64] column holds whole numbers only. *)
Lemma column_type_int64 (cells : list Pd.Cell) (c : Pd.Cell) :
  Pd.column_type cells = Pd.int64 -> In c cells -> exists z, c = Pd.Int z.
Proof.
  unfold Pd.column_type. intros H Hc.
  destruct (forallb Pd.fits_int64 cells) eqn:E.
  - rewrite forallb_forall in E. specialize (E c Hc).
    destruct c as [z|q]; [exists z; reflexivity|discriminate E].
  - destruct (forallb Pd.fits_uint64 cells); discriminate H.
Qed.

(** A [uint64] column holds a whole number of 2^63 or more. *)
Lemma column_type_uint64 (cells : list Pd.Cell) :
  Pd.column_type cells = Pd.uint64 ->
  exists z, In (Pd.Int z) cells /\ (2 ^ 63 <= z)%Z.
Proof.
  unfold Pd.column_type. intro H.
  destruct (forallb Pd.fits_int64 cells) eqn:E; [discriminate H|].
  destruct (forallb Pd.fits_uint64 cells) eqn:U; [|discriminate H].
  destruct (forallb_false_witness _ _ E) as [c [Hc Hf]].
  rewrite forallb_forall in U. specialize (U c Hc).
  destruct c as [z|q]; [|discriminate U].
  exists z. split; [exact Hc|].
  simpl in Hf, U. apply andb_true_iff in U. destruct U as [U1 U2].
  apply Z.leb_le in U1.
  apply andb_false_iff in Hf. destruct Hf as [Hf|Hf].
  - apply Z.leb_gt in Hf. lia.
  - apply Z.ltb_ge in Hf. exact Hf.
Qed.

Lemma below_two_62 (z : Z) :
  Qabs (inject_Z z) < two_62 -> (- 2 ^ 62 < z < 2 ^ 62)%Z.
Proof.
  unfold two_62. intro H. apply Qabs_Qlt_condition in H.
  destruct H as [H1 H2].
  rewrite <- inject_Z_opp in H1.
  rewrite <- Zlt_Qlt in H1, H2. lia.
Qed.

(** Every value of a product's series is the sales cell of a row of the
    file. *)
Lemma to_datetime_values (l : list Pd.Row) (obs : list Pd.Obs) :
  Pd.to_datetime l = Ok obs ->
  forall o, In o obs ->
  exists r, In r l /\ snd o = Pd.value (Pd.sales r).
Proof.
  revert obs. induction l as [|r l IH]; intros obs H o Ho.
  - injection H as <-. contradiction.
  - cbn [Pd.to_datetime] in H.
    destruct (Pd.date r) as [t|e]; [|discriminate H].
    destruct (Pd.to_datetime l) as [obs'|e]; [|discriminate H].
    cbn [bind] in H. injection H as <-.
    destruct Ho as [<-|Ho].
    + exists r. split; [left; reflexivity|reflexivity].
    + destruct (IH obs' eq_refl o Ho) as [r' [Hr' E]].
      exists r'. split; [right; exact Hr'|exact E].
Qed.

Lemma series_values_from_rows
  (env : Env) (data_path product_name : string) (obs : list Pd.Obs) :
  series_of env data_path product_name = Some obs ->
  exists data,
    read_csv env data_path = Ok data
    /\ forall o, In o obs ->
       exists r, In r (Pd.rows data) /\ snd o = Pd.value (Pd.sales r).
Proof.
  unfold series_of. intro H.
  destruct (read_csv env data_path) as [data|e]; [|discriminate H].
  destruct (has_columns data); [|discriminate H].
  destruct (Pd.header_only data); [discriminate H|].
  destruct (Pd.to_datetime (Pd.select_product data product_name))
    as [obs'|e] eqn:E; [|discriminate H].
  injection H as <-. exists data. split; [reflexivity|].
  intros o Ho. destruct (to_datetime_values _ _ E o Ho) as [r [Hr Hv]].
  exists r. split; [|exact Hv].
  unfold Pd.select_product in Hr. apply filter_In in Hr. apply Hr.
Qed.

(** Below 2^62 numpy's difference of two cells of the sales column is
    their difference, whatever type the column has. *)
Lemma scalar_sub_exact
  (env : Env) (data_path product_name : string) (obs : list Pd.Obs)
  (a b : Pd.Obs) :
  series_of env data_path product_name = Some obs ->
  sales_below two_62 env data_path ->
  In a obs -> In b obs ->
  Pd.scalar_sub (sales_type_of env data_path) (snd a) (snd b)
  == snd a - snd b.
Proof.
  intros Hload Hbound Ha Hb.
  destruct (series_values_from_rows _ _ _ _ Hload) as [data [Hread Hrows]].
  unfold sales_type_of. rewrite Hread.
  destruct (Hrows a Ha) as [ra [Hra Ea]].
  destruct (Hrows b Hb) as [rb [Hrb Eb]].
  pose proof (Hbound data Hread ra Hra) as Ba.
  pose proof (Hbound data Hread rb Hrb) as Bb.
  unfold Pd.sales_type.
  destruct (Pd.column_type (map Pd.sales (Pd.rows data))) eqn:Et.
  - destruct (column_type_int64 _ (Pd.sales ra) Et (in_map _ _ _ Hra))
      as [za Za].
    destruct (column_type_int64 _ (Pd.sales rb) Et (in_map _ _ _ Hrb))
      as [zb Zb].
    rewrite Za in Ea, Ba. rewrite Zb in Eb, Bb. cbn [Pd.value] in Ea, Eb, Ba, Bb.
    rewrite Ea, Eb. apply below_two_62 in Ba, Bb.
    unfold Pd.scalar_sub. rewrite !Qfloor_Z.
    unfold Pd.wrap_int64. rewrite Z.mod_small by lia.
    unfold Qminus. rewrite <- inject_Z_opp, <- inject_Z_plus.
    apply inject_Z_injective. lia.
  - destruct (column_type_uint64 _ Et) as [z [Hz Hbig]].
    apply in_map_iff in Hz. destruct Hz as [r [Er Hr]].
    pose proof (Hbound data Hread r Hr) as B.
    rewrite Er in B. cbn [Pd.value] in B. apply below_two_62 in B. lia.
  - reflexivity.
Qed.

(** The sales of the sample file are far below 2^62. *)
Lemma sales_below_checked (bound : Q) (env : Env) (data_path : string)
  (data : Pd.DataFrame) :
  read_csv env data_path = Ok data ->
  forallb (fun r => Qltb (Qabs (Pd.value (Pd.sales r))) bound) (Pd.rows data)
  = true ->
  sales_below bound env data_path.
Proof.
  intros Hread Hall d Hd r Hr. rewrite Hread in Hd. injection Hd as <-.
  rewrite forallb_forall in Hall. specialize (Hall r Hr).
  unfold Qltb in Hall. apply negb_true_iff in Hall.
  apply Qnot_le_lt. intro Hle. apply Qle_bool_iff in Hle. congruence.
Qed.

Lemma sample_file_sales_below : sales_below two_62 Examples.env "sales.csv".
Proof.
  apply (sales_below_checked _ _ _ Examples.sales_csv); [reflexivity|].
  vm_compute. reflexivity.
Qed.




(** The two series of the specification: [0, 5, 10] changes by 0 and
    [10, 20, 30, 40, 50], a perfect line of slope 10, by 400. *)
Example ramp_total_change :
  exists r,
    T.analysis Examples.env "sales.csv" "Ramp" = Ok r
    /\ T.first_value r == 0 /\ T.last_value r == 10
    /\ T.total_change_pct r = Fin 0.
Proof. run_example. Qed.

Example line_total_change :
  exists r,
    T.analysis Examples.env "sales.csv" "Line" = Ok r
    /\ T.first_value r == 10 /\ T.last_value r == 50
    /\ feq (T.total_change_pct r) (Fin 400)
    /\ feq (T.slope r) (Fin 10) /\ feq (T.r_squared r) (Fin 1)
    /\ T.direction r = "📈 RISING"%string
    /\ T.strength r = "STRONG"%string.
Proof. run_example. Qed.



(** Over its fourteen weeks Surge falls, the two clearance weeks weighing
    on the fit; over the last twelve it rises by exactly 1 a week. *)
Example surge_recent_window :
  exists r,
    T.analysis Examples.env "sales.csv" "Surge" = Ok r
    /\ feq (T.recent_slope r) (Fin 1)
    /\ feq (T.recent_r_squared r) (Fin 1)
    /\ flt (T.slope r) (Fin 0) = true
    /\ flt (T.r_squared r) (Fin 0.5) = true.
Proof. run_example. Qed.

(** Two rows of one date come out of the sort in the order its ranking of
    ties gives them: in file order, or the other way round. *)
Example same_day_either_way :
  map snd (Pd.sort_values_Date Examples.file_order Examples.same_day)
  = [3; 8]
  /\ map snd (Pd.sort_values_Date Examples.reversed Examples.same_day)
     = [8; 3].
Proof. split; reflexivity. Qed.

(** The recent-window fallback of the specification: the Line product has
    five points. *)
Example line_recent_fallback :
  exists r,
    T.analysis Examples.env "sales.csv" "Line" = Ok r
    /\ T.recent_slope r = T.slope r
    /\ T.recent_r_squared r = T.r_squared r.
Proof. run_example. Qed.

(** ** A product with no rows *)





(** ** The blanket handler *)

Lemma seasonality_report_not_error (product_name : string) (r : S.Locals) :
  starts_with "Error in" (S.report product_name r) = false.
Proof. reflexivity. Qed.

Lemma trend_report_not_error (product_name : string) (r : T.Locals) :
  starts_with "Error in" (T.report product_name r) = false.
Proof. reflexivity. Qed.

Lemma classification_report_not_error (product_name : string) (r : C.Locals) :
  starts_with "Error in" (C.report product_name r) = false.
Proof. reflexivity. Qed.

(** C10: each of the three entry points is a function to strings, so it
    returns a string on every input and raises nothing.  What the body of
    its [try] block raises comes back as the text of the exception behind
    the prefix "Error in ...", and what it computes as the report; a
    report never starts with "Error in", so the two are told apart by
    their text, and by nothing else. *)
Theorem run_returns_string_never_raises
  (env : Env) (data_path product_name : string) :
  S._run env data_path product_name
  = match S.analysis env data_path product_name with
    | Ok r => S.report product_name r
    | Raise e => ("Error in seasonality analysis: " ++ exc_str e)%string
    end
  /\ T._run env data_path product_name
     = match T.analysis env data_path product_name with
       | Ok r => T.report product_name r
       | Raise e => ("Error in trend analysis: " ++ exc_str e)%string
       end
  /\ C._run env data_path product_name
     = match C.analysis env data_path product_name with
       | Ok r => C.report product_name r
       | Raise e => ("Error in product classification: " ++ exc_str e)%string
       end
  /\ (forall r, starts_with "Error in" (S.report product_name r) = false)
  /\ (forall r, starts_with "Error in" (T.report product_name r) = false)
  /\ (forall r, starts_with "Error in" (C.report product_name r) = false)
  /\ (forall e, starts_with "Error in"
                  ("Error in seasonality analysis: " ++ exc_str e) = true)
  /\ (forall e, starts_with "Error in"
                  ("Error in trend analysis: " ++ exc_str e) = true)
  /\ (forall e, starts_with "Error in"
                  ("Error in product classification: " ++ exc_str e) = true).
Proof.
  unfold S._run, T._run, C._run.
  split; [destruct (S.analysis env data_path product_name); reflexivity|].
  split; [destruct (T.analysis env data_path product_name); reflexivity|].
  split; [destruct (C.analysis env data_path product_name); reflexivity|].
  split; [apply seasonality_report_not_error|].
  split; [apply trend_report_not_error|].
  split; [apply classification_report_not_error|].
  split; [|split]; intro e; reflexivity.
Qed.

(** Errors of several kinds, each returned as text: a file that does not
    exist, a column that is missing, a date that does not parse. *)
Example run_error_texts :
  S._run Examples.env "nowhere.csv" "Line"
  = "Error in seasonality analysis: [Errno 2] No such file or directory: 'nowhere.csv'"%string
  /\ T._run Examples.no_sales_column "sales.csv" "Line"
     = "Error in trend analysis: 'Units_Sold'"%string
  /\ C._run Examples.bad_date "sales.csv" "Line"
     = ("Error in product classification: " ++ exc_str Examples.unparsed)%string.
Proof. split; [|split]; vm_compute; reflexivity. Qed.

(** ** The classifier inside its tool *)

Lemma classification_metrics_classify (l : list Pd.Obs) (r : C.Locals) :
  C.metrics l = Ok r ->
  (C.classification r, C.confidence r, C.insight r)
  = C.classify (C.slope r) (C.r_squared r) (C.seasonality_score r)
      (C.is_seasonal r)
  /\ C.is_seasonal r = fgt (C.seasonality_score r) (Fin 0.3).
Proof.
  unfold C.metrics.
  destruct (Sk.fit _ _) as [model|e]; [|discriminate].
  cbn [bind]. intro H. injection H as <-.
  cbn [C.classification C.confidence C.insight C.slope C.r_squared
       C.seasonality_score C.is_seasonal].
  split; [|reflexivity].
  rewrite <- !surjective_pairing. reflexivity.
Qed.

Lemma bind_Ok {A B : Type} (m : result A) (k : A -> result B) (b : B) :
  bind m k = Ok b -> exists a, m = Ok a /\ k a = Ok b.
Proof.
  destruct m as [a|e]; simpl; intro H; [|discriminate H].
  exists a. split; [reflexivity|exact H].
Qed.

(** Whatever the file, what the classification tool reports is the
    classifier's verdict on the slope, R-squared and seasonality it
    computed, with the seasonal flag set exactly when the score exceeds
    0.3. *)
Lemma classification_analysis_classify
  (env : Env) (data_path product_name : string) (r : C.Locals) :
  C.analysis env data_path product_name = Ok r ->
  (C.classification r, C.confidence r, C.insight r)
  = C.classify (C.slope r) (C.r_squared r) (C.seasonality_score r)
      (C.is_seasonal r)
  /\ C.is_seasonal r = fgt (C.seasonality_score r) (Fin 0.3).
Proof.
  unfold C.analysis. intro H.
  apply bind_Ok in H. destruct H as [data [_ H]].
  apply bind_Ok in H. destruct H as [_ [_ H]].
  apply bind_Ok in H. destruct H as [_ [_ H]].
  apply bind_Ok in H. destruct H as [l [_ H]].
  apply bind_Ok in H. destruct H as [_ [_ H]].
  apply classification_metrics_classify in H. exact H.
Qed.

(** The Line product, a perfect rising line, is a rising star with
    confidence 0.95. *)
Example line_classification :
  exists r,
    C.analysis Examples.env "sales.csv" "Line" = Ok r
    /\ C.classification r = C.RISING_STAR
    /\ feq (C.confidence r) (Fin 0.95).
Proof. run_example. Qed.

(** ** Least squares *)

Lemma Qsum_nonneg (l : list Q) :
  (forall x, In x l -> 0 <= x) -> 0 <= Pd.Qsum l.
Proof.
  induction l as [|a l IH]; intro H; simpl.
  - apply Qle_refl.
  - assert (0 <= a) by (apply H; left; reflexivity).
    assert (0 <= Pd.Qsum l) by (apply IH; intros x Hx; apply H; right; exact Hx).
    lra.
Qed.

Lemma Qsum_pos (l : list Q) :
  (forall x, In x l -> 0 <= x) -> (exists x, In x l /\ 0 < x) ->
  0 < Pd.Qsum l.
Proof.
  induction l as [|a l IH]; intros H [x [Hx Hpos]]; [contradiction|].
  simpl.
  assert (0 <= a) by (apply H; left; reflexivity).
  assert (0 <= Pd.Qsum l)
    by (apply Qsum_nonneg; intros z Hz; apply H; right; exact Hz).
  destruct Hx as [<-|Hx]; [lra|].
  assert (0 < Pd.Qsum l).
  { apply IH; [intros z Hz; apply H; right; exact Hz|].
    exists x. split; assumption. }
  lra.
Qed.

Lemma Qsq_nonneg (x : Q) : 0 <= x * x.
Proof.
  destruct (Qlt_le_dec x 0) as [L|L].
  - setoid_replace (x * x) with ((- x) * (- x)) by ring.
    apply Qmult_le_0_compat; lra.
  - apply Qmult_le_0_compat; exact L.
Qed.

Lemma sum_sq_dev_nonneg (m : Q) (l : list Q) : 0 <= Pd.sum_sq_dev m l.
Proof.
  unfold Pd.sum_sq_dev. apply Qsum_nonneg.
  intros x Hx. apply in_map_iff in Hx. destruct Hx as [v [<- _]].
  apply Qsq_nonneg.
Qed.

(** Sums over the pairs of two lists of the same length. *)
Lemma sum_sq_dev_fst (m : Q) (X y : list Q) :
  List.length X = List.length y ->
  Pd.Qsum (map (fun p => (fst p - m) * (fst p - m)) (combine X y))
  = Pd.sum_sq_dev m X.
Proof.
  unfold Pd.sum_sq_dev. revert y.
  induction X as [|x X IH]; intros [|v y] H; simpl in *;
    try reflexivity; try discriminate H.
  rewrite (IH y) by (injection H; auto). reflexivity.
Qed.

Lemma sum_sq_dev_snd (m : Q) (X y : list Q) :
  List.length X = List.length y ->
  Pd.Qsum (map (fun p => (snd p - m) * (snd p - m)) (combine X y))
  = Pd.sum_sq_dev m y.
Proof.
  unfold Pd.sum_sq_dev. revert y.
  induction X as [|x X IH]; intros [|v y] H; simpl in *;
    try reflexivity; try discriminate H.
  rewrite (IH y) by (injection H; auto). reflexivity.
Qed.

(** The residuals [r2_score] sums, seen over the pairs (x, y). *)
Lemma residuals_over_pairs (m : Sk.LinearRegression) (X y : list Q) :
  map (fun p => (fst p - snd p) * (fst p - snd p))
      (combine y (Sk.predict m X))
  = map (fun p =>
           (snd p - (Sk.intercept_ m + Sk.coef_ m * fst p))
           * (snd p - (Sk.intercept_ m + Sk.coef_ m * fst p)))
        (combine X y).
Proof.
  unfold Sk.predict. revert y.
  induction X as [|x X IH]; intros [|v y]; simpl; try reflexivity.
  rewrite IH. reflexivity.
Qed.

(** Sum of squared residuals of the line through the means with slope
    [b]. *)
Lemma residual_sum_expansion (mx my b : Q) (ps : list (Q * Q)) :
  Pd.Qsum (map (fun p => (snd p - ((my - b * mx) + b * fst p))
                         * (snd p - ((my - b * mx) + b * fst p))) ps)
  == Pd.Qsum (map (fun p => (snd p - my) * (snd p - my)) ps)
     - 2 * b * Pd.Qsum (map (fun p => (fst p - mx) * (snd p - my)) ps)
     + b * b * Pd.Qsum (map (fun p => (fst p - mx) * (fst p - mx)) ps).
Proof.
  induction ps as [|p ps IH]; simpl.
  - ring.
  - rewrite IH. ring.
Qed.

(** The fitted line leaves a residual sum of squares between 0 and the
    total sum of squares. *)
Lemma residual_between (X y : list Q) (m : Sk.LinearRegression) :
  List.length X = List.length y ->
  Sk.fit X y = Ok m ->
  let num :=
    Pd.Qsum (map (fun p => (fst p - snd p) * (fst p - snd p))
               (combine y (Sk.predict m X))) in
  0 <= num /\ num <= Pd.sum_sq_dev (Pd.Qmean y) y.
Proof.
  intros Hlen Hfit num. subst num.
  split.
  { apply Qsum_nonneg. intros x Hx.
    apply in_map_iff in Hx. destruct Hx as [p [<- _]]. apply Qsq_nonneg. }
  unfold Sk.fit in Hfit. destruct y as [|v y']; [discriminate Hfit|].
  remember (v :: y') as y eqn:Ey. clear Ey.
  injection Hfit as <-.
  rewrite residuals_over_pairs. cbn [Sk.intercept_ Sk.coef_].
  set (mx := Pd.Qmean X). set (my := Pd.Qmean y).
  set (sxx := Pd.sum_sq_dev mx X).
  set (sxy := Sk.sum_dev_prod mx my X y).
  set (b := if Qeq_bool sxx 0 then 0 else sxy / sxx).
  rewrite (residual_sum_expansion mx my b (combine X y)).
  rewrite sum_sq_dev_snd, sum_sq_dev_fst by exact Hlen.
  fold sxx. change (Pd.Qsum (map (fun p => (fst p - mx) * (snd p - my))
                               (combine X y))) with sxy.
  pose proof (sum_sq_dev_nonneg mx X) as Hxx. fold sxx in Hxx.
  subst b. destruct (Qeq_bool sxx 0) eqn:E.
  - apply Qeq_bool_eq in E. rewrite E. lra.
  - apply Qeq_bool_false in E.
    assert (Hb : sxy / sxx * sxx == sxy) by (field; exact E).
    assert (Hq : 0 <= sxy / sxx * (sxy / sxx) * sxx).
    { apply Qmult_le_0_compat; [apply Qsq_nonneg|exact Hxx]. }
    assert (Hr : sxy / sxx * (sxy / sxx) * sxx == sxy / sxx * sxy).
    { field. exact E. }
    assert (Hs : 2 * (sxy / sxx) * sxy == 2 * (sxy / sxx * sxy))
      by (field; exact E).
    rewrite Hs. rewrite Hr in *. lra.
Qed.

Lemma arange_length (n : nat) : List.length (Sk.arange n) = n.
Proof. unfold Sk.arange. rewrite length_map. apply length_seq. Qed.

(** R-squared of a fitted line is undefined below two samples and between
    0 and 1 from two samples on. *)
Lemma score_between (X y : list Q) (m : Sk.LinearRegression) :
  List.length X = List.length y ->
  Sk.fit X y = Ok m ->
  (2 <= List.length y)%nat ->
  between 0 1 (Sk.score m X y).
Proof.
  intros Hlen Hfit Hn.
  destruct (residual_between X y m Hlen Hfit) as [H0 H1].
  unfold Sk.score, Sk.r2_score.
  assert (Hp : (List.length (Sk.predict m X) <? 2)%nat = false).
  { unfold Sk.predict. rewrite length_map, Hlen. apply Nat.ltb_ge, Hn. }
  rewrite Hp.
  set (num := Pd.Qsum _) in *. set (den := Pd.sum_sq_dev _ _) in *.
  destruct (Qeq_bool num 0) eqn:En; [simpl; lra|].
  destruct (Qeq_bool den 0) eqn:Ed; [simpl; lra|].
  apply Qeq_bool_false in En, Ed.
  assert (Hd : 0 < den) by lra.
  assert (Hq0 : 0 <= num / den).
  { apply Qle_shift_div_l; [exact Hd|]. lra. }
  assert (Hq1 : num / den <= 1).
  { apply Qle_shift_div_r; [exact Hd|]. lra. }
  simpl. lra.
Qed.

(** ** Sales data make valid pairs *)

Lemma Qlen_pos (l : list Q) : l <> [] -> 0 < Pd.Qlen l.
Proof.
  destruct l as [|a l]; [contradiction|]. intros _.
  unfold Pd.Qlen. change 0 with (inject_Z 0). rewrite <- Zlt_Qlt.
  cbn [List.length]. lia.
Qed.

Lemma Qmean_nonneg (l : list Q) :
  (forall x, In x l -> 0 <= x) -> 0 <= Pd.Qmean l.
Proof.
  intro H. unfold Pd.Qmean.
  destruct l as [|a l].
  - unfold Pd.Qsum, Qdiv; simpl. rewrite Qmult_0_l. apply Qle_refl.
  - apply Qle_shift_div_l; [apply Qlen_pos; discriminate|].
    rewrite Qmult_0_l. apply Qsum_nonneg, H.
Qed.

Lemma Qmean_pos (l : list Q) :
  (forall x, In x l -> 0 <= x) -> (exists x, In x l /\ 0 < x) ->
  0 < Pd.Qmean l.
Proof.
  intros H Hpos. unfold Pd.Qmean.
  apply Qlt_shift_div_l.
  - apply Qlen_pos. destruct Hpos as [x [Hx _]]. intro E; subst l. exact Hx.
  - rewrite Qmult_0_l. apply Qsum_pos; assumption.
Qed.

Lemma month_values_In (obs : list Pd.Obs) (m : nat) (v : Q) :
  In v (month_values obs m) <->
  exists o, In o obs /\ Pd.month (fst o) = m /\ snd o = v.
Proof.
  unfold month_values. rewrite in_map_iff. split.
  - intros [o [E Ho]]. apply filter_In in Ho. destruct Ho as [Ho Hm].
    exists o. split; [exact Ho|]. split; [apply Nat.eqb_eq, Hm|exact E].
  - intros [o [Ho [Hm E]]]. exists o. split; [exact E|].
    apply filter_In. split; [exact Ho|apply Nat.eqb_eq, Hm].
Qed.

(** Non-negative sales with a positive one among them have monthly means
    of positive mean. *)
Lemma monthly_means_mean_pos (obs : list Pd.Obs) :
  (forall o, In o obs -> 0 <= snd o) ->
  (exists o, In o obs /\ 0 < snd o) ->
  0 < Pd.Qmean (Pd.values (monthly_means obs)).
Proof.
  intros Hnn [o [Ho Hpos]].
  unfold Pd.values, monthly_means. rewrite map_map. simpl.
  apply Qmean_pos.
  - intros x Hx. apply in_map_iff in Hx. destruct Hx as [m [<- _]].
    apply Qmean_nonneg. intros v Hv.
    apply month_values_In in Hv. destruct Hv as [o' [Ho' [_ <-]]].
    apply Hnn, Ho'.
  - exists (Pd.Qmean (month_values obs (Pd.month (fst o)))). split.
    + apply in_map_iff. exists (Pd.month (fst o)). split; [reflexivity|].
      apply months_of_spec. exists o. split; [exact Ho|reflexivity].
    + apply Qmean_pos.
      * intros v Hv.
        apply month_values_In in Hv. destruct Hv as [o' [Ho' [_ <-]]].
        apply Hnn, Ho'.
      * exists (snd o). split; [|exact Hpos].
        apply month_values_In. exists o. auto.
Qed.

Lemma between_Fin (lo hi : Q) (a : float) :
  between lo hi a -> exists x, a = Fin x /\ lo <= x /\ x <= hi.
Proof.
  destruct a as [x| | |]; simpl; try contradiction.
  intro H. exists x. split; [reflexivity|exact H].
Qed.

(** For a product with at least two rows of non-negative sales, one of
    them positive, the classification tool returns with R-squared between
    0 and 1, a seasonality score of at least 0, the label of exactly one
    category and a confidence between 0 and 1. *)
Lemma classification_of_sales_data
  (env : Env) (data_path product_name : string) (obs : list Pd.Obs) :
  series_of env data_path product_name = Some obs ->
  (2 <= List.length obs)%nat ->
  (forall o, In o obs -> 0 <= snd o) ->
  (exists o, In o obs /\ 0 < snd o) ->
  exists r,
    C.analysis env data_path product_name = Ok r
    /\ between 0 1 (C.r_squared r)
    /\ (exists s, C.seasonality_score r = Fin s /\ 0 <= s)
    /\ (exists! c, C.classification r = label c)
    /\ between 0 1 (C.confidence r).
Proof.
  intros Hload Hlen Hnn Hpos.
  rewrite (classification_analysis_of_series _ _ _ _ Hload).
  set (l := Pd.sort_values_Date (tie_rank env) obs).
  pose proof (sort_values_Date_perm (tie_rank env) obs) as Hperm. fold l in Hperm.
  assert (Hl : List.length l = List.length obs)
    by apply sort_values_Date_length.
  assert (Hne : l <> []).
  { intro E. rewrite E in Hl. simpl in Hl. lia. }
  assert (Hnn' : forall o, In o l -> 0 <= snd o).
  { intros o Ho. apply Hnn. apply (Permutation_in _ (Permutation_sym Hperm) Ho). }
  assert (Hpos' : exists o, In o l /\ 0 < snd o).
  { destruct Hpos as [o [Ho Hp]]. exists o. split; [|exact Hp].
    apply (Permutation_in _ Hperm Ho). }
  destruct (fit_nonempty (Sk.arange (List.length l)) (map snd l))
    as [model Hfit].
  { intro E. apply Hne. destruct l; [reflexivity|discriminate E]. }
  assert (Hr2 : between 0 1
                  (Sk.score model (Sk.arange (List.length l)) (map snd l))).
  { apply score_between.
    - rewrite arange_length, length_map. reflexivity.
    - exact Hfit.
    - rewrite length_map. unfold l.
      rewrite sort_values_Date_length. exact Hlen. }
  destruct (between_Fin _ _ _ Hr2) as [r2 [Er2 [Hr0 Hr1]]].
  pose proof (monthly_means_nonempty l Hne) as Hs.
  destruct (Series_max_maximum _ Hs) as [M [EM [HMin HMle]]].
  destruct (Series_min_minimum _ Hs) as [m [Em [Hmin Hmle]]].
  pose proof (monthly_means_mean_pos l Hnn' Hpos') as Hmu.
  set (mu := Pd.Qmean (Pd.values (monthly_means l))) in *.
  assert (Hz : Qeq_bool mu 0 = false) by (apply Qeq_bool_false; lra).
  assert (Hscore : fdiv (fsub (Pd.max (monthly_means l))
                              (Pd.min (monthly_means l)))
                        (Pd.mean (monthly_means l))
                   = Fin ((M + - m) / mu)).
  { rewrite EM, Em, (Series_mean_Fin _ Hs). fold mu. simpl.
    rewrite Hz. reflexivity. }
  assert (Hs0 : 0 <= (M + - m) / mu).
  { apply Qle_shift_div_l; [exact Hmu|].
    rewrite Qmult_0_l. specialize (Hmle M HMin). lra. }
  unfold C.metrics. rewrite Hfit. cbn [bind].
  rewrite groupby_Month_mean_spec, Hscore, Er2.
  eexists. split; [reflexivity|].
  cbn [C.r_squared C.seasonality_score C.classification C.confidence].
  split; [simpl; split; assumption|].
  split; [exists ((M + - m) / mu); split; [reflexivity|exact Hs0]|].
  split.
  - destruct (classify_labels (Fin (Sk.coef_ model)) (Fin r2)
                (Fin ((M + - m) / mu))
                (fgt (Fin ((M + - m) / mu)) (Fin 0.3))) as [c Hc].
    apply (label_unique _ c), Hc.
  - apply classify_confidence_bounded; assumption.
Qed.

(* ================================================================= *)
(** * Further properties of the tools *)

(** ** When a tool answers with an error *)

(** When the file does not load, lacks a column or holds a date that does
    not parse, every tool raises; the trend and the classification tool
    raise the same exception. *)
Lemma load_failure
  (env : Env) (data_path product_name : string) :
  series_of env data_path product_name = None ->
  (exists e, S.analysis env data_path product_name = Raise e)
  /\ (exists e, T.analysis env data_path product_name = Raise e
                /\ C.analysis env data_path product_name = Raise e).
Proof.
  unfold series_of, has_columns, S.analysis, T.analysis, C.analysis.
  destruct (read_csv env data_path) as [data|e]; cbn [bind];
    [|intros _; split; eexists; [|split]; reflexivity].
  unfold Pd.getitem, Pd.getitem_grouped, Pd.numeric_series.
  destruct (Pd.has_column data (product_col data)); cbn [bind andb];
    [|intros _; split; eexists; [|split]; reflexivity].
  destruct (Pd.has_column data "Date"); cbn [bind andb];
    [|intros _; split; eexists; [|split]; reflexivity].
  destruct (Pd.has_column data (sales_col data)) eqn:Hs; cbn [bind].
  - unfold Pd.header_only, Pd.select_product.
    destruct (Pd.rows data) as [|r rs] eqn:Hrows.
    + intros _. cbn [filter Pd.to_datetime bind].
      split; eexists; [|split]; reflexivity.
    + destruct (Pd.to_datetime _) as [obs|e]; cbn [bind];
        [intro H; discriminate H|].
      intros _; split; eexists; [|split]; reflexivity.
  - intros _.
    destruct (Pd.to_datetime (Pd.select_product data product_name))
      as [obs|e]; cbn [bind]; split; eexists; [|split| |split]; reflexivity.
Qed.

Lemma starts_with_error (rest : string) (e : Exception) :
  starts_with "Error in" ("Error in " ++ rest ++ exc_str e) = true.
Proof. reflexivity. Qed.



(** ** Trend and classification on the same data *)

(** What the two tools compute from a product's rows in date order: the
    same fit, or the same exception. *)
Lemma metrics_share_fit (dt : Pd.Dtype) (l : list Pd.Obs) :
  match T.metrics dt l, C.metrics l with
  | Ok t, Ok c => C.slope c = T.slope t /\ C.r_squared c = T.r_squared t
  | Raise e, Raise e' => e = e'
  | _, _ => False
  end.
Proof.
  destruct l as [|o l].
  - reflexivity.
  - destruct (trend_metrics_nonempty dt (o :: l))
      as [model [recent [o' [l' [_ [Hfit [_ Hm]]]]]]]; [discriminate|].
    rewrite Hm. unfold C.metrics. rewrite Hfit. cbn [bind].
    split; reflexivity.
Qed.


Lemma classify_rising_star (slope r_squared score : float) (seasonal : bool) :
  fst (fst (C.classify slope r_squared score seasonal)) = C.RISING_STAR ->
  fgt slope (Fin 0.5) = true /\ fgt r_squared (Fin 0.5) = true.
Proof.
  unfold C.classify.
  destruct (fgt slope (Fin 0.5) && fgt r_squared (Fin 0.5)) eqn:R1;
    [intros _; apply andb_true_iff, R1|].
  destruct (flt slope (Fin (-0.5)) && fgt r_squared (Fin 0.5));
    [intro H; discriminate H|].
  destruct (seasonal && flt (fabs slope) (Fin 0.3));
    [intro H; discriminate H|].
  destruct (negb seasonal && flt (fabs slope) (Fin 0.3));
    [intro H; discriminate H|].
  destruct (flt r_squared (Fin 0.3) && negb seasonal);
    [intro H; discriminate H|].
  destruct (seasonal && flt slope (Fin (-0.2))); intro H; discriminate H.
Qed.

Lemma classify_fading_out (slope r_squared score : float) (seasonal : bool) :
  fst (fst (C.classify slope r_squared score seasonal)) = C.FADING_OUT ->
  flt slope (Fin (-0.5)) = true /\ fgt r_squared (Fin 0.5) = true.
Proof.
  unfold C.classify.
  destruct (fgt slope (Fin 0.5) && fgt r_squared (Fin 0.5));
    [intro H; discriminate H|].
  destruct (flt slope (Fin (-0.5)) && fgt r_squared (Fin 0.5)) eqn:R2;
    [intros _; apply andb_true_iff, R2|].
  destruct (seasonal && flt (fabs slope) (Fin 0.3));
    [intro H; discriminate H|].
  destruct (negb seasonal && flt (fabs slope) (Fin 0.3));
    [intro H; discriminate H|].
  destruct (flt r_squared (Fin 0.3) && negb seasonal);
    [intro H; discriminate H|].
  destruct (seasonal && flt slope (Fin (-0.2))); intro H; discriminate H.
Qed.

Lemma fgt_half_not_weak (x : float) :
  fgt x (Fin 0.5) = true -> T.strength_of x <> "WEAK"%string.
Proof.
  unfold T.strength_of, fgt. destruct x as [q| | |]; simpl;
    intro H; try discriminate H.
  - apply Qltb_true in H.
    destruct (Qltb 0.7 q); [discriminate|].
    destruct (Qltb 0.4 q) eqn:E; [discriminate|].
    apply Qltb_false in E. lra.
  - discriminate.
Qed.

Lemma trend_labels (dt : Pd.Dtype) (l : list Pd.Obs) (t : T.Locals) :
  T.metrics dt l = Ok t ->
  T.strength t = T.strength_of (T.r_squared t)
  /\ T.direction t = T.direction_of (T.slope t).
Proof.
  intro H. destruct l as [|o l]; [discriminate H|].
  destruct (trend_metrics_nonempty dt (o :: l))
    as [model [recent [o' [l' [_ [_ [_ Hm]]]]]]]; [discriminate|].
  rewrite Hm in H. injection H as <-. split; reflexivity.
Qed.

(** X4: the two reports on a product do not contradict each other: when the
    classification tool says RISING STAR the trend tool says RISING, when
    it says FADING OUT the trend tool says DECLINING, and in both cases the
    trend tool does not call the trend WEAK. *)
Theorem classification_agrees_with_trend_direction
  (env : Env) (data_path product_name : string)
  (t : T.Locals) (c : C.Locals) :
  T.analysis env data_path product_name = Ok t ->
  C.analysis env data_path product_name = Ok c ->
  (C.classification c = C.RISING_STAR ->
   T.direction t = "📈 RISING"%string /\ T.strength t <> "WEAK"%string)
  /\ (C.classification c = C.FADING_OUT ->
      T.direction t = "📉 DECLINING"%string
      /\ T.strength t <> "WEAK"%string).
Proof.
  intros HT HC.
  destruct (classification_analysis_classify _ _ _ _ HC) as [Hcl _].
  destruct (series_of env data_path product_name) as [obs|] eqn:Hload.
  2:{ destruct (load_failure _ _ _ Hload) as [_ [e [HT' _]]].
      rewrite HT' in HT. discriminate HT. }
  rewrite (trend_analysis_of_series _ _ _ _ Hload) in HT.
  rewrite (classification_analysis_of_series _ _ _ _ Hload) in HC.
  pose proof (metrics_share_fit (sales_type_of env data_path)
                (Pd.sort_values_Date (tie_rank env) obs)) as Hfit.
  rewrite HT, HC in Hfit. destruct Hfit as [Hs Hr].
  pose proof (trend_labels _ _ _ HT) as Hlab.
  destruct Hlab as [Hst Hdi].
  assert (Hc1 : C.classification c
                = fst (fst (C.classify (C.slope c) (C.r_squared c)
                              (C.seasonality_score c) (C.is_seasonal c))))
    by (rewrite <- Hcl; reflexivity).
  rewrite Hs, Hr in Hc1. rewrite Hc1, Hst, Hdi.
  split; intro H.
  - apply classify_rising_star in H. destruct H as [H1 H2].
    split; [|apply fgt_half_not_weak, H2].
    unfold T.direction_of. rewrite H1. reflexivity.
  - apply classify_fading_out in H. destruct H as [H1 H2].
    split; [|apply fgt_half_not_weak, H2].
    unfold T.direction_of.
    destruct (fgt (T.slope t) (Fin 0.5)) eqn:E; [|rewrite H1; reflexivity].
    exfalso. unfold fgt in E.
    destruct (T.slope t) as [q| | |]; simpl in *; try discriminate.
    apply Qltb_true in E, H1. lra.
Qed.

Lemma classification_agrees_with_trend_direction_witness :
  exists t c,
    T.analysis Examples.env "sales.csv" "Line" = Ok t
    /\ C.analysis Examples.env "sales.csv" "Line" = Ok c
    /\ (C.classification c = C.RISING_STAR ->
        T.direction t = "📈 RISING"%string /\ T.strength t <> "WEAK"%string)
    /\ (C.classification c = C.FADING_OUT ->
        T.direction t = "📉 DECLINING"%string
        /\ T.strength t <> "WEAK"%string).
Proof.
  eexists. eexists.
  split; [vm_compute; reflexivity|].
  split; [vm_compute; reflexivity|].
  apply (classification_agrees_with_trend_direction
           Examples.env "sales.csv" "Line");
    vm_compute; reflexivity.
Defined.

(** ** Ranges of the numbers reported *)



(** Confidence of rules 1 and 2 for any R-squared above 0.5. *)
Lemma trend_confidence_range (r a : float) :
  fgt r (Fin 0.5) = true -> fgt a (Fin 0.5) = true ->
  exists c,
    pymin (Fin 0.95) (fadd r (fdiv a (Fin 2))) = Fin c
    /\ 0.3 < c /\ c <= 0.95.
Proof.
  intros Hr Ha.
  destruct r as [r| | |]; try discriminate Hr;
    destruct a as [q| | |]; try discriminate Ha;
    unfold fgt in *; simpl in *; qprops.
  - unfold pymin; simpl. pose proof (Qdiv_half q) as Hq.
    destruct (Qltb (r + q / 2) 0.95) eqn:E; simpl; qprops;
      eexists; (split; [reflexivity|lra]).
  - unfold pymin; simpl. eexists; split; [reflexivity|lra].
  - unfold pymin; simpl. eexists; split; [reflexivity|lra].
  - unfold pymin; simpl. eexists; split; [reflexivity|lra].
Qed.

Lemma seasonal_confidence_range (s : Q) (x : float) :
  0.3 < s -> is_nan x = false ->
  exists c,
    pymin (Fin 0.85) (fadd (Fin s) (fdiv (fabs x) (Fin 3))) = Fin c
    /\ 0.3 < c /\ c <= 0.95.
Proof.
  intros Hs Hx. destruct x as [q| | |]; try discriminate Hx.
  - unfold pymin; simpl.
    pose proof (Qdiv_third (Qabs q)) as Hq.
    pose proof (Qabs_nonneg q) as Hn.
    destruct (Qltb (s + Qabs q / 3) 0.85) eqn:E; simpl; qprops;
      eexists; (split; [reflexivity|lra]).
  - unfold pymin; simpl. eexists; split; [reflexivity|lra].
  - unfold pymin; simpl. eexists; split; [reflexivity|lra].
Qed.

(** X6: whatever the slope and the R-squared (NaN and infinities included), a
    seasonality score of at least 0 with the flag derived from it gives a
    confidence above 0.3 and at most 0.95: the classifier never reports
    more than 95% and never 30% or less. *)
Theorem classify_confidence_above_30_at_most_95
  (slope r_squared : float) (s : Q) :
  0 <= s ->
  exists c,
    snd (fst (C.classify slope r_squared (Fin s) (fgt (Fin s) (Fin 0.3))))
    = Fin c
    /\ 0.3 < c /\ c <= 0.95.
Proof.
  intro Hs.
  assert (E : fgt (Fin s) (Fin 0.3) = Qltb 0.3 s) by reflexivity.
  rewrite E. clear E. unfold C.classify.
  destruct (fgt slope (Fin 0.5) && fgt r_squared (Fin 0.5)) eqn:R1.
  { apply andb_true_iff in R1. destruct R1 as [Hsl Hr].
    apply trend_confidence_range; assumption. }
  destruct (flt slope (Fin (-0.5)) && fgt r_squared (Fin 0.5)) eqn:R2.
  { apply andb_true_iff in R2. destruct R2 as [Hsl Hr].
    apply trend_confidence_range; [exact Hr|].
    destruct slope as [q| | |]; try discriminate Hsl; [|reflexivity].
    unfold fgt; simpl in *. apply Qltb_true in Hsl. apply Qltb_true.
    pose proof (Qle_Qabs (- q)) as Ha. rewrite Qabs_opp in Ha. lra. }
  destruct (Qltb 0.3 s && flt (fabs slope) (Fin 0.3)) eqn:R3.
  { apply andb_true_iff in R3. destruct R3 as [Hse Hsl].
    apply Qltb_true in Hse. unfold pymin; simpl.
    destruct (Qltb s 0.9) eqn:E; simpl; qprops;
      eexists; (split; [reflexivity|lra]). }
  destruct (negb (Qltb 0.3 s) && flt (fabs slope) (Fin 0.3)) eqn:R4.
  { apply andb_true_iff in R4. destruct R4 as [Hse Hsl].
    apply negb_true_iff in Hse. apply Qltb_false in Hse.
    simpl. eexists; split; [reflexivity|lra]. }
  destruct (flt r_squared (Fin 0.3) && negb (Qltb 0.3 s)) eqn:R5.
  { simpl. eexists; split; [reflexivity|lra]. }
  destruct (Qltb 0.3 s && flt slope (Fin (-0.2))) eqn:R6.
  { apply andb_true_iff in R6. destruct R6 as [Hse Hsl].
    apply Qltb_true in Hse.
    apply seasonal_confidence_range; [exact Hse|].
    destruct slope; try reflexivity; discriminate Hsl. }
  simpl. eexists; split; [reflexivity|lra].
Qed.

Lemma classify_confidence_above_30_at_most_95_witness :
  exists c,
    snd (fst (C.classify PInf NaN (Fin 0.4) (fgt (Fin 0.4) (Fin 0.3))))
    = Fin c
    /\ 0.3 < c /\ c <= 0.95.
Proof.
  apply (classify_confidence_above_30_at_most_95 PInf NaN 0.4).
  unfold Qle; simpl; lia.
Defined.

(** ** Series on a straight line *)












Lemma Qltb_compat (x x' y y' : Q) :
  x == x' -> y == y' -> Qltb x y = Qltb x' y'.
Proof.
  intros Hx Hy. unfold Qltb. f_equal.
  destruct (Qle_bool y x) eqn:E, (Qle_bool y' x') eqn:E'; try reflexivity.
  - apply Qle_bool_iff in E. rewrite Hx, Hy in E.
    apply Qle_bool_iff in E. congruence.
  - apply Qle_bool_iff in E'. rewrite <- Hx, <- Hy in E'.
    apply Qle_bool_iff in E'. congruence.
Qed.







(** ** A product that never sells *)







(** ** Months *)
















(** ** Percentage change *)

(** X13: in a file whose sales cells are below 2^62, a product with
    non-negative sales has a total change that is never below -100
    percent, and from a positive first value it is positive exactly when
    the last value exceeds the first. *)
Theorem total_change_pct_bounds
  (env : Env) (data_path product_name : string) (obs : list Pd.Obs) :
  series_of env data_path product_name = Some obs ->
  obs <> [] ->
  sales_below two_62 env data_path ->
  (forall o, In o obs -> 0 <= snd o) ->
  exists t c,
    T.analysis env data_path product_name = Ok t
    /\ T.total_change_pct t = Fin c
    /\ - (100) <= c
    /\ (0 < T.first_value t -> (0 < c <-> T.first_value t < T.last_value t)).
Proof.
  intros Hload Hne Hbound Hnn.
  rewrite (trend_analysis_of_series _ _ _ _ Hload).
  pose proof (sort_values_Date_perm (tie_rank env) obs) as Hperm.
  assert (Hne' : Pd.sort_values_Date (tie_rank env) obs <> []).
  { intro E. apply Hne. apply Permutation_nil. rewrite <- E.
    symmetry. exact Hperm. }
  destruct (trend_metrics_nonempty (sales_type_of env data_path) _ Hne')
    as [model [recent [o [l' [El [_ [_ Hm]]]]]]].
  rewrite Hm.
  assert (Hfirst : In o obs).
  { apply (Permutation_in _ (Permutation_sym Hperm)). rewrite El.
    left. reflexivity. }
  assert (Hlast : In (last l' o) obs).
  { apply (Permutation_in _ (Permutation_sym Hperm)). rewrite El.
    apply last_in_cons. }
  pose proof (scalar_sub_exact _ _ _ _ _ _ Hload Hbound Hlast Hfirst) as Hsub.
  pose proof (Hnn _ Hlast) as Hz.
  rewrite last_map.
  set (f := snd o) in *. set (z := snd (last l' o)) in *.
  set (d := Pd.scalar_sub (sales_type_of env data_path) z f) in *.
  destruct (Qlt_le_dec 0 f) as [Ef|Ef].
  - rewrite (change_pct_positive _ _ _ Ef). fold d.
    eexists. exists (d / f * 100).
    split; [reflexivity|].
    cbn [T.total_change_pct T.first_value T.last_value].
    split; [reflexivity|].
    assert (Hq : d / f * f == d) by (field; lra).
    assert (Hlow : - (1) <= d / f).
    { apply Qle_shift_div_l; [exact Ef|]. lra. }
    split; [lra|]. intros _.
    change (0 < d / f * 100 <-> f < z). split; intro H.
    + assert (0 < d / f) by lra.
      assert (0 < d / f * f) by (apply Qmult_lt_0_compat; assumption).
      lra.
    + assert (0 < d / f).
      { apply Qlt_shift_div_l; [exact Ef|]. lra. }
      lra.
  - assert (E0 : forall v,
               T.change_pct (sales_type_of env data_path) f v = Fin 0).
    { intro v. unfold T.change_pct, fgt. simpl flt.
      assert (L : Qltb 0 f = false) by (apply Qltb_false; lra).
      rewrite L. reflexivity. }
    rewrite E0. eexists. exists 0. split; [reflexivity|].
    cbn [T.total_change_pct T.first_value T.last_value].
    split; [reflexivity|]. split; [lra|]. intro H. lra.
Qed.

Lemma total_change_pct_bounds_witness :
  exists t c,
    T.analysis Examples.env "sales.csv" "Line" = Ok t
    /\ T.total_change_pct t = Fin c
    /\ - (100) <= c
    /\ (0 < T.first_value t -> (0 < c <-> T.first_value t < T.last_value t)).
Proof.
  apply (total_change_pct_bounds Examples.env "sales.csv" "Line"
           Examples.line).
  - reflexivity.
  - discriminate.
  - exact sample_file_sales_below.
  - intros o [<-|[<-|[<-|[<-|[<-|[]]]]]]; unfold Qle; simpl; lia.
Defined.

(** ** Seasonality seen by two tools *)

Lemma filter_perm {A : Type} (f : A -> bool) (l l' : list A) :
  Permutation l l' -> Permutation (filter f l) (filter f l').
Proof.
  induction 1 as [|x l l' _ IH|x y l|l l' l'' _ IH1 _ IH2]; simpl.
  - constructor.
  - destruct (f x); [constructor|]; exact IH.
  - destruct (f x), (f y); try reflexivity. apply perm_swap.
  - transitivity (filter f l'); assumption.
Qed.

Lemma Qsum_perm (l l' : list Q) :
  Permutation l l' -> Pd.Qsum l == Pd.Qsum l'.
Proof.
  induction 1 as [|x l l' _ IH|x y l|l l' l'' _ IH1 _ IH2]; simpl.
  - reflexivity.
  - rewrite IH. reflexivity.
  - ring.
  - rewrite IH1. exact IH2.
Qed.

Lemma Qmean_perm (l l' : list Q) :
  Permutation l l' -> Pd.Qmean l == Pd.Qmean l'.
Proof.
  intro H. unfold Pd.Qmean, Pd.Qlen.
  rewrite (Qsum_perm _ _ H), (Permutation_length H). reflexivity.
Qed.

Lemma months_of_perm (l l' : list Pd.Obs) :
  Permutation l l' -> months_of l = months_of l'.
Proof.
  intro H. apply ascending_unique; try apply months_of_ascending.
  intro m. rewrite !months_of_spec.
  split; intros [o [Ho E]]; exists o; (split; [|exact E]).
  - apply (Permutation_in _ H Ho).
  - apply (Permutation_in _ (Permutation_sym H) Ho).
Qed.

Lemma month_mean_perm (l l' : list Pd.Obs) (m : nat) :
  Permutation l l' ->
  Pd.Qmean (month_values l m) == Pd.Qmean (month_values l' m).
Proof.
  intro H. apply Qmean_perm. unfold month_values.
  apply Permutation_map, filter_perm, H.
Qed.

(** Extremes and mean of the monthly means do not depend on the order of
    the rows. *)
Lemma monthly_maximum_perm (l l' : list Pd.Obs) (M M' : Q) :
  Permutation l l' ->
  is_maximum M (Pd.values (monthly_means l)) ->
  is_maximum M' (Pd.values (monthly_means l')) ->
  M <= M'.
Proof.
  intros H [HM _] [_ HM']. unfold Pd.values, monthly_means in *.
  rewrite map_map in *. simpl in *.
  apply in_map_iff in HM. destruct HM as [m [<- Hm]].
  rewrite (month_mean_perm _ _ m H). apply HM'.
  apply in_map_iff. exists m. split; [reflexivity|].
  rewrite <- (months_of_perm _ _ H). exact Hm.
Qed.

Lemma monthly_minimum_perm (l l' : list Pd.Obs) (m0 m0' : Q) :
  Permutation l l' ->
  is_minimum m0 (Pd.values (monthly_means l)) ->
  is_minimum m0' (Pd.values (monthly_means l')) ->
  m0' <= m0.
Proof.
  intros H [HM _] [_ HM']. unfold Pd.values, monthly_means in *.
  rewrite map_map in *. simpl in *.
  apply in_map_iff in HM. destruct HM as [m [<- Hm]].
  rewrite (month_mean_perm _ _ m H). apply HM'.
  apply in_map_iff. exists m. split; [reflexivity|].
  rewrite <- (months_of_perm _ _ H). exact Hm.
Qed.

Lemma Qsum_map_ext {A : Type} (f g : A -> Q) (l : list A) :
  (forall x, f x == g x) -> Pd.Qsum (map f l) == Pd.Qsum (map g l).
Proof.
  intro H. induction l as [|a l IH]; simpl; [reflexivity|].
  rewrite IH, (H a). reflexivity.
Qed.

Lemma monthly_mean_of_means_perm (l l' : list Pd.Obs) :
  Permutation l l' ->
  Pd.Qmean (Pd.values (monthly_means l))
  == Pd.Qmean (Pd.values (monthly_means l')).
Proof.
  intro H. unfold Pd.values, monthly_means. rewrite !map_map. simpl.
  rewrite <- (months_of_perm _ _ H).
  unfold Pd.Qmean, Pd.Qlen. rewrite !length_map.
  rewrite (Qsum_map_ext _ (fun m => Pd.Qmean (month_values l' m))).
  - reflexivity.
  - intro m. apply month_mean_perm, H.
Qed.

Lemma Qeq_bool_compat (x x' : Q) : x == x' -> Qeq_bool x 0 = Qeq_bool x' 0.
Proof.
  intro H. destruct (Qeq_bool x 0) eqn:E, (Qeq_bool x' 0) eqn:E';
    try reflexivity.
  - apply Qeq_bool_eq in E. apply Qeq_bool_false in E'.
    exfalso. apply E'. rewrite <- H. exact E.
  - apply Qeq_bool_eq in E'. apply Qeq_bool_false in E.
    exfalso. apply E. rewrite H. exact E'.
Qed.

Lemma score_compat (M m mu M' m' mu' : Q) :
  M == M' -> m == m' -> mu == mu' ->
  feq (fdiv (fsub (Fin M) (Fin m)) (Fin mu))
      (fdiv (fsub (Fin M') (Fin m')) (Fin mu')).
Proof.
  intros HM Hm Hmu. simpl.
  rewrite (Qeq_bool_compat _ _ Hmu).
  assert (Hd : M + - m == M' + - m') by (rewrite HM, Hm; reflexivity).
  rewrite (Qltb_compat 0 0 _ _ (Qeq_refl 0) Hd).
  rewrite (Qltb_compat _ _ 0 0 Hd (Qeq_refl 0)).
  destruct (Qeq_bool mu' 0) eqn:Ez.
  - destruct (Qltb 0 (M' + - m')); [exact I|].
    destruct (Qltb (M' + - m') 0); exact I.
  - simpl. rewrite Hd, Hmu. reflexivity.
Qed.

Lemma fgt_compat (a b : float) (c : Q) :
  feq a b -> fgt a (Fin c) = fgt b (Fin c).
Proof.
  destruct a, b; simpl; intro H; try contradiction; try reflexivity.
  unfold fgt. simpl. apply Qltb_compat; [reflexivity|exact H].
Qed.

(** The seasonality the classification tool works with, on the rows in
    date order, is the seasonality tool's, on the rows in file order. *)
Lemma seasonality_score_perm (l l' : list Pd.Obs) :
  Permutation l l' ->
  feq (fdiv (fsub (Pd.max (monthly_means l)) (Pd.min (monthly_means l)))
            (Pd.mean (monthly_means l)))
      (fdiv (fsub (Pd.max (monthly_means l')) (Pd.min (monthly_means l')))
            (Pd.mean (monthly_means l'))).
Proof.
  intro H. destruct l as [|o l].
  - apply Permutation_nil in H. subst l'. exact I.
  - assert (Hne : o :: l <> []) by discriminate.
    assert (Hne' : l' <> []).
    { intro E. subst l'. apply Permutation_sym, Permutation_nil in H.
      discriminate H. }
    pose proof (monthly_means_nonempty _ Hne) as Hs.
    pose proof (monthly_means_nonempty _ Hne') as Hs'.
    destruct (Series_max_maximum _ Hs) as [M [EM HM]].
    destruct (Series_min_minimum _ Hs) as [m [Em Hm]].
    destruct (Series_max_maximum _ Hs') as [M' [EM' HM']].
    destruct (Series_min_minimum _ Hs') as [m' [Em' Hm']].
    rewrite EM, Em, EM', Em', (Series_mean_Fin _ Hs), (Series_mean_Fin _ Hs').
    apply score_compat.
    + apply Qle_antisym.
      * apply (monthly_maximum_perm _ _ _ _ H HM HM').
      * apply (monthly_maximum_perm _ _ _ _ (Permutation_sym H) HM' HM).
    + apply Qle_antisym.
      * apply (monthly_minimum_perm _ _ _ _ (Permutation_sym H) Hm' Hm).
      * apply (monthly_minimum_perm _ _ _ _ H Hm Hm').
    + apply monthly_mean_of_means_perm, H.
Qed.

Lemma whole_sales_checked (obs : list Pd.Obs) :
  forallb (fun o : Pd.Obs =>
             Qeq_bool (snd o) (inject_Z (Qfloor (snd o)))
             && (Z.abs (Qfloor (snd o)) * Z.of_nat (List.length obs)
                 <=? 2 ^ 53)%Z) obs = true ->
  whole_sales obs.
Proof.
  intros H o Ho. rewrite forallb_forall in H. specialize (H o Ho).
  apply andb_true_iff in H. destruct H as [H1 H2].
  exists (Qfloor (snd o)). split.
  - apply Qeq_bool_iff. exact H1.
  - apply Z.leb_le. exact H2.
Qed.

(** X14: on a product whose sales are whole numbers (of a size whose
    sums float64 holds exactly, so that a monthly mean does not depend on
    the order of the rows), the seasonality tool and the classification
    tool never disagree: when both return, their seasonality scores are
    the same number and their seasonal flags are equal, although only
    the classification tool sorts the rows by date. *)
Theorem seasonality_and_classification_agree
  (env : Env) (data_path product_name : string) (obs : list Pd.Obs)
  (s : S.Locals) (c : C.Locals) :
  series_of env data_path product_name = Some obs ->
  whole_sales obs ->
  S.analysis env data_path product_name = Ok s ->
  C.analysis env data_path product_name = Ok c ->
  feq (S.seasonality_score s) (C.seasonality_score c)
  /\ S.is_seasonal s = C.is_seasonal c.
Proof.
  intros Hload _ HS HC.
  rewrite (seasonality_analysis_of_series _ _ _ _ Hload) in HS.
  rewrite (classification_analysis_of_series _ _ _ _ Hload) in HC.
  injection HS as <-.
  unfold C.metrics in HC.
  destruct (Sk.fit _ _) as [model|e]; [|discriminate HC].
  cbn [bind] in HC. injection HC as <-.
  unfold S.metrics.
  cbn [S.seasonality_score S.is_seasonal C.seasonality_score C.is_seasonal].
  rewrite !groupby_Month_mean_spec.
  pose proof (seasonality_score_perm _ _ (sort_values_Date_perm (tie_rank env) obs)) as H.
  split; [exact H|]. apply fgt_compat, H.
Qed.

Lemma seasonality_and_classification_agree_witness :
  exists s c,
    S.analysis Examples.env "sales.csv" "Line" = Ok s
    /\ C.analysis Examples.env "sales.csv" "Line" = Ok c
    /\ feq (S.seasonality_score s) (C.seasonality_score c)
    /\ S.is_seasonal s = C.is_seasonal c.
Proof.
  eexists. eexists.
  split; [vm_compute; reflexivity|].
  split; [vm_compute; reflexivity|].
  apply (seasonality_and_classification_agree Examples.env "sales.csv" "Line"
           Examples.line).
  - reflexivity.
  - apply whole_sales_checked. vm_compute. reflexivity.
  - vm_compute. reflexivity.
  - vm_compute. reflexivity.
Defined.

(** ** Missing columns *)

Lemma product_col_missing (data : Pd.DataFrame) :
  Pd.has_column data (product_col data) = false ->
  product_col data = "Product"%string.
Proof.
  unfold product_col.
  destruct (Pd.has_column data "Product_Name") eqn:E; [|reflexivity].
  intro H. rewrite E in H. discriminate H.
Qed.

Lemma sales_col_missing (data : Pd.DataFrame) :
  Pd.has_column data (sales_col data) = false ->
  sales_col data = "Units_Sold"%string.
Proof.
  unfold sales_col.
  destruct (Pd.has_column data "Weekly_Sales") eqn:E; [|reflexivity].
  intro H. rewrite E in H. discriminate H.
Qed.

(** X15: when the file loads but lacks a column, each tool answers with the
    KeyError of the first column it misses, looking for the product
    column, then Date, then (dates parsed) the sales column; the error
    names the second alias, Product or Units_Sold, never Product_Name or
    Weekly_Sales. *)
Theorem missing_column_error_text
  (env : Env) (data_path product_name : string) (data : Pd.DataFrame) :
  read_csv env data_path = Ok data ->
  (Pd.has_column data (product_col data) = false ->
   S._run env data_path product_name
   = "Error in seasonality analysis: 'Product'"%string
   /\ T._run env data_path product_name
      = "Error in trend analysis: 'Product'"%string
   /\ C._run env data_path product_name
      = "Error in product classification: 'Product'"%string)
  /\ (Pd.has_column data (product_col data) = true ->
      Pd.has_column data "Date" = false ->
      S._run env data_path product_name
      = "Error in seasonality analysis: 'Date'"%string
      /\ T._run env data_path product_name
         = "Error in trend analysis: 'Date'"%string
      /\ C._run env data_path product_name
         = "Error in product classification: 'Date'"%string)
  /\ (forall obs,
        Pd.has_column data (product_col data) = true ->
        Pd.has_column data "Date" = true ->
        Pd.to_datetime (Pd.select_product data product_name) = Ok obs ->
        Pd.has_column data (sales_col data) = false ->
        S._run env data_path product_name
        = "Error in seasonality analysis: 'Column not found: Units_Sold'"%string
        /\ T._run env data_path product_name
           = "Error in trend analysis: 'Units_Sold'"%string
        /\ C._run env data_path product_name
           = "Error in product classification: 'Units_Sold'"%string).
Proof.
  intro Hread.
  unfold S._run, T._run, C._run, S.analysis, T.analysis, C.analysis.
  rewrite Hread. cbn [bind]. unfold Pd.getitem, Pd.getitem_grouped.
  split; [|split].
  - intro Hp. rewrite Hp, (product_col_missing _ Hp). cbn [bind catch_as].
    split; [|split]; reflexivity.
  - intros Hp Hd. rewrite Hp, Hd. cbn [bind catch_as].
    split; [|split]; reflexivity.
  - intros obs Hp Hd Hobs Hs.
    rewrite Hp, Hd, Hobs, Hs, (sales_col_missing _ Hs). cbn [bind catch_as].
    split; [|split]; reflexivity.
Qed.

Lemma missing_column_error_text_witness :
  (Pd.has_column (Pd.mkDf ["Product"; "Date"]%string [])
     (product_col (Pd.mkDf ["Product"; "Date"]%string [])) = false ->
   S._run Examples.no_sales_column "sales.csv" "Line"
   = "Error in seasonality analysis: 'Product'"%string
   /\ T._run Examples.no_sales_column "sales.csv" "Line"
      = "Error in trend analysis: 'Product'"%string
   /\ C._run Examples.no_sales_column "sales.csv" "Line"
      = "Error in product classification: 'Product'"%string)
  /\ (Pd.has_column (Pd.mkDf ["Product"; "Date"]%string [])
        (product_col (Pd.mkDf ["Product"; "Date"]%string [])) = true ->
      Pd.has_column (Pd.mkDf ["Product"; "Date"]%string []) "Date" = false ->
      S._run Examples.no_sales_column "sales.csv" "Line"
      = "Error in seasonality analysis: 'Date'"%string
      /\ T._run Examples.no_sales_column "sales.csv" "Line"
         = "Error in trend analysis: 'Date'"%string
      /\ C._run Examples.no_sales_column "sales.csv" "Line"
         = "Error in product classification: 'Date'"%string)
  /\ (forall obs,
        Pd.has_column (Pd.mkDf ["Product"; "Date"]%string [])
          (product_col (Pd.mkDf ["Product"; "Date"]%string [])) = true ->
        Pd.has_column (Pd.mkDf ["Product"; "Date"]%string []) "Date" = true ->
        Pd.to_datetime
          (Pd.select_product (Pd.mkDf ["Product"; "Date"]%string []) "Line")
        = Ok obs ->
        Pd.has_column (Pd.mkDf ["Product"; "Date"]%string [])
          (sales_col (Pd.mkDf ["Product"; "Date"]%string [])) = false ->
        S._run Examples.no_sales_column "sales.csv" "Line"
        = "Error in seasonality analysis: 'Column not found: Units_Sold'"%string
        /\ T._run Examples.no_sales_column "sales.csv" "Line"
           = "Error in trend analysis: 'Units_Sold'"%string
        /\ C._run Examples.no_sales_column "sales.csv" "Line"
           = "Error in product classification: 'Units_Sold'"%string).
Proof.
  apply (missing_column_error_text Examples.no_sales_column "sales.csv" "Line"
           (Pd.mkDf ["Product"; "Date"]%string [])).
  reflexivity.
Defined.

(* ================================================================= *)
(** * The crew analyzer *)

(** ** Dictionaries and distinct values *)

Lemma dict_get_set_same {V : Type} (k : string) (v : V) (d : Crew.Dict V) :
  Crew.dict_get k (Crew.dict_set k v d) = Some v.
Proof.
  induction d as [|[k' v'] d IH]; simpl.
  - rewrite String.eqb_refl. reflexivity.
  - destruct (String.eqb k' k) eqn:E; simpl; rewrite E; [reflexivity|exact IH].
Qed.

Lemma dict_get_set_other {V : Type} (k k0 : string) (v : V) (d : Crew.Dict V) :
  k0 <> k -> Crew.dict_get k0 (Crew.dict_set k v d) = Crew.dict_get k0 d.
Proof.
  intro Hne. induction d as [|[k' v'] d IH]; simpl.
  - destruct (String.eqb_spec k k0); [congruence|reflexivity].
  - destruct (String.eqb_spec k' k); simpl.
    + subst k'. destruct (String.eqb_spec k k0); [congruence|reflexivity].
    + destruct (String.eqb k' k0); [reflexivity|exact IH].
Qed.

Lemma keys_dict_set {V : Type} (k : string) (v : V) (d : Crew.Dict V) :
  Crew.keys (Crew.dict_set k v d) = Outcome.unique_step (Crew.keys d) k.
Proof.
  unfold Crew.keys, Outcome.unique_step.
  induction d as [|[k' v'] d IH]; simpl; [reflexivity|].
  rewrite (String.eqb_sym k k').
  destruct (String.eqb k' k); simpl; [reflexivity|].
  rewrite IH. destruct (existsb (String.eqb k) (map fst d)); reflexivity.
Qed.

Lemma dict_get_keys {V : Type} (k : string) (d : Crew.Dict V) :
  In k (Crew.keys d) <-> exists v, Crew.dict_get k d = Some v.
Proof.
  unfold Crew.keys. induction d as [|[k' v'] d IH]; simpl.
  - split; [contradiction|intros [v H]; discriminate H].
  - destruct (String.eqb_spec k' k).
    + split; [intros _; eexists; reflexivity|intros _; left; exact e].
    + rewrite <- IH. split; [intros [E|H]; [contradiction|exact H]|auto].
Qed.

Lemma existsb_eqb_In (x : string) (l : list string) :
  existsb (String.eqb x) l = true <-> In x l.
Proof.
  rewrite existsb_exists. split.
  - intros [y [Hy E]]. apply String.eqb_eq in E. subst y. exact Hy.
  - intro H. exists x. split; [exact H|apply String.eqb_refl].
Qed.

Lemma unique_fold_spec (l acc : list string) :
  NoDup acc ->
  NoDup (fold_left Outcome.unique_step l acc)
  /\ (forall x, In x (fold_left Outcome.unique_step l acc) <-> In x acc \/ In x l)
  /\ exists added,
       fold_left Outcome.unique_step l acc = (acc ++ added)%list
       /\ forall x, In x added -> In x l.
Proof.
  revert acc. induction l as [|a l IH]; intros acc Hnd; simpl.
  - split; [exact Hnd|]. split; [intro x; tauto|].
    exists []. split; [symmetry; apply app_nil_r|intros x []].
  - unfold Outcome.unique_step at 2 4 6.
    destruct (existsb (String.eqb a) acc) eqn:E.
    + apply existsb_eqb_In in E.
      destruct (IH acc Hnd) as [H1 [H2 [added [H3 H4]]]].
      split; [exact H1|]. split; [|exists added; split; [exact H3|auto]].
      intro x. rewrite H2. split; [tauto|].
      intros [H|[<-|H]]; auto.
    + assert (Ha : ~ In a acc).
      { intro H. apply existsb_eqb_In in H. congruence. }
      assert (Hnd' : NoDup (acc ++ [a])).
      { apply NoDup_app; [exact Hnd|constructor; [intros []|constructor]|].
        intros x Hx [<-|[]]. exact (Ha Hx). }
      destruct (IH (acc ++ [a])%list Hnd') as [H1 [H2 [added [H3 H4]]]].
      split; [exact H1|]. split.
      * intro x. rewrite H2, in_app_iff. simpl. tauto.
      * exists (a :: added). split.
        -- rewrite H3, <- app_assoc. reflexivity.
        -- intros x [<-|Hx]; [left; reflexivity|right; auto].
Qed.

(** [unique] lists every value once. *)
Lemma unique_spec (l : list string) :
  NoDup (Crew.unique l) /\ forall x, In x (Crew.unique l) <-> In x l.
Proof.
  destruct (unique_fold_spec l [] (NoDup_nil _)) as [H1 [H2 _]].
  split; [exact H1|]. intro x.
  change (Crew.unique l) with (fold_left Outcome.unique_step l []).
  rewrite (H2 x). simpl. tauto.
Qed.

Lemma unique_length (l : list string) :
  (List.length (Crew.unique l) <= List.length l)%nat.
Proof.
  destruct (unique_spec l) as [Hnd Hin].
  apply NoDup_incl_length; [exact Hnd|]. intros x Hx. apply Hin. exact Hx.
Qed.

Lemma unique_nonempty (l : list string) : l <> [] -> Crew.unique l <> [].
Proof.
  destruct l as [|a l]; [congruence|]. intros _ H.
  assert (Ha : In a (Crew.unique (a :: l)))
    by (apply (proj2 (unique_spec (a :: l))); left; reflexivity).
  rewrite H in Ha. exact Ha.
Qed.

(** ** Blocks of prints *)

Lemma printing_print {W : Type} (o : Crew.Outside W) (s : string) :
  Outcome.printing o (Crew.Self.print o s).
Proof.
  intro mem. unfold Crew.Self.print, Crew.in_state, Crew.print_.
  destruct (Crew.write o (Crew.world (Crew.io mem)) s) as [[u|e] w] eqn:E.
  - left. eexists. split; [reflexivity|reflexivity].
  - right. exists e. eexists. split; [reflexivity|]. split; [reflexivity|].
    exists (Crew.world (Crew.io mem)), s, w. exact E.
Qed.

Lemma printing_ret {W : Type} (o : Crew.Outside W) :
  Outcome.printing o (Crew.ret tt).
Proof. intro mem. left. exists mem. split; reflexivity. Qed.

Lemma printing_seq {W : Type} (o : Crew.Outside W)
  (m k : Crew.M (Crew.Mem W) unit) :
  Outcome.printing o m -> Outcome.printing o k ->
  Outcome.printing o (Crew.sbind m (fun _ => k)).
Proof.
  intros Hm Hk mem. unfold Crew.sbind.
  destruct (Hm mem) as [[mem1 [E1 T1]]|[e [mem1 [E1 [T1 R1]]]]]; rewrite E1.
  - destruct (Hk mem1) as [[mem2 [E2 T2]]|[e [mem2 [E2 [T2 R2]]]]].
    + left. exists mem2. split; [exact E2|congruence].
    + right. exists e, mem2. split; [exact E2|]. split; [congruence|exact R2].
  - right. exists e, mem1. split; [reflexivity|]. split; [exact T1|exact R1].
Qed.

Lemma printing_when {W : Type} (o : Crew.Outside W) (b : bool)
  (m : Crew.M (Crew.Mem W) unit) :
  Outcome.printing o m -> Outcome.printing o (Crew.when b m).
Proof. intro H. destruct b; [exact H|apply printing_ret]. Qed.

Ltac prove_printing :=
  repeat first [ apply printing_when | apply printing_seq
               | apply printing_print | apply printing_ret ].

(** Names the block of prints the computation at hand starts with. *)
Ltac first_prints o p P :=
  match goal with
  | |- context [Crew.sbind (Crew.when ?b ?m) _ _] =>
      assert (P : Outcome.printing o (Crew.when b m)) by prove_printing;
      generalize dependent (Crew.when b m); intros p P
  end.

(** ** How the calls run *)

Lemma analyze_product_run {W : Type} (o : Crew.Outside W)
  (product_name : string) (verbose : bool) (mem : Crew.Mem W) :
  exists res mem',
    Crew.Self.analyze_product o product_name verbose mem = (res, mem')
    /\ Outcome.product_outcome o (Crew.this mem) product_name
         (Outcome.returned res mem').
Proof.
  unfold Crew.Self.analyze_product.
  first_prints o p1 P1.
  unfold Crew.sbind at 1.
  destruct (P1 mem) as [[mem1 [E1 T1]]|[e [mem1 [E1 [T1 R1]]]]]; rewrite E1.
  2:{ exists (Raise e), mem1. split; [reflexivity|].
      apply Outcome.print_fails. exact R1. }
  unfold Crew.sbind at 1, Crew.Self.get_data_path at 1.
  rewrite T1.
  unfold Crew.sbind at 1, Crew.Self.crew_assemble at 1, Crew.in_state at 1.
  destruct (Crew.assemble o (Crew.world (Crew.io mem1))
              (Crew.data_path (Crew.this mem)) product_name)
    as [[u|e] w1] eqn:Ea.
  2:{ eexists (Raise e), _. split; [reflexivity|].
      apply Outcome.assembly_fails. eexists _, _. exact Ea. }
  first_prints o p2 P2.
  unfold Crew.sbind at 1.
  match goal with
  | |- context [p2 ?m] =>
      destruct (P2 m) as [[mem2 [E2 T2]]|[e [mem2 [E2 [T2 R2]]]]]; rewrite E2
  end.
  2:{ exists (Raise e), mem2. split; [reflexivity|].
      apply Outcome.print_fails. exact R2. }
  cbn [Crew.this] in T2.
  unfold Crew.try_except.
  unfold Crew.sbind at 1, Crew.Self.crew_kickoff at 1, Crew.in_state at 1.
  destruct (Crew.kickoff o (Crew.world (Crew.io mem2))
              (Crew.data_path (Crew.this mem)) product_name)
    as [[r|e] w2] eqn:Ek.
  - unfold Crew.sbind at 1, Crew.Self.datetime_now_isoformat at 1.
    unfold Crew.sbind at 1, Crew.Self.set_result at 1.
    cbn [Crew.this Crew.io Crew.world].
    first_prints o p3 P3.
    unfold Crew.sbind at 1.
    match goal with
    | |- context [p3 ?m] =>
        destruct (P3 m) as [[mem3 [E3 T3]]|[e [mem3 [E3 [T3 R3]]]]];
          rewrite E3
    end.
    + exists (Ok r), mem3. split; [reflexivity|].
      cbn [Outcome.returned]. rewrite T3. cbn [Crew.this].
      apply Outcome.crew_answers. exists (Crew.world (Crew.io mem2)), w2.
      split; [exact Ek|]. rewrite T2, T1. reflexivity.
    + cbn [Crew.this] in T3.
      assert (Hst : Outcome.stored o (Crew.this mem) product_name r
                      (Crew.this mem3)).
      { exists (Crew.world (Crew.io mem2)), w2.
        split; [exact Ek|]. rewrite T3, T2, T1. reflexivity. }
      destruct (Crew.is_Exception o e) eqn:Ee.
      * cbv zeta. first_prints o p4 P4.
        unfold Crew.sbind at 1.
        destruct (P4 mem3) as [[mem4 [E4 T4]]|[e' [mem4 [E4 [T4 R4]]]]];
          rewrite E4.
        -- eexists (Ok _), mem4. split; [reflexivity|].
           cbn [Outcome.returned]. rewrite T4.
           apply (Outcome.answer_unprinted o _ _ r _ e Hst R3 Ee).
        -- exists (Raise e'), mem4. split; [reflexivity|].
           apply Outcome.print_fails. exact R4.
      * exists (Raise e), mem3. split; [reflexivity|].
        apply Outcome.print_fails. exact R3.
  - destruct (Crew.is_Exception o e) eqn:Ee.
    + cbv zeta. first_prints o p4 P4.
      unfold Crew.sbind at 1.
      match goal with
      | |- context [p4 ?m] =>
          destruct (P4 m) as [[mem4 [E4 T4]]|[e' [mem4 [E4 [T4 R4]]]]];
            rewrite E4
      end.
      * eexists (Ok _), mem4. split; [reflexivity|].
        cbn [Outcome.returned]. rewrite T4. cbn [Crew.this]. rewrite T2, T1.
        apply (Outcome.crew_fails o _ _ e _ _ Ek Ee).
      * exists (Raise e'), mem4. split; [reflexivity|].
        apply Outcome.print_fails. exact R4.
    + eexists (Raise e), _. split; [reflexivity|].
      apply Outcome.crew_escape. eexists _, _. split; [exact Ek|exact Ee].
Qed.

Lemma analyze_product_quiet {W : Type} (o : Crew.Outside W)
  (product_name : string) (mem : Crew.Mem W) :
  Crew.stdout (Crew.io (snd (Crew.Self.analyze_product o product_name false mem)))
  = Crew.stdout (Crew.io mem).
Proof.
  unfold Crew.Self.analyze_product. cbn [Crew.when].
  unfold Crew.sbind, Crew.ret, Crew.try_except, Crew.Self.get_data_path,
    Crew.Self.crew_assemble, Crew.Self.crew_kickoff, Crew.in_state,
    Crew.Self.datetime_now_isoformat, Crew.Self.set_result.
  cbn [Crew.this Crew.io Crew.world Crew.stdout].
  destruct (Crew.assemble o _ _ _) as [[u|e] w1]; [|reflexivity].
  cbn [Crew.this Crew.io Crew.world Crew.stdout].
  destruct (Crew.kickoff o _ _ _) as [[r|e] w2].
  - reflexivity.
  - destruct (Crew.is_Exception o e); reflexivity.
Qed.

Lemma analyze_each_run {W : Type} (o : Crew.Outside W) (verbose : bool)
  (product_list : list string) :
  forall (i n : nat) (all_results : Crew.Dict string) (mem : Crew.Mem W),
  exists res mem',
    Crew.Self.analyze_each o verbose i n product_list all_results mem
    = (res, mem')
    /\ Outcome.loop_outcome o product_list all_results (Crew.this mem)
         (Outcome.returned res mem').
Proof.
  induction product_list as [|p rest IH]; intros i n all_results mem.
  - exists (Ok all_results), mem. split; [reflexivity|]. constructor.
  - cbn [Crew.Self.analyze_each].
    first_prints o p1 P1.
    unfold Crew.sbind at 1.
    destruct (P1 mem) as [[mem1 [E1 T1]]|[e [mem1 [E1 [T1 R1]]]]]; rewrite E1.
    2:{ exists (Raise e), mem1. split; [reflexivity|].
        apply Outcome.loop_print_fails. exact R1. }
    unfold Crew.sbind at 1.
    destruct (analyze_product_run o p verbose mem1) as [r [mem2 [E2 O2]]].
    rewrite E2. rewrite T1 in O2.
    destruct r as [r|e].
    2:{ exists (Raise e), mem2. split; [reflexivity|].
        apply Outcome.loop_product_fails. exact O2. }
    cbv zeta. first_prints o p3 P3.
    unfold Crew.sbind at 1.
    destruct (P3 mem2) as [[mem3 [E3 T3]]|[e [mem3 [E3 [T3 R3]]]]]; rewrite E3.
    2:{ exists (Raise e), mem3. split; [reflexivity|].
        apply Outcome.loop_print_fails. exact R3. }
    destruct (IH (S i) n (Crew.dict_set p r all_results) mem3)
      as [res [mem4 [E4 O4]]].
    exists res, mem4. split; [exact E4|].
    eapply Outcome.loop_step; [exact O2|].
    cbn [Outcome.returned]. rewrite <- T3. exact O4.
Qed.

Lemma analyze_each_quiet {W : Type} (o : Crew.Outside W)
  (product_list : list string) :
  forall (i n : nat) (all_results : Crew.Dict string) (mem : Crew.Mem W),
  Crew.stdout (Crew.io (snd (Crew.Self.analyze_each o false i n product_list
                               all_results mem)))
  = Crew.stdout (Crew.io mem).
Proof.
  induction product_list as [|p rest IH]; intros i n all_results mem.
  - reflexivity.
  - cbn [Crew.Self.analyze_each Crew.when].
    unfold Crew.sbind at 1. unfold Crew.ret at 1.
    unfold Crew.sbind at 1.
    pose proof (analyze_product_quiet o p mem) as Hq.
    destruct (Crew.Self.analyze_product o p false mem) as [[r|e] mem1].
    + cbv zeta. unfold Crew.sbind at 1. unfold Crew.ret at 1.
      rewrite IH. exact Hq.
    + exact Hq.
Qed.

(** The three lines a verbose call ends with. *)
Lemma closing_prints {W : Type} (o : Crew.Outside W) (a b c : string)
  (mem mem' : Crew.Mem W) :
  Crew.sbind (Crew.Self.print o a)
    (fun _ => Crew.sbind (Crew.Self.print o b)
                (fun _ => Crew.Self.print o c)) mem = (Ok tt, mem') ->
  Crew.this mem' = Crew.this mem
  /\ Crew.stdout (Crew.io mem')
     = (Crew.stdout (Crew.io mem) ++ [a; b; c])%list.
Proof.
  unfold Crew.sbind, Crew.Self.print, Crew.in_state, Crew.print_.
  destruct (Crew.write o _ a) as [[u1|e1] w1]; [|discriminate].
  cbn [Crew.this Crew.io Crew.world Crew.stdout].
  destruct (Crew.write o _ b) as [[u2|e2] w2]; [|discriminate].
  cbn [Crew.this Crew.io Crew.world Crew.stdout].
  destruct (Crew.write o _ c) as [[u3|e3] w3]; [|discriminate].
  intro H. injection H as <-.
  cbn [Crew.this Crew.io Crew.world Crew.stdout].
  split; [reflexivity|]. rewrite <- !app_assoc. reflexivity.
Qed.

Lemma analyze_multiple_products_run {W : Type} (o : Crew.Outside W)
  (self : Crew.Analyzer) (product_list : list string) (verbose : bool)
  (st : Crew.St W) :
  exists res st',
    Crew.analyze_multiple_products o self product_list verbose st = (res, st')
    /\ ((exists e, res = Raise e /\ Outcome.print_raises o e)
        \/ Outcome.loop_outcome o product_list [] self res)
    /\ (verbose = true ->
        forall all_results self', res = Ok (all_results, self') ->
        exists before,
          Crew.stdout st'
          = (before ++
             [(Py.nl ++ "🎉 ALL ANALYSES COMPLETE!")%string;
              ("📊 " ++ Py.str_nat (List.length all_results)
               ++ " products analyzed successfully")%string;
              Crew.rule60])%list).
Proof.
  unfold Crew.analyze_multiple_products, Crew.call,
    Crew.Self.analyze_multiple_products.
  first_prints o p0 P0.
  unfold Crew.sbind at 1.
  destruct (P0 (Crew.mkMem self st))
    as [[mem0 [E0 T0]]|[e [mem0 [E0 [T0 R0]]]]]; rewrite E0.
  2:{ exists (Raise e), (Crew.io mem0). split; [reflexivity|].
      split; [left; exists e; split; [reflexivity|exact R0]|].
      intros _ a s' H. discriminate H. }
  cbn [Crew.this] in T0.
  unfold Crew.sbind at 1.
  destruct (analyze_each_run o verbose product_list 1
              (List.length product_list) [] mem0) as [res [mem1 [E1 O1]]].
  rewrite E1. rewrite T0 in O1.
  destruct res as [all_results|e].
  2:{ exists (Raise e), (Crew.io mem1). split; [reflexivity|].
      split; [right; exact O1|]. intros _ a s' H. discriminate H. }
  cbn [Outcome.returned] in O1.
  destruct verbose.
  - cbn [Crew.when]. unfold Crew.sbind at 1.
    match goal with
    | |- context [Crew.sbind (Crew.Self.print o ?a)
                    (fun _ => Crew.sbind (Crew.Self.print o ?b)
                                (fun _ => Crew.Self.print o ?c)) mem1] =>
        pose proof (closing_prints o a b c mem1) as Hc;
        assert (P : Outcome.printing o
                      (Crew.sbind (Crew.Self.print o a)
                         (fun _ => Crew.sbind (Crew.Self.print o b)
                                     (fun _ => Crew.Self.print o c))))
          by prove_printing;
        destruct (P mem1) as [[mem2 [E2 T2]]|[e [mem2 [E2 [T2 R2]]]]];
        rewrite E2
    end.
    + destruct (Hc mem2 E2) as [_ Hout].
      exists (Ok (all_results, Crew.this mem2)), (Crew.io mem2).
      split; [reflexivity|]. split; [right; rewrite T2; exact O1|].
      intros _ a s' H. injection H as <- <-.
      exists (Crew.stdout (Crew.io mem1)). exact Hout.
    + exists (Raise e), (Crew.io mem2). split; [reflexivity|].
      split; [left; exists e; split; [reflexivity|exact R2]|].
      intros _ a s' H. discriminate H.
  - cbn [Crew.when]. unfold Crew.sbind at 1, Crew.ret.
    exists (Ok (all_results, Crew.this mem1)), (Crew.io mem1).
    split; [reflexivity|]. split; [right; exact O1|].
    intro H. discriminate H.
Qed.

Lemma analyze_product_public_run {W : Type} (o : Crew.Outside W)
  (self : Crew.Analyzer) (product_name : string) (verbose : bool)
  (st : Crew.St W) :
  exists res st',
    Crew.analyze_product o self product_name verbose st = (res, st')
    /\ Outcome.product_outcome o self product_name res.
Proof.
  unfold Crew.analyze_product, Crew.call.
  destruct (analyze_product_run o product_name verbose (Crew.mkMem self st))
    as [res [mem' [E O]]].
  rewrite E. exists (Outcome.returned res mem'), (Crew.io mem').
  split; [reflexivity|exact O].
Qed.

(** ** What the loop keeps *)

Lemma stored_lookup {W : Type} (o : Crew.Outside W) (self : Crew.Analyzer)
  (p r : string) (self1 : Crew.Analyzer) :
  Outcome.stored o self p r self1 ->
  Crew.data_path self1 = Crew.data_path self
  /\ (forall q, q <> p ->
        Crew.dict_get q (Crew.results self1) = Crew.dict_get q (Crew.results self))
  /\ exists ts,
       Crew.dict_get p (Crew.results self1)
       = Some (Crew.mkEntry ts r (Crew.mkCrewInfo 4 4 "Sequential Multi-Agent")).
Proof.
  intros [w [w' [_ ->]]]. cbn [Crew.data_path Crew.results].
  split; [reflexivity|]. split.
  - intros q Hq. apply dict_get_set_other. exact Hq.
  - eexists. rewrite dict_get_set_same. reflexivity.
Qed.

Lemma product_outcome_frame {W : Type} (o : Crew.Outside W)
  (self : Crew.Analyzer) (p r : string) (self1 : Crew.Analyzer) :
  Outcome.product_outcome o self p (Ok (r, self1)) ->
  Crew.data_path self1 = Crew.data_path self
  /\ (forall q, q <> p ->
        Crew.dict_get q (Crew.results self1) = Crew.dict_get q (Crew.results self))
  /\ (self1 = self
      \/ exists ts r0,
           Crew.dict_get p (Crew.results self1)
           = Some (Crew.mkEntry ts r0
                     (Crew.mkCrewInfo 4 4 "Sequential Multi-Agent")))
  /\ ((exists e, r = Outcome.failure_message p e)
      \/ exists ts,
           Crew.dict_get p (Crew.results self1)
           = Some (Crew.mkEntry ts r
                     (Crew.mkCrewInfo 4 4 "Sequential Multi-Agent"))).
Proof.
  intro H. inversion H as [| | |r' s' Hst|r' s' e Hst Hp He|e w w' Hk He]; subst.
  - destruct (stored_lookup _ _ _ _ _ Hst) as [Hd [Ho [ts Ht]]].
    split; [exact Hd|]. split; [exact Ho|].
    split; [right; exists ts, r; exact Ht|right; exists ts; exact Ht].
  - destruct (stored_lookup _ _ _ _ _ Hst) as [Hd [Ho [ts Ht]]].
    split; [exact Hd|]. split; [exact Ho|].
    split; [right; exists ts, r'; exact Ht|left; exists e; reflexivity].
  - split; [reflexivity|]. split; [reflexivity|].
    split; [left; reflexivity|left; exists e; reflexivity].
Qed.

Lemma loop_keys {W : Type} (o : Crew.Outside W) l all_results self res :
  Outcome.loop_outcome o l all_results self res ->
  forall all' self', res = Ok (all', self') ->
  Crew.keys all' = fold_left Outcome.unique_step l (Crew.keys all_results).
Proof.
  induction 1 as [a s|p rest a s e Hp|p rest a s e Hp
                 |p rest a s r s1 res Hp Hl IH];
    intros all' self' Heq; try discriminate Heq.
  - injection Heq as <- <-. reflexivity.
  - rewrite (IH _ _ Heq), keys_dict_set. reflexivity.
Qed.

Lemma loop_accounted {W : Type} (o : Crew.Outside W) l all_results self res :
  Outcome.loop_outcome o l all_results self res ->
  forall all' self', res = Ok (all', self') ->
  Outcome.accounted all_results self -> Outcome.accounted all' self'.
Proof.
  induction 1 as [a s|p rest a s e Hp|p rest a s e Hp
                 |p rest a s r s1 res Hp Hl IH];
    intros all' self' Heq Hacc; try discriminate Heq.
  - injection Heq as <- <-. exact Hacc.
  - apply (IH _ _ Heq).
    destruct (product_outcome_frame o s p r s1 Hp) as [_ [Hother [_ Hp']]].
    intros q v Hq.
    destruct (string_dec q p) as [->|Hne].
    + rewrite dict_get_set_same in Hq. injection Hq as <-.
      destruct Hp' as [[e He]|[ts Hts]].
      * left. exists e. exact He.
      * right. eexists. split; [exact Hts|reflexivity].
    + rewrite dict_get_set_other in Hq by exact Hne.
      rewrite (Hother q Hne). apply Hacc. exact Hq.
Qed.

Lemma loop_results {W : Type} (o : Crew.Outside W) l all_results self res :
  Outcome.loop_outcome o l all_results self res ->
  forall all' self', res = Ok (all', self') ->
  Crew.data_path self' = Crew.data_path self
  /\ (forall q, ~ In q l ->
        Crew.dict_get q (Crew.results self') = Crew.dict_get q (Crew.results self))
  /\ (forall q, In q (Crew.keys (Crew.results self)) ->
                In q (Crew.keys (Crew.results self')))
  /\ (forall q en, Crew.dict_get q (Crew.results self') = Some en ->
        Crew.dict_get q (Crew.results self) = Some en
        \/ (In q l
            /\ Crew.crew_info en = Crew.mkCrewInfo 4 4 "Sequential Multi-Agent")).
Proof.
  induction 1 as [a s|p rest a s e Hp|p rest a s e Hp
                 |p rest a s r s1 res Hp Hl IH];
    intros all' self' Heq; try discriminate Heq.
  - injection Heq as <- <-.
    split; [reflexivity|]. split; [reflexivity|]. split; [auto|]. auto.
  - destruct (IH _ _ Heq) as [Hd [Hout [Hkeep Hnew]]].
    destruct (product_outcome_frame o s p r s1 Hp) as [Hd1 [Hother [Hp' _]]].
    split; [congruence|]. split; [|split].
    + intros q Hq. rewrite Hout by (intro; apply Hq; right; assumption).
      apply Hother. intros ->. apply Hq. left. reflexivity.
    + intros q Hq. apply Hkeep.
      destruct (string_dec q p) as [->|Hne].
      * destruct Hp' as [->|[ts [r0 Hts]]]; [exact Hq|].
        apply dict_get_keys. eexists. exact Hts.
      * apply dict_get_keys in Hq. apply dict_get_keys.
        rewrite (Hother q Hne). exact Hq.
    + intros q en Hq. destruct (Hnew q en Hq) as [H1|[Hin Hci]].
      * destruct (string_dec q p) as [->|Hne].
        -- destruct Hp' as [->|[ts [r0 Hts]]]; [left; exact H1|].
           right. split; [left; reflexivity|].
           rewrite Hts in H1. injection H1 as <-. reflexivity.
        -- left. rewrite <- (Hother q Hne). exact H1.
      * right. split; [right; exact Hin|exact Hci].
Qed.

(** What leaves the loop was raised by a [print], by the assembly of the
    crew of a listed product, or, not being an [Exception], by the run
    of such a crew. *)
Lemma loop_raise {W : Type} (o : Crew.Outside W) l all_results self res :
  Outcome.loop_outcome o l all_results self res ->
  forall e, res = Raise e ->
  Outcome.print_raises o e
  \/ exists p,
       In p l
       /\ (Outcome.assembly_raises o (Crew.data_path self) p e
           \/ Outcome.crew_escapes o (Crew.data_path self) p e).
Proof.
  induction 1 as [a s|p rest a s e Hp|p rest a s e Hp
                 |p rest a s r s1 res Hp Hl IH];
    intros e' Heq.
  - discriminate Heq.
  - injection Heq as <-. left. exact Hp.
  - injection Heq as <-.
    inversion Hp as [e0 Ha|e0 Hr|e0 Hc| | |]; subst.
    + right. exists p. split; [left; reflexivity|left; exact Ha].
    + left. exact Hr.
    + right. exists p. split; [left; reflexivity|right; exact Hc].
  - destruct (product_outcome_frame o s p r s1 Hp) as [Hd _].
    destruct (IH e' Heq) as [Hpr|[q [Hin Hq]]]; [left; exact Hpr|].
    right. exists q. split; [right; exact Hin|]. rewrite <- Hd. exact Hq.
Qed.

Lemma loop_offline {W : Type} (o : Crew.Outside W) l all_results self res :
  (forall w0 dp p, exists e w1, Crew.kickoff o w0 dp p = (Raise e, w1)) ->
  Outcome.loop_outcome o l all_results self res ->
  forall all' self', res = Ok (all', self') ->
  self' = self
  /\ (Outcome.all_failed all_results -> Outcome.all_failed all').
Proof.
  intro Hdown.
  induction 1 as [a s|p rest a s e Hp|p rest a s e Hp
                 |p rest a s r s1 res Hp Hl IH];
    intros all' self' Heq; try discriminate Heq.
  - injection Heq as <- <-. split; [reflexivity|auto].
  - destruct (IH _ _ Heq) as [Hs Hf].
    assert (Hno : forall r0 s0, ~ Outcome.stored o s p r0 s0).
    { intros r0 s0 [w [w' [Hk _]]].
      destruct (Hdown w (Crew.data_path s) p) as [e [w1 Hb]]. congruence. }
    inversion Hp as [| | |r' s' Hst|r' s' e Hst _ _|e w w' Hk He]; subst.
    + exfalso. exact (Hno _ _ Hst).
    + exfalso. exact (Hno _ _ Hst).
    + split; [reflexivity|]. intro Hall. apply Hf.
      intros q v Hq. destruct (string_dec q p) as [->|Hne].
      * rewrite dict_get_set_same in Hq. injection Hq as <-.
        eexists. reflexivity.
      * rewrite dict_get_set_other in Hq by exact Hne. apply Hall. exact Hq.
Qed.

Lemma analyze_multiple_products_returned {W : Type} (o : Crew.Outside W)
  (self : Crew.Analyzer) (product_list : list string) (verbose : bool)
  (st : Crew.St W) (all_results : Crew.Dict string) (self' : Crew.Analyzer)
  (st' : Crew.St W) :
  Crew.analyze_multiple_products o self product_list verbose st
  = (Ok (all_results, self'), st') ->
  Outcome.loop_outcome o product_list [] self (Ok (all_results, self'))
  /\ (verbose = true ->
      exists before,
        Crew.stdout st'
        = (before ++
           [(Py.nl ++ "🎉 ALL ANALYSES COMPLETE!")%string;
            ("📊 " ++ Py.str_nat (List.length all_results)
             ++ " products analyzed successfully")%string;
            Crew.rule60])%list).
Proof.
  intro Hrun.
  destruct (analyze_multiple_products_run o self product_list verbose st)
    as [res [st1 [E [O Hout]]]].
  rewrite E in Hrun. injection Hrun as -> <-.
  split.
  - destruct O as [[e [H _]]|O]; [discriminate H|exact O].
  - intro Hv. exact (Hout Hv _ _ eq_refl).
Qed.

(** ** The analyzer's methods *)

(** X16: after a call of [analyze_product] that returned [r], the data
    path and the entries of all other products are as before, and either
    [self.results[product_name]] holds [r] as its analysis result, or [r]
    is the failure message of an [Exception] the call caught.  In that
    case the analyzer is exactly as before, unless the crew had answered
    and it was a [print] of the [try] block that raised: then the
    answer is already stored, although the call reports a failure. *)
Theorem analyze_product_stores_what_it_returns {W : Type}
  (o : Crew.Outside W) (self : Crew.Analyzer) (product_name : string)
  (verbose : bool) (st : Crew.St W) (r : string) (self' : Crew.Analyzer)
  (st' : Crew.St W) :
  Crew.analyze_product o self product_name verbose st = (Ok (r, self'), st') ->
  Crew.data_path self' = Crew.data_path self
  /\ (forall q, q <> product_name ->
        Crew.dict_get q (Crew.results self') = Crew.dict_get q (Crew.results self))
  /\ ((exists en,
         Crew.dict_get product_name (Crew.results self') = Some en
         /\ Crew.analysis_result en = r)
      \/ (exists e,
            r = Outcome.failure_message product_name e
            /\ Crew.is_Exception o e = true
            /\ (self' = self
                \/ (Outcome.print_raises o e
                    /\ exists answer en,
                         Crew.dict_get product_name (Crew.results self')
                         = Some en
                         /\ Crew.analysis_result en = answer
                         /\ exists w w',
                              Crew.kickoff o w (Crew.data_path self)
                                product_name = (Ok answer, w'))))).
Proof.
  intro Hrun.
  destruct (analyze_product_public_run o self product_name verbose st)
    as [res [st1 [E O]]].
  rewrite E in Hrun. injection Hrun as -> _.
  destruct (product_outcome_frame o self product_name r self' O)
    as [Hd [Hother _]].
  split; [exact Hd|]. split; [exact Hother|].
  inversion O as [| | |r' s' Hst|r' s' e Hst Hp He|e w w' Hk He]; subst.
  - left. destruct (stored_lookup _ _ _ _ _ Hst) as [_ [_ [ts Ht]]].
    eexists. split; [exact Ht|reflexivity].
  - right. exists e. split; [reflexivity|]. split; [exact He|].
    right. split; [exact Hp|].
    destruct (stored_lookup _ _ _ _ _ Hst) as [_ [_ [ts Ht]]].
    exists r'. eexists. split; [exact Ht|]. split; [reflexivity|].
    destruct Hst as [w [w' [Hk _]]]. exists w, w'. exact Hk.
  - right. exists e. split; [reflexivity|]. split; [exact He|].
    left. reflexivity.
Qed.

Lemma analyze_product_stores_what_it_returns_witness :
  exists r self' st',
    Crew.analyze_product Samples.unprintable Samples.analyzer "Line" true
      Samples.start = (Ok (r, self'), st')
    /\ r = "❌ CrewAI Analysis failed for Line: 'ascii' codec can't encode character '✅'"%string
    /\ Crew.keys (Crew.results self') = ["Line"]%string
    /\ Crew.data_path self' = "sales.csv"%string
    /\ (forall q, q <> "Line"%string ->
          Crew.dict_get q (Crew.results self') = None).
Proof.
  eassert (H : _ /\ _ /\ _).
  { eapply (analyze_product_stores_what_it_returns Samples.unprintable
              Samples.analyzer "Line" true Samples.start).
    vm_compute. reflexivity. }
  destruct H as [Hd [Hother _]].
  do 3 eexists. split; [vm_compute; reflexivity|].
  split; [vm_compute; reflexivity|].
  split; [vm_compute; reflexivity|].
  split; [exact Hd|exact Hother].
Defined.

(** X17: a crew that fails is not an error of
    [analyze_multiple_products]: if building the tasks and the crew does
    not raise, no [print] raises, and what [crew.kickoff()] raises is
    always an [Exception], the call returns its dictionary, however many
    runs of the crew fail. *)
Theorem analyze_multiple_products_returns {W : Type}
  (o : Crew.Outside W) (self : Crew.Analyzer) (product_list : list string)
  (verbose : bool) (st : Crew.St W) :
  (forall w dp p, exists u w', Crew.assemble o w dp p = (Ok u, w')) ->
  (forall w s, exists u w', Crew.write o w s = (Ok u, w')) ->
  (forall w dp p e w',
     Crew.kickoff o w dp p = (Raise e, w') -> Crew.is_Exception o e = true) ->
  exists all_results self' st',
    Crew.analyze_multiple_products o self product_list verbose st
    = (Ok (all_results, self'), st').
Proof.
  intros Hassemble Hwrite Hkick.
  destruct (analyze_multiple_products_run o self product_list verbose st)
    as [res [st1 [E [O _]]]].
  assert (Hnp : forall e, ~ Outcome.print_raises o e).
  { intros e [w [s [w' H]]]. destruct (Hwrite w s) as [u [w1 H1]]. congruence. }
  destruct res as [[a s]|e]; [exists a, s, st1; exact E|].
  exfalso.
  destruct O as [[e' [H Hp]]|O].
  - exact (Hnp _ Hp).
  - destruct (loop_raise o _ _ _ _ O e eq_refl) as [Hp|[p [_ [Ha|Hc]]]].
    + exact (Hnp _ Hp).
    + destruct Ha as [w [w' Ha]].
      destruct (Hassemble w (Crew.data_path self) p) as [u [w1 H1]].
      congruence.
    + destruct Hc as [w [w' [Hk He]]].
      rewrite (Hkick _ _ _ _ _ Hk) in He. discriminate He.
Qed.

Lemma analyze_multiple_products_returns_witness :
  exists all_results self' st',
    Crew.analyze_multiple_products Samples.crew Samples.analyzer
      ["Line"; "Idle"; "Line"]%string true Samples.start
    = (Ok (all_results, self'), st').
Proof.
  apply (analyze_multiple_products_returns Samples.crew Samples.analyzer
           ["Line"; "Idle"; "Line"]%string true Samples.start).
  - intros w dp p. exists tt, w. reflexivity.
  - intros w s. exists tt, w. reflexivity.
  - intros w dp p e w' _. reflexivity.
Defined.

(** X18: an exception that leaves [analyze_multiple_products] was raised
    by a [print], or while the tasks and the crew of one of the listed
    products were built (before the [try] of [analyze_product]), or by
    the run of such a crew without being an [Exception]
    ([KeyboardInterrupt] and the like, which [except Exception] lets
    through). *)
Theorem analyze_multiple_products_escapes {W : Type}
  (o : Crew.Outside W) (self : Crew.Analyzer) (product_list : list string)
  (verbose : bool) (st : Crew.St W) (e : Exception) (st' : Crew.St W) :
  Crew.analyze_multiple_products o self product_list verbose st = (Raise e, st') ->
  (exists w s w', Crew.write o w s = (Raise e, w'))
  \/ exists p,
       In p product_list
       /\ ((exists w w',
              Crew.assemble o w (Crew.data_path self) p = (Raise e, w'))
           \/ (exists w w',
                 Crew.kickoff o w (Crew.data_path self) p = (Raise e, w')
                 /\ Crew.is_Exception o e = false)).
Proof.
  intro Hrun.
  destruct (analyze_multiple_products_run o self product_list verbose st)
    as [res [st1 [E [O _]]]].
  rewrite E in Hrun. injection Hrun as -> _.
  destruct O as [[e' [H Hp]]|O].
  - injection H as <-. left. exact Hp.
  - exact (loop_raise o _ _ _ _ O e eq_refl).
Qed.

Lemma analyze_multiple_products_escapes_witness :
  exists e st',
    Crew.analyze_multiple_products Samples.interrupted Samples.analyzer
      ["Line"; "Ramp"]%string false Samples.start = (Raise e, st')
    /\ exc_type e = "KeyboardInterrupt"%string
    /\ ((exists w s w', Crew.write Samples.interrupted w s = (Raise e, w'))
        \/ exists p,
             In p ["Line"; "Ramp"]%string
             /\ ((exists w w',
                    Crew.assemble Samples.interrupted w "sales.csv" p
                    = (Raise e, w'))
                 \/ (exists w w',
                       Crew.kickoff Samples.interrupted w "sales.csv" p
                       = (Raise e, w')
                       /\ Crew.is_Exception Samples.interrupted e = false))).
Proof.
  do 2 eexists. split; [vm_compute; reflexivity|].
  split; [reflexivity|].
  eapply (analyze_multiple_products_escapes Samples.interrupted
            Samples.analyzer ["Line"; "Ramp"]%string false Samples.start).
  vm_compute. reflexivity.
Defined.

(** X19: The dictionary [analyze_multiple_products] returns has one key
    per distinct name of [product_list], in the order of first appearance,
    and when verbose the call ends by printing that number as the
    products "analyzed successfully": repeated names count once and
    failed analyses count too. *)
Theorem analyze_multiple_products_keys_and_count {W : Type}
  (o : Crew.Outside W) (self : Crew.Analyzer) (product_list : list string)
  (verbose : bool) (st : Crew.St W) (all_results : Crew.Dict string)
  (self' : Crew.Analyzer) (st' : Crew.St W) :
  Crew.analyze_multiple_products o self product_list verbose st
  = (Ok (all_results, self'), st') ->
  Crew.keys all_results = Crew.unique product_list
  /\ NoDup (Crew.keys all_results)
  /\ (forall p, In p product_list <-> exists r, Crew.dict_get p all_results = Some r)
  /\ (List.length all_results <= List.length product_list)%nat
  /\ (verbose = true ->
      exists before,
        Crew.stdout st'
        = (before ++
           [(Py.nl ++ "🎉 ALL ANALYSES COMPLETE!")%string;
            ("📊 " ++ Py.str_nat (List.length (Crew.unique product_list))
             ++ " products analyzed successfully")%string;
            Crew.rule60])%list).
Proof.
  intro Hrun.
  destruct (analyze_multiple_products_returned o _ _ _ _ _ _ _ Hrun)
    as [O Hout].
  assert (Hk : Crew.keys all_results = Crew.unique product_list)
    by exact (loop_keys o _ _ _ _ O _ _ eq_refl).
  destruct (unique_spec product_list) as [Hnd Hin].
  assert (Hlen : List.length all_results = List.length (Crew.unique product_list)).
  { rewrite <- Hk. unfold Crew.keys. symmetry. apply length_map. }
  split; [exact Hk|]. split; [rewrite Hk; exact Hnd|]. split; [|split].
  - intro p. rewrite <- dict_get_keys, Hk. symmetry. apply Hin.
  - rewrite Hlen. apply unique_length.
  - intro Hv. destruct (Hout Hv) as [before Hb].
    exists before. rewrite Hb, Hlen. reflexivity.
Qed.

Lemma analyze_multiple_products_keys_and_count_witness :
  exists all_results self' st',
    Crew.analyze_multiple_products Samples.crew Samples.analyzer
      ["Line"; "Idle"; "Line"]%string true Samples.start
    = (Ok (all_results, self'), st')
    /\ Crew.keys all_results = ["Line"; "Idle"]%string
    /\ exists before,
         Crew.stdout st'
         = (before ++
            [(Py.nl ++ "🎉 ALL ANALYSES COMPLETE!")%string;
             "📊 2 products analyzed successfully"%string;
             Crew.rule60])%list.
Proof.
  eassert (H : _ /\ _ /\ _ /\ _ /\ _).
  { eapply (analyze_multiple_products_keys_and_count Samples.crew
              Samples.analyzer ["Line"; "Idle"; "Line"]%string true
              Samples.start).
    vm_compute. reflexivity. }
  destruct H as [Hk [_ [_ [_ Hout]]]].
  do 3 eexists. split; [vm_compute; reflexivity|].
  split; [exact Hk|exact (Hout eq_refl)].
Defined.

(** X20: Every value of the dictionary [analyze_multiple_products]
    returns from a fresh analyzer is accounted for: it is the failure
    message of its product, or it is the [analysis_result] stored in
    [self.results] for that product. *)
Theorem analyze_multiple_products_values_accounted {W : Type}
  (o : Crew.Outside W) (self : Crew.Analyzer) (product_list : list string)
  (verbose : bool) (st : Crew.St W) (all_results : Crew.Dict string)
  (self' : Crew.Analyzer) (st' : Crew.St W) :
  Crew.analyze_multiple_products o self product_list verbose st
  = (Ok (all_results, self'), st') ->
  forall p r,
    Crew.dict_get p all_results = Some r ->
    (exists e, r = Outcome.failure_message p e)
    \/ (exists en, Crew.dict_get p (Crew.results self') = Some en
                   /\ Crew.analysis_result en = r).
Proof.
  intro Hrun.
  destruct (analyze_multiple_products_returned o _ _ _ _ _ _ _ Hrun)
    as [O _].
  apply (loop_accounted o _ _ _ _ O _ _ eq_refl).
  intros p r H. discriminate H.
Qed.

Lemma analyze_multiple_products_values_accounted_witness :
  exists all_results self' st',
    Crew.analyze_multiple_products Samples.crew Samples.analyzer
      ["Line"; "Idle"; "Line"]%string true Samples.start
    = (Ok (all_results, self'), st')
    /\ Crew.dict_get "Idle" all_results
       = Some "❌ CrewAI Analysis failed for Idle: no sales to analyze"%string
    /\ forall p r,
         Crew.dict_get p all_results = Some r ->
         (exists e, r = Outcome.failure_message p e)
         \/ (exists en, Crew.dict_get p (Crew.results self') = Some en
                        /\ Crew.analysis_result en = r).
Proof.
  do 3 eexists. split; [vm_compute; reflexivity|].
  split; [vm_compute; reflexivity|].
  eapply (analyze_multiple_products_values_accounted Samples.crew
            Samples.analyzer ["Line"; "Idle"; "Line"]%string true Samples.start).
  vm_compute. reflexivity.
Defined.

(** X21: [analyze_multiple_products] only adds to [self.results]: the
    data path stays, every product that had an entry still has one, the
    entries of products outside [product_list] are unchanged, and every
    entry that is new or changed belongs to a listed product and records
    4 agents and 4 tasks. *)
Theorem analyze_multiple_products_results_kept {W : Type}
  (o : Crew.Outside W) (self : Crew.Analyzer) (product_list : list string)
  (verbose : bool) (st : Crew.St W) (all_results : Crew.Dict string)
  (self' : Crew.Analyzer) (st' : Crew.St W) :
  Crew.analyze_multiple_products o self product_list verbose st
  = (Ok (all_results, self'), st') ->
  Crew.data_path self' = Crew.data_path self
  /\ (forall q, ~ In q product_list ->
        Crew.dict_get q (Crew.results self') = Crew.dict_get q (Crew.results self))
  /\ (forall q, In q (Crew.keys (Crew.results self)) ->
                In q (Crew.keys (Crew.results self')))
  /\ (forall q en, Crew.dict_get q (Crew.results self') = Some en ->
        Crew.dict_get q (Crew.results self) = Some en
        \/ (In q product_list
            /\ Crew.crew_info en = Crew.mkCrewInfo 4 4 "Sequential Multi-Agent")).
Proof.
  intro Hrun.
  destruct (analyze_multiple_products_returned o _ _ _ _ _ _ _ Hrun)
    as [O _].
  exact (loop_results o _ _ _ _ O _ _ eq_refl).
Qed.

Lemma analyze_multiple_products_results_kept_witness :
  exists all_results self' st',
    Crew.analyze_multiple_products Samples.crew Samples.analyzer
      ["Line"; "Idle"; "Line"]%string false Samples.start
    = (Ok (all_results, self'), st')
    /\ Crew.keys (Crew.results self') = ["Line"]%string
    /\ Crew.data_path self' = "sales.csv"%string
    /\ (forall q, ~ In q ["Line"; "Idle"; "Line"]%string ->
          Crew.dict_get q (Crew.results self') = None).
Proof.
  eassert (H : _ /\ _ /\ _ /\ _).
  { eapply (analyze_multiple_products_results_kept Samples.crew
              Samples.analyzer ["Line"; "Idle"; "Line"]%string false
              Samples.start).
    vm_compute. reflexivity. }
  destruct H as [Hd [Hout _]].
  do 3 eexists. split; [vm_compute; reflexivity|].
  split; [vm_compute; reflexivity|].
  split; [exact Hd|exact Hout].
Defined.

(** X22: When the crew cannot run at all (every [crew.kickoff()] raises),
    [analyze_multiple_products] still returns a dictionary with a failure
    message for every listed product, and leaves the analyzer, and so
    [self.results], exactly as it was. *)
Theorem analyze_multiple_products_with_crew_down {W : Type}
  (o : Crew.Outside W) (self : Crew.Analyzer) (product_list : list string)
  (verbose : bool) (st : Crew.St W) (all_results : Crew.Dict string)
  (self' : Crew.Analyzer) (st' : Crew.St W) :
  (forall w dp p, exists e w', Crew.kickoff o w dp p = (Raise e, w')) ->
  Crew.analyze_multiple_products o self product_list verbose st
  = (Ok (all_results, self'), st') ->
  self' = self
  /\ forall p, In p product_list ->
       exists e, Crew.dict_get p all_results
                 = Some (Outcome.failure_message p e).
Proof.
  intros Hdown Hrun.
  destruct (analyze_multiple_products_returned o _ _ _ _ _ _ _ Hrun)
    as [O _].
  destruct (loop_offline o _ _ _ _ Hdown O _ _ eq_refl) as [Hs Hf].
  split; [exact Hs|].
  intros p Hp.
  assert (Hk : In p (Crew.keys all_results)).
  { rewrite (loop_keys o _ _ _ _ O _ _ eq_refl).
    apply (proj2 (unique_spec product_list)). exact Hp. }
  apply dict_get_keys in Hk. destruct Hk as [r Hr].
  assert (Hnone : Outcome.all_failed []).
  { intros q v H. discriminate H. }
  destruct (Hf Hnone p r Hr) as [e ->].
  exists e. exact Hr.
Qed.

Lemma analyze_multiple_products_with_crew_down_witness :
  exists all_results st',
    Crew.analyze_multiple_products Samples.offline Samples.analyzer
      ["Line"; "Ramp"]%string true Samples.start
    = (Ok (all_results, Samples.analyzer), st')
    /\ forall p, In p ["Line"; "Ramp"]%string ->
         exists e, Crew.dict_get p all_results
                   = Some (Outcome.failure_message p e).
Proof.
  do 2 eexists.
  refine ((fun Hrun =>
             conj Hrun
               (proj2 (analyze_multiple_products_with_crew_down Samples.offline
                         Samples.analyzer ["Line"; "Ramp"]%string true
                         Samples.start _ _ _ _ Hrun))) _).
  - intros w dp p. do 2 eexists. reflexivity.
  - vm_compute. reflexivity.
Defined.

(** X23: With [verbose=False] the analyzer prints nothing of its own:
    standard output is after [analyze_multiple_products] what it was
    before, whether the call returns or raises. *)
Theorem analyze_multiple_products_quiet {W : Type}
  (o : Crew.Outside W) (self : Crew.Analyzer) (product_list : list string)
  (st : Crew.St W) :
  Crew.stdout (snd (Crew.analyze_multiple_products o self product_list false st))
  = Crew.stdout st.
Proof.
  unfold Crew.analyze_multiple_products, Crew.call,
    Crew.Self.analyze_multiple_products.
  cbn [Crew.when]. unfold Crew.sbind at 1. unfold Crew.ret at 1.
  unfold Crew.sbind at 1.
  pose proof (analyze_each_quiet o product_list 1 (List.length product_list)
                [] (Crew.mkMem self st)) as Hq.
  destruct (Crew.Self.analyze_each o false 1 (List.length product_list)
              product_list [] (Crew.mkMem self st)) as [[a|e] mem1].
  - unfold Crew.sbind at 1. unfold Crew.ret. exact Hq.
  - exact Hq.
Qed.

(** ** Setting the analyzer up *)

Lemma print_run {W : Type} (o : Crew.Outside W) (s : string) (st : Crew.St W) :
  (exists w, Crew.print_ o s st = (Ok tt, Crew.mkSt w (Crew.stdout st ++ [s])))
  \/ (exists e st', Crew.print_ o s st = (Raise e, st')
                    /\ Outcome.print_raises o e).
Proof.
  unfold Crew.print_.
  destruct (Crew.write o (Crew.world st) s) as [[[]|e] w] eqn:E.
  - left. exists w. reflexivity.
  - right. exists e, (Crew.mkSt w (Crew.stdout st)). split; [reflexivity|].
    exists (Crew.world st), s, w. exact E.
Qed.

Lemma print_total {W : Type} (o : Crew.Outside W) :
  (forall w s, exists w', Crew.write o w s = (Ok tt, w')) ->
  forall s st, exists w,
    Crew.print_ o s st = (Ok tt, Crew.mkSt w (Crew.stdout st ++ [s])).
Proof.
  intros Hw s st. unfold Crew.print_.
  destruct (Hw (Crew.world st) s) as [w ->]. exists w. reflexivity.
Qed.

Lemma print_products_run {W : Type} (o : Crew.Outside W)
  (products : list string) :
  forall (i : nat) (st : Crew.St W),
  exists res st',
    Crew.print_products o i products st = (res, st')
    /\ match res with
       | Ok _ => True
       | Raise e => Outcome.print_raises o e
       end.
Proof.
  induction products as [|p rest IH]; intros i st.
  - exists (Ok tt), st. split; [reflexivity|exact I].
  - cbn [Crew.print_products]. unfold Crew.sbind at 1.
    destruct (print_run o ("   " ++ Py.str_nat i ++ ". " ++ p)%string st)
      as [[w ->]|[e [st1 [-> He]]]].
    + apply IH.
    + exists (Raise e), st1. split; [reflexivity|exact He].
Qed.

Lemma print_products_total {W : Type} (o : Crew.Outside W) :
  (forall w s, exists w', Crew.write o w s = (Ok tt, w')) ->
  forall products i st, exists st',
    Crew.print_products o i products st = (Ok tt, st').
Proof.
  intros Hw products.
  induction products as [|p rest IH]; intros i st.
  - exists st. reflexivity.
  - cbn [Crew.print_products]. unfold Crew.sbind at 1.
    destruct (print_total o Hw ("   " ++ Py.str_nat i ++ ". " ++ p)%string st)
      as [w ->].
    apply IH.
Qed.

(** One [print] of a sequence: it goes through, or [tac] closes the goal
    on what it raised. *)
Ltac next_print o tac :=
  unfold Crew.sbind at 1;
  match goal with
  | |- context [Crew.print_ o ?s ?st] =>
      let w := fresh "w" in
      let e := fresh "e" in
      let st1 := fresh "st" in
      let He := fresh "He" in
      destruct (print_run o s st) as [[w ->]|[e [st1 [-> He]]]];
      [|tac e st1 He]
  end.

Ltac next_print_total o Hw :=
  unfold Crew.sbind at 1;
  match goal with
  | |- context [Crew.print_ o ?s ?st] =>
      let w := fresh "w" in
      destruct (print_total o Hw s st) as [w ->]
  end.

(** The body of the [try]: it returns the analyzer and the products of a
    file that loads, and raises what a [print] or the loading raised. *)
Lemma setup_body_run {W : Type} (o : Crew.Outside W) (env : Env)
  (csv_file_path : string) (st : Crew.St W) :
  exists res st',
    Crew.setup_body o env csv_file_path st = (res, st')
    /\ match res with
       | Ok v =>
           exists data,
             Outcome.loads env csv_file_path data
             /\ v = (Some (Crew.mkAnalyzer csv_file_path []),
                     Crew.unique (map Pd.product (Pd.rows data)))
       | Raise e =>
           Outcome.print_raises o e
           \/ Outcome.load_raises env csv_file_path e
       end.
Proof.
  unfold Crew.setup_body.
  unfold Crew.sbind at 1, Crew.lift at 1.
  destruct (read_csv env csv_file_path) as [data|e0] eqn:Er.
  2:{ exists (Raise e0), st. split; [reflexivity|]. right. left. exact Er. }
  unfold Crew.sbind at 1, Crew.lift at 1.
  destruct (Pd.getitem data (product_col data)) as [[]|e0] eqn:Eg.
  2:{ exists (Raise e0), st. split; [reflexivity|]. right. right.
      exists data. split; [exact Er|]. left. exact Eg. }
  next_print o ltac:(fun e st1 He =>
    exists (Raise e), st1; split; [reflexivity|left; exact He]).
  next_print o ltac:(fun e st1 He =>
    exists (Raise e), st1; split; [reflexivity|left; exact He]).
  unfold Crew.sbind at 1.
  match goal with
  | |- context [Crew.print_products o 1 ?l ?s] =>
      destruct (print_products_run o l 1%nat s) as [[[]|e] [st2 [-> He]]]
  end.
  2:{ exists (Raise e), st2. split; [reflexivity|left; exact He]. }
  next_print o ltac:(fun e st1 He =>
    exists (Raise e), st1; split; [reflexivity|left; exact He]).
  next_print o ltac:(fun e st1 He =>
    exists (Raise e), st1; split; [reflexivity|left; exact He]).
  next_print o ltac:(fun e st1 He =>
    exists (Raise e), st1; split; [reflexivity|left; exact He]).
  unfold Crew.sbind at 1, Crew.lift at 1.
  destruct (Crew.first_product (Crew.unique (map Pd.product (Pd.rows data))))
    as [p0|e0] eqn:Ef.
  2:{ do 2 eexists. split; [reflexivity|]. right. right.
      exists data. split; [exact Er|]. right. split; [exact Eg|exact Ef]. }
  next_print o ltac:(fun e st1 He =>
    exists (Raise e), st1; split; [reflexivity|left; exact He]).
  next_print o ltac:(fun e st1 He =>
    exists (Raise e), st1; split; [reflexivity|left; exact He]).
  next_print o ltac:(fun e st1 He =>
    exists (Raise e), st1; split; [reflexivity|left; exact He]).
  next_print o ltac:(fun e st1 He =>
    exists (Raise e), st1; split; [reflexivity|left; exact He]).
  do 2 eexists. split; [reflexivity|].
  exists data. split; [|reflexivity].
  split; [exact Er|]. split.
  - unfold Pd.getitem in Eg.
    destruct (Pd.has_column data (product_col data)); [reflexivity|discriminate].
  - intro Hr. rewrite Hr in Ef. discriminate Ef.
Qed.

(** With a standard output that takes everything, the body raises
    exactly what the loading raises. *)
Lemma setup_body_total {W : Type} (o : Crew.Outside W) (env : Env)
  (csv_file_path : string) (st : Crew.St W) :
  (forall w s, exists w', Crew.write o w s = (Ok tt, w')) ->
  (forall data,
     Outcome.loads env csv_file_path data ->
     exists st',
       Crew.setup_body o env csv_file_path st
       = (Ok (Some (Crew.mkAnalyzer csv_file_path []),
              Crew.unique (map Pd.product (Pd.rows data))), st'))
  /\ (forall e,
        Outcome.load_raises env csv_file_path e ->
        exists st', Crew.setup_body o env csv_file_path st = (Raise e, st')).
Proof.
  intro Hw.
  assert (Hrun :
    forall data, read_csv env csv_file_path = Ok data ->
      Pd.getitem data (product_col data) = Ok tt ->
      exists st',
        Crew.setup_body o env csv_file_path st
        = (match Crew.first_product
                   (Crew.unique (map Pd.product (Pd.rows data))) with
           | Ok _ => Ok (Some (Crew.mkAnalyzer csv_file_path []),
                         Crew.unique (map Pd.product (Pd.rows data)))
           | Raise e => Raise e
           end, st')).
  { intros data Er Eg. unfold Crew.setup_body.
    unfold Crew.sbind at 1, Crew.lift at 1. rewrite Er.
    unfold Crew.sbind at 1, Crew.lift at 1. rewrite Eg.
    next_print_total o Hw. next_print_total o Hw.
    unfold Crew.sbind at 1.
    match goal with
    | |- context [Crew.print_products o 1 ?l ?s] =>
        destruct (print_products_total o Hw l 1%nat s) as [st2 ->]
    end.
    next_print_total o Hw. next_print_total o Hw. next_print_total o Hw.
    unfold Crew.sbind at 1, Crew.lift at 1.
    destruct (Crew.first_product (Crew.unique (map Pd.product (Pd.rows data))))
      as [p0|e0].
    - next_print_total o Hw. next_print_total o Hw. next_print_total o Hw.
      next_print_total o Hw. eexists. reflexivity.
    - eexists. reflexivity. }
  split.
  - intros data [Er [Ec Hne]].
    assert (Eg : Pd.getitem data (product_col data) = Ok tt)
      by (unfold Pd.getitem; rewrite Ec; reflexivity).
    destruct (Hrun data Er Eg) as [st' E]. exists st'. rewrite E.
    assert (Hu : Crew.unique (map Pd.product (Pd.rows data)) <> []).
    { apply unique_nonempty. destruct (Pd.rows data); [congruence|discriminate]. }
    destruct (Crew.unique (map Pd.product (Pd.rows data))); [congruence|].
    reflexivity.
  - intros e [Er|[data [Er [Eg|[Eg Ef]]]]].
    + exists st. unfold Crew.setup_body.
      unfold Crew.sbind at 1, Crew.lift at 1. rewrite Er. reflexivity.
    + exists st. unfold Crew.setup_body.
      unfold Crew.sbind at 1, Crew.lift at 1. rewrite Er.
      unfold Crew.sbind at 1, Crew.lift at 1. rewrite Eg. reflexivity.
    + destruct (Hrun data Er Eg) as [st' E]. exists st'. rewrite E, Ef.
      reflexivity.
Qed.

Lemma setup_run {W : Type} (o : Crew.Outside W) (env : Env)
  (csv_file_path : string) (st : Crew.St W) :
  exists res st',
    Crew.setup_crewai_for_your_data o env csv_file_path st = (res, st')
    /\ match res with
       | Ok v =>
           (exists data,
              Outcome.loads env csv_file_path data
              /\ v = (Some (Crew.mkAnalyzer csv_file_path []),
                      Crew.unique (map Pd.product (Pd.rows data))))
           \/ (v = (None, [])
               /\ exists e before,
                    Crew.is_Exception o e = true
                    /\ (Outcome.print_raises o e
                        \/ Outcome.load_raises env csv_file_path e)
                    /\ Crew.stdout st'
                       = (before ++ [Outcome.loading_error e])%list)
       | Raise e =>
           Outcome.print_raises o e
           \/ (Outcome.load_raises env csv_file_path e
               /\ Crew.is_Exception o e = false)
       end.
Proof.
  unfold Crew.setup_crewai_for_your_data.
  next_print o ltac:(fun e st1 He =>
    exists (Raise e), st1; split; [reflexivity|left; exact He]).
  next_print o ltac:(fun e st1 He =>
    exists (Raise e), st1; split; [reflexivity|left; exact He]).
  unfold Crew.try_except.
  match goal with
  | |- context [Crew.setup_body o env csv_file_path ?s] =>
      destruct (setup_body_run o env csv_file_path s)
        as [[v|e] [st3 [-> H]]]
  end.
  - exists (Ok v), st3. split; [reflexivity|]. left. exact H.
  - destruct (Crew.is_Exception o e) eqn:Ei.
    + unfold Crew.setup_handler.
      next_print o ltac:(fun e1 st1 He =>
        exists (Raise e1), st1; split; [reflexivity|left; exact He]).
      do 2 eexists. split; [reflexivity|]. right. split; [reflexivity|].
      exists e, (Crew.stdout st3). split; [exact Ei|]. split; [exact H|].
      reflexivity.
    + exists (Raise e), st3. split; [reflexivity|].
      destruct H as [H|H]; [left; exact H|right; split; [exact H|exact Ei]].
Qed.

(** X24: How [setup_crewai_for_your_data] ends.  When it returns, it
    returns either an analyzer for the file, with no results yet, and
    the distinct product names in order of first appearance (the file
    then loaded, has its product column and at least one row, and the
    list is not empty and has no duplicates), or [(None, [])], having
    last printed the error line for an [Exception] that the loading or
    a [print] of the [try] block raised.  What it raises, a [print]
    raised, or the loading raised and is no [Exception].  With a
    standard output on which no [print] raises, it returns the analyzer
    for every file that loads with its product column and a row, and
    [(None, [])] whenever the loading raises an [Exception], a file with
    a header and no rows included. *)
Theorem setup_crewai_for_your_data_outcomes {W : Type} (o : Crew.Outside W)
  (env : Env) (csv_file_path : string) (st : Crew.St W) :
  (forall v st',
     Crew.setup_crewai_for_your_data o env csv_file_path st = (Ok v, st') ->
     (exists data,
        read_csv env csv_file_path = Ok data
        /\ Pd.has_column data (product_col data) = true
        /\ Pd.rows data <> []
        /\ v = (Some (Crew.mkAnalyzer csv_file_path []),
                Crew.unique (map Pd.product (Pd.rows data)))
        /\ snd v <> [] /\ NoDup (snd v))
     \/ (v = (None, [])
         /\ exists e before,
              Crew.is_Exception o e = true
              /\ (Outcome.print_raises o e
                  \/ Outcome.load_raises env csv_file_path e)
              /\ Crew.stdout st'
                 = (before ++ [("❌ Error loading data: " ++ exc_str e)%string])%list))
  /\ (forall e st',
        Crew.setup_crewai_for_your_data o env csv_file_path st = (Raise e, st') ->
        Outcome.print_raises o e
        \/ (Outcome.load_raises env csv_file_path e
            /\ Crew.is_Exception o e = false))
  /\ ((forall w s, exists w', Crew.write o w s = (Ok tt, w')) ->
      (forall data,
         read_csv env csv_file_path = Ok data ->
         Pd.has_column data (product_col data) = true ->
         Pd.rows data <> [] ->
         exists st',
           Crew.setup_crewai_for_your_data o env csv_file_path st
           = (Ok (Some (Crew.mkAnalyzer csv_file_path []),
                  Crew.unique (map Pd.product (Pd.rows data))), st'))
      /\ (forall e,
            Outcome.load_raises env csv_file_path e ->
            Crew.is_Exception o e = true ->
            exists st',
              Crew.setup_crewai_for_your_data o env csv_file_path st
              = (Ok (None, []), st'))).
Proof.
  split; [|split].
  - intros v st' Hrun.
    destruct (setup_run o env csv_file_path st) as [res [st1 [E H]]].
    rewrite E in Hrun. injection Hrun as -> ->.
    destruct H as [[data [[Er [Ec Hne]] ->]]|H]; [left|right; exact H].
    exists data. split; [exact Er|]. split; [exact Ec|].
    split; [exact Hne|]. split; [reflexivity|]. cbn [snd]. split.
    + apply unique_nonempty.
      destruct (Pd.rows data); [congruence|discriminate].
    + apply unique_spec.
  - intros e st' Hrun.
    destruct (setup_run o env csv_file_path st) as [res [st1 [E H]]].
    rewrite E in Hrun. injection Hrun as -> ->. exact H.
  - intro Hw.
    assert (Hpre : exists st2,
               Crew.setup_crewai_for_your_data o env csv_file_path st
               = Crew.try_except o (Crew.setup_body o env csv_file_path)
                   (Crew.setup_handler o) st2).
    { unfold Crew.setup_crewai_for_your_data.
      next_print_total o Hw. next_print_total o Hw.
      eexists. reflexivity. }
    destruct Hpre as [st2 ->].
    unfold Crew.try_except.
    destruct (setup_body_total o env csv_file_path st2 Hw) as [Hok Hbad].
    split.
    + intros data Er Ec Hne.
      destruct (Hok data (conj Er (conj Ec Hne))) as [st' ->].
      exists st'. reflexivity.
    + intros e He Ei.
      destruct (Hbad e He) as [st' ->]. rewrite Ei.
      unfold Crew.setup_handler.
      next_print_total o Hw. eexists. reflexivity.
Qed.

Lemma setup_crewai_for_your_data_outcomes_witness :
  (forall w s, exists w', Crew.write Samples.crew w s = (Ok tt, w'))
  /\ read_csv Examples.env "sales.csv" = Ok Examples.sales_csv
  /\ Pd.has_column Examples.sales_csv (product_col Examples.sales_csv) = true
  /\ Pd.rows Examples.sales_csv <> []
  /\ exists st',
       Crew.setup_crewai_for_your_data Samples.crew Examples.env "sales.csv"
         Samples.start
       = (Ok (Some (Crew.mkAnalyzer "sales.csv" []),
              Crew.unique (map Pd.product (Pd.rows Examples.sales_csv))), st').
Proof.
  assert (Hw : forall w s, exists w', Crew.write Samples.crew w s = (Ok tt, w'))
    by (intros w s; exists w; reflexivity).
  assert (Hne : Pd.rows Examples.sales_csv <> [])
    by (vm_compute; discriminate).
  split; [exact Hw|]. split; [reflexivity|]. split; [reflexivity|].
  split; [exact Hne|].
  exact (proj1 (proj2 (proj2 (setup_crewai_for_your_data_outcomes Samples.crew
                                Examples.env "sales.csv" Samples.start)) Hw)
           Examples.sales_csv eq_refl eq_refl Hne).
Defined.

(** A file with its header and no rows: the product list is empty,
    [products[0]] raises, and the call returns [(None, [])]. *)
Example setup_on_header_only :
  exists st',
    Crew.setup_crewai_for_your_data Samples.crew Examples.no_sales_column
      "sales.csv" Samples.start
    = (Ok (None, []), st')
    /\ last (Crew.stdout st') ""%string
       = "❌ Error loading data: list index out of range"%string.
Proof. eexists. split; [vm_compute; reflexivity|reflexivity]. Qed.

(** A file that loads on a standard output that cannot take the check
    mark: the [print] raises inside the [try], and the call returns
    [(None, [])]. *)
Example setup_on_ascii_console :
  exists st',
    Crew.setup_crewai_for_your_data Samples.unprintable Examples.env
      "sales.csv" Samples.start
    = (Ok (None, []), st').
Proof. eexists. vm_compute. reflexivity. Qed.

(* ================================================================= *)
(** * The sample data *)

Lemma filter_map_const {A B : Type} (P : B -> bool) (f : A -> B) (b : bool)
  (l : list A) :
  (forall x, P (f x) = b) ->
  filter P (map f l) = if b then map f l else [].
Proof.
  intro H. induction l as [|x l IH]; simpl.
  - destruct b; reflexivity.
  - rewrite (H x), IH. destruct b; reflexivity.
Qed.

Lemma select_product_rows (np : Demo.Numpy) (p q : string) (d : nat) :
  filter (fun r => String.eqb (Pd.product r) p) (Demo.product_rows np q d)
  = if String.eqb q p then Demo.product_rows np q d else [].
Proof.
  unfold Demo.product_rows.
  apply (filter_map_const (fun r => String.eqb (Pd.product r) p)).
  intro x. reflexivity.
Qed.

Lemma dates_length : List.length Demo.dates = 104%nat.
Proof. unfold Demo.dates. rewrite length_map, length_seq. reflexivity. Qed.

Lemma product_rows_length (np : Demo.Numpy) (p : string) (d : nat) :
  List.length (Demo.product_rows np p d) = 104%nat.
Proof.
  unfold Demo.product_rows.
  rewrite length_map, length_combine, length_seq, dates_length. reflexivity.
Qed.

Lemma units_sold_positive (np : Demo.Numpy) (p : string) (i d : nat) :
  1 <= inject_Z (Demo.units_sold np p i d).
Proof.
  unfold Demo.units_sold.
  change 1 with (inject_Z 1). rewrite <- Zle_Qle. apply Z.le_max_l.
Qed.

Lemma product_rows_In (np : Demo.Numpy) (p : string) (d : nat) (r : Pd.Row) :
  In r (Demo.product_rows np p d) ->
  Pd.product r = p
  /\ (exists t, Pd.date r = Ok t)
  /\ (exists z, (1 <= z)%Z /\ Pd.sales r = Pd.Int z).
Proof.
  unfold Demo.product_rows. intro H. apply in_map_iff in H.
  destruct H as [[i t] [<- _]]. cbn [Pd.product Pd.date Pd.sales fst snd].
  split; [reflexivity|]. split; [exists t; reflexivity|].
  eexists. split; [|reflexivity]. unfold Demo.units_sold. apply Z.le_max_l.
Qed.

Lemma sample_rows_of_product (np : Demo.Numpy) (p : string) :
  In p Demo.products ->
  exists d,
    Pd.select_product (Demo.create_sample_data np) p = Demo.product_rows np p d.
Proof.
  unfold Pd.select_product, Demo.create_sample_data.
  cbn [Pd.rows Demo.all_rows Demo.products].
  rewrite !filter_app, !select_product_rows. cbn [filter].
  intros [<-|[<-|[<-|[]]]]; cbn [String.eqb Ascii.eqb Bool.eqb];
    eexists; rewrite ?app_nil_r; reflexivity.
Qed.

Lemma to_datetime_dated (l : list Pd.Row) :
  (forall r, In r l -> exists t, Pd.date r = Ok t) ->
  exists obs,
    Pd.to_datetime l = Ok obs
    /\ List.length obs = List.length l
    /\ map snd obs = map (fun r => Pd.value (Pd.sales r)) l.
Proof.
  induction l as [|r l IH]; intro H.
  - exists []. repeat split.
  - destruct (H r (or_introl eq_refl)) as [t Ht].
    destruct (IH (fun r' Hr' => H r' (or_intror Hr'))) as [obs [E [L M]]].
    exists ((t, Pd.value (Pd.sales r)) :: obs).
    cbn [Pd.to_datetime]. rewrite Ht, E. cbn [bind].
    split; [reflexivity|]. split; cbn; congruence.
Qed.

(** The three tools answer with a report, not an error text, for a
    product whose series loads and is not empty. *)
Lemma tools_answer_on_series
  (env : Env) (data_path product_name : string) (obs : list Pd.Obs) :
  series_of env data_path product_name = Some obs ->
  obs <> [] ->
  starts_with "Error in" (S._run env data_path product_name) = false
  /\ starts_with "Error in" (T._run env data_path product_name) = false
  /\ starts_with "Error in" (C._run env data_path product_name) = false.
Proof.
  intros Hload Hobs.
  pose proof (seasonality_analysis_of_series _ _ _ _ Hload) as HS.
  pose proof (trend_analysis_of_series _ _ _ _ Hload) as HT.
  pose proof (classification_analysis_of_series _ _ _ _ Hload) as HC.
  unfold S._run, T._run, C._run. rewrite HS, HT, HC.
  destruct obs as [|o obs]; [congruence|].
  assert (Hne : Pd.sort_values_Date (tie_rank env) (o :: obs) <> []).
  { intro E. apply (Permutation_nil_cons (l := obs) (x := o)).
    rewrite <- E. symmetry. apply sort_values_Date_perm. }
  destruct (trend_metrics_nonempty (sales_type_of env data_path) _ Hne)
    as [model [recent [o' [l' [_ [Hfit [_ Hm]]]]]]].
  rewrite Hm. unfold C.metrics. rewrite Hfit. cbn [bind catch_as].
  rewrite seasonality_report_not_error, trend_report_not_error,
    classification_report_not_error.
  repeat split.
Qed.

(** X25: Whatever the random draws and the sine are, the sample data
    has the three columns the tools read and 312 rows, 104 for each of
    the three products; every row has a date that parses and a whole
    number of units sold that is at least 1. *)
Theorem sample_data_shape (np : Demo.Numpy) :
  has_columns (Demo.create_sample_data np) = true
  /\ List.length (Pd.rows (Demo.create_sample_data np)) = 312%nat
  /\ (forall p, In p Demo.products ->
        List.length (Pd.select_product (Demo.create_sample_data np) p) = 104%nat)
  /\ (forall r, In r (Pd.rows (Demo.create_sample_data np)) ->
        In (Pd.product r) Demo.products
        /\ (exists t, Pd.date r = Ok t)
        /\ (exists z, (1 <= z)%Z /\ Pd.sales r = Pd.Int z)).
Proof.
  split; [reflexivity|]. split; [|split].
  - unfold Demo.create_sample_data. cbn [Pd.rows Demo.all_rows Demo.products].
    rewrite !length_app, !product_rows_length. reflexivity.
  - intros p Hp. destruct (sample_rows_of_product np p Hp) as [d ->].
    apply product_rows_length.
  - unfold Demo.create_sample_data. cbn [Pd.rows Demo.all_rows Demo.products].
    intros r Hr. rewrite !in_app_iff in Hr.
    destruct Hr as [H|[H|[H|[]]]];
      destruct (product_rows_In _ _ _ _ H) as [Hp [Hd Hs]];
      (split; [rewrite Hp; simpl; auto|split; [exact Hd|exact Hs]]).
Qed.

(** X26: The tools work on the sample data: for each of its three
    products, whatever the random draws, none of the three tools answers
    with an error text, and the classification tool returns exactly one
    of the classifier's seven labels with a confidence between 0 and
    1. *)
Theorem sample_data_is_analysed
  (np : Demo.Numpy) (env : Env) (data_path product_name : string) :
  read_csv env data_path = Ok (Demo.create_sample_data np) ->
  In product_name Demo.products ->
  starts_with "Error in" (S._run env data_path product_name) = false
  /\ starts_with "Error in" (T._run env data_path product_name) = false
  /\ starts_with "Error in" (C._run env data_path product_name) = false
  /\ exists r,
       C.analysis env data_path product_name = Ok r
       /\ (exists! c, C.classification r = label c)
       /\ between 0 1 (C.confidence r).
Proof.
  intros Hread Hp.
  destruct (sample_rows_of_product np product_name Hp) as [d Hsel].
  assert (Hrows : forall r, In r (Demo.product_rows np product_name d) ->
                            exists t, Pd.date r = Ok t).
  { intros r Hr. apply (product_rows_In _ _ _ _ Hr). }
  destruct (to_datetime_dated _ Hrows) as [obs [Hobs [Hlen Hsales]]].
  rewrite product_rows_length in Hlen.
  assert (Hload : series_of env data_path product_name = Some obs).
  { unfold series_of. rewrite Hread.
    change (has_columns (Demo.create_sample_data np)) with true.
    cbv iota. rewrite Hsel, Hobs.
    destruct (Pd.header_only (Demo.create_sample_data np)) eqn:Hh;
      [|reflexivity].
    unfold Pd.header_only in Hh.
    destruct (Pd.rows (Demo.create_sample_data np)) as [|r rs] eqn:Hr;
      [|discriminate Hh].
    apply (f_equal (@List.length Pd.Row)) in Hr.
    unfold Demo.create_sample_data in Hr.
    cbn [Pd.rows Demo.all_rows Demo.products] in Hr.
    rewrite !length_app, !product_rows_length in Hr. discriminate Hr. }
  assert (Hge : forall o, In o obs -> 1 <= snd o).
  { intros o Ho. apply (in_map snd) in Ho. rewrite Hsales in Ho.
    apply in_map_iff in Ho. destruct Ho as [r [<- Hr]].
    destruct (product_rows_In _ _ _ _ Hr) as [_ [_ [z [Hz ->]]]].
    cbn [Pd.value]. change 1 with (inject_Z 1). rewrite <- Zle_Qle.
    exact Hz. }
  assert (Hne : obs <> []).
  { intro E. rewrite E in Hlen. discriminate Hlen. }
  destruct (tools_answer_on_series _ _ _ _ Hload Hne) as [HS [HT HC]].
  split; [exact HS|]. split; [exact HT|]. split; [exact HC|].
  destruct (classification_of_sales_data env data_path product_name obs Hload)
    as [r [Hr [Hr2 [_ [Hlab Hconf]]]]].
  - rewrite Hlen. lia.
  - intros o Ho. specialize (Hge o Ho). lra.
  - destruct obs as [|o obs']; [congruence|].
    exists o. split; [left; reflexivity|].
    specialize (Hge o (or_introl eq_refl)). lra.
  - exists r. auto.
Qed.

Lemma sample_data_is_analysed_witness :
  starts_with "Error in" (S._run Demo.env_still "sample_data.csv" "RoseBox_Z") = false
  /\ starts_with "Error in" (T._run Demo.env_still "sample_data.csv" "RoseBox_Z") = false
  /\ starts_with "Error in" (C._run Demo.env_still "sample_data.csv" "RoseBox_Z") = false
  /\ exists r,
       C.analysis Demo.env_still "sample_data.csv" "RoseBox_Z" = Ok r
       /\ (exists! c, C.classification r = label c)
       /\ between 0 1 (C.confidence r).
Proof.
  apply (sample_data_is_analysed Demo.still Demo.env_still "sample_data.csv"
           "RoseBox_Z").
  - reflexivity.
  - right. right. left. reflexivity.
Defined.
